(** * Username generation and change-set reconciliation of the AD management tool

    A shallow embedding of the two pieces of logic of the repository:

    - the SAM-account-name generators [auto_generate_sam_account] of
      [helpers.py] (three ordered candidates) and of [UserEditor/helpers.py]
      (first initial, then numbered and two-letter variations), with their
      directory existence checks;
    - the edit-mode reconciler [UserWindow.save_changes] and the create-mode
      routine [UserWindow.create_user] of [UserEditor/user_window.py].

    Python strings are modelled as [string]; a character is a code point
    below 256 (Latin-1), on which [str.lower] and [str.strip] are written out
    exactly.  Python dictionaries are [gmap]s keyed by attribute name, the
    dirty flags ([modified_attributes], whose values are always [True]) a
    [gset]. *)

From Stdlib Require Import ZArith NArith Ascii Strings.Byte String List Lia DecimalString.
From stdpp Require Import gmap strings fin_maps.

Local Open Scope string_scope.

(** ** Python string operations *)

Module PyStr.

(** [len(s) == 0], i.e. [not s]. *)
Definition is_empty (s : string) : bool :=
  match s with
  | EmptyString => true
  | String _ _ => false
  end.

(** [c.isspace()] on code points below 256. *)
Definition isspace (c : ascii) : bool :=
  let n := N_of_ascii c in
  ((9 <=? n) && (n <=? 13) || (28 <=? n) && (n <=? 32)
   || (n =? 133) || (n =? 160))%N.

(** [c.lower()] on code points below 256: A-Z and the Latin-1 capitals
    (all of 192..222 but the multiplication sign 215) move up by 32. *)
Definition lower_char (c : ascii) : ascii :=
  let n := N_of_ascii c in
  if ((65 <=? n) && (n <=? 90)
      || (192 <=? n) && (n <=? 222) && negb (n =? 215))%N
  then ascii_of_N (n + 32) else c.

Fixpoint map_str (f : ascii -> ascii) (s : string) : string :=
  match s with
  | EmptyString => EmptyString
  | String c s' => String (f c) (map_str f s')
  end.

Fixpoint all_chars (p : ascii -> bool) (s : string) : bool :=
  match s with
  | EmptyString => true
  | String c s' => p c && all_chars p s'
  end.

(** [c in s] for a single character [c]. *)
Fixpoint char_in (c : ascii) (s : string) : bool :=
  match s with
  | EmptyString => false
  | String d s' => Ascii.eqb c d || char_in c s'
  end.

Definition lower (s : string) : string := map_str lower_char s.


Fixpoint lstrip (s : string) : string :=
  match s with
  | EmptyString => EmptyString
  | String c s' => if isspace c then lstrip s' else s
  end.

Fixpoint rstrip (s : string) : string :=
  match s with
  | EmptyString => EmptyString
  | String c s' =>
      match rstrip s' with
      | EmptyString => if isspace c then EmptyString else String c EmptyString
      | r => String c r
      end
  end.

(** [s.strip()] *)
Definition strip (s : string) : string := rstrip (lstrip s).

Fixpoint take (n : nat) (s : string) : string :=
  match n, s with
  | S n', String c s' => String c (take n' s')
  | _, _ => EmptyString
  end.

(** [s[:k]]; a negative stop counts from the end. *)
Definition slice_to (k : Z) (s : string) : string :=
  if (0 <=? k)%Z then take (Z.to_nat k) s
  else take (String.length s - Z.to_nat (- k)) s.

(** [str(n)] for a non-negative integer. *)
Definition str_of_nat (n : nat) : string :=
  NilEmpty.string_of_uint (Nat.to_uint n).

(** [s in l] for a list of strings. *)
Definition str_in (s : string) (l : list string) : bool :=
  existsb (String.eqb s) l.

Definition is_digit (c : ascii) : bool :=
  let n := N_of_ascii c in ((48 <=? n) && (n <=? 57))%N.

End PyStr.

(** ** The directory connection, as far as the existence checks use it *)

Module Ldap.

(** What [ldap_conn.search(...)] leaves behind: the entries found, or an
    exception. *)
Inductive search_outcome :=
| Entries (es : list string)
| SearchRaises.

(** [defaultNamingContext] is
    [server.info.other['defaultNamingContext'][0]], [None] when that lookup
    raises; [search base filter] is a subtree search for [sAMAccountName]. *)
Record Connection := {
  defaultNamingContext : option string;
  search : string -> string -> search_outcome
}.

Definition sam_filter (sam_account : string) : string :=
  "(sAMAccountName=" +:+ sam_account +:+ ")".

End Ldap.

(** ** helpers.py *)

Module Helpers.
Import PyStr Ldap.

(** [check_sam_account_exists]: any exception inside the [try] (a failing
    search, or a connection that is [None]) is answered [False]. *)
Definition check_sam_account_exists
    (sam_account : string) (ldap_conn : option Connection) : bool :=
  match ldap_conn with
  | None => false
  | Some conn =>
      match search conn "" (sam_filter sam_account) with
      | Entries es => negb (bool_decide (es = []))
      | SearchRaises => false
      end
  end.

(** The candidate list built by [auto_generate_sam_account]. *)
Definition candidates (first last : string) : list string :=
  let first := strip (lower first) in
  let last := strip (lower last) in
  let candidates : list string := [] in
  let cand1 := first +:+ "." +:+ last in
  let candidates :=
    if (String.length cand1 <=? 20)%nat
    then (candidates ++ [cand1])%list else candidates in
  let cand2 :=
    match first with
    | String c _ => String c EmptyString +:+ "." +:+ last
    | EmptyString => ""
    end in
  let candidates :=
    if negb (is_empty cand2) && (String.length cand2 <=? 20)%nat
       && negb (str_in cand2 candidates)
    then (candidates ++ [cand2])%list else candidates in
  let cand3 :=
    if (2 <=? String.length first)%nat then take 2 first +:+ "." +:+ last
    else cand2 in
  let candidates :=
    if negb (is_empty cand3) && (String.length cand3 <=? 20)%nat
       && negb (str_in cand3 candidates)
    then (candidates ++ [cand3])%list else candidates in
  candidates.

(** The final loop: the first candidate not reported as existing. *)
Fixpoint first_free (ldap_conn : option Connection) (cs : list string)
    : option string :=
  match cs with
  | [] => None
  | candidate :: cs' =>
      if negb (check_sam_account_exists candidate ldap_conn)
      then Some candidate
      else first_free ldap_conn cs'
  end.

Definition auto_generate_sam_account
    (first last : string) (ldap_conn : option Connection) : option string :=
  first_free ldap_conn (candidates first last).

End Helpers.

(** ** Results of code that can raise *)

Inductive exn := IndexError | TypeError | AttributeError.

Inductive py (A : Type) :=
| Ret (a : A)
| Raise (e : exn).
Arguments Ret {A} a.
Arguments Raise {A} e.

#[global] Instance py_ret : MRet py := fun A a => Ret a.

#[global] Instance py_bind : MBind py := fun A B k m =>
  match m with
  | Ret a => k a
  | Raise e => Raise e
  end.

(** ** UserEditor/helpers.py *)

Module UserEditorHelpers.
Import PyStr Ldap.

(** The character wrapped around a password: the double quote. *)
Definition dquote : ascii := "034"%char.

(** One UTF-16 code unit, little end first; the high byte of a code point
    below 256 is zero. *)
Fixpoint utf_16_le (s : string) : list byte :=
  match s with
  | EmptyString => []
  | String c s' => byte_of_ascii c :: x00 :: utf_16_le s'
  end.

(** [encode_password] *)
Definition encode_password (password : string) : list byte :=
  let password := String dquote (password +:+ String dquote EmptyString) in
  utf_16_le password.

(** [is_sam_account_unique]: no connection, an empty name and any
    exception inside the [try] are all answered [False]. *)
Definition is_sam_account_unique
    (ldap_conn : option Connection) (sam_account : string) : bool :=
  match ldap_conn with
  | None => false
  | Some conn =>
      if is_empty sam_account then false
      else
        match defaultNamingContext conn with
        | None => false
        | Some base =>
            match search conn base (sam_filter sam_account) with
            | Entries es => bool_decide (es = [])
            | SearchRaises => false
            end
        end
  end.

(** [string.ascii_lowercase + string.digits + ".-_"] *)
Definition valid_chars : string := "abcdefghijklmnopqrstuvwxyz0123456789.-_".

Definition is_valid_char (c : ascii) : bool := char_in c valid_chars.

Definition sanitize_char (c : ascii) : ascii :=
  if is_valid_char c then c else "."%char.

(** [''.join(c if c in valid_chars else '.' for c in candidate)] *)
Definition sanitize (candidate : string) : string :=
  map_str sanitize_char candidate.

(** [f"{candidate[:19-len(str(attempt))]}{attempt}"] *)
Definition numbered (candidate : string) (attempt : nat) : string :=
  slice_to (19 - Z.of_nat (String.length (str_of_nat attempt))) candidate
  +:+ str_of_nat attempt.

(** The candidate tried at one pass of the loop. *)
Definition new_candidate
    (ldap_conn : option Connection) (first last candidate : string)
    (attempt : nat) : string :=
  if (attempt <=? 2)%nat then numbered candidate attempt
  else if (2 <=? String.length first)%nat then
    let new_candidate := slice_to 20 (take 2 first +:+ "." +:+ last) in
    if negb (is_sam_account_unique ldap_conn new_candidate) then
      let suffix := attempt - 2 in
      take 2 first +:+ "."
      +:+ slice_to (17 - Z.of_nat (String.length (str_of_nat suffix))) last
      +:+ str_of_nat suffix
    else new_candidate
  else numbered candidate attempt.

(** [for attempt in range(1, max_attempts + 1)], over the attempts left. *)
Fixpoint variations
    (ldap_conn : option Connection) (first last candidate : string)
    (attempts : list nat) : option string :=
  match attempts with
  | [] => None
  | attempt :: rest =>
      let new_candidate :=
        new_candidate ldap_conn first last candidate attempt in
      if is_sam_account_unique ldap_conn new_candidate
      then Some new_candidate
      else variations ldap_conn first last candidate rest
  end.

(** The base candidate: first initial, dot, last name, cut to 20 characters
    and sanitized.  [first[0]] raises on an empty string. *)
Definition base_candidate (first last : string) : py string :=
  match first with
  | EmptyString => Raise IndexError
  | String c _ =>
      let candidate := String c EmptyString +:+ "." +:+ last in
      let candidate :=
        if (20 <? String.length candidate)%nat then slice_to 20 candidate
        else candidate in
      Ret (sanitize candidate)
  end.

Definition auto_generate_sam_account
    (first last : string) (ldap_conn : option Connection)
    (max_attempts : nat) : py (option string) :=
  if is_empty first || is_empty last || bool_decide (ldap_conn = None)
  then Ret None
  else
    let first := lower (strip first) in
    let last := lower (strip last) in
    candidate ← base_candidate first last;
    if negb (is_sam_account_unique ldap_conn candidate) then
      Ret (variations ldap_conn first last candidate (seq 1 max_attempts))
    else Ret (Some candidate).

(** The default of the keyword argument [max_attempts]. *)
Definition default_max_attempts : nat := 5.

End UserEditorHelpers.

(** ** Directory values and modify requests *)

(** One attribute value as ldap3 hands it over or takes it: text, an integer
    or raw bytes. *)
Inductive scalar :=
| SStr (s : string)
| SInt (z : Z)
| SBytes (b : list byte).

(** An entry of [user_data], of the attributes tab or of the attribute
    dictionary of an add: a single value or a Python list of values. *)
Inductive value :=
| Scalar (x : scalar)
| Multi (xs : list scalar).

Inductive mod_op := MODIFY_ADD | MODIFY_DELETE | MODIFY_REPLACE.

#[global] Instance byte_eq_dec : EqDecision byte := Byte.byte_eq_dec.
#[global] Instance scalar_eq_dec : EqDecision scalar.
Proof. solve_decision. Defined.
#[global] Instance value_eq_dec : EqDecision value.
Proof. solve_decision. Defined.
#[global] Instance mod_op_eq_dec : EqDecision mod_op.
Proof. solve_decision. Defined.

(** The dictionary handed to [modify]: attribute name to a list of
    [(operation, values)] pairs. *)
Abbreviation modifications_t := (gmap string (list (mod_op * list scalar))).

(** [[(MODIFY_REPLACE, [x])]] *)
Definition replace_with (x : scalar) : list (mod_op * list scalar) :=
  [(MODIFY_REPLACE, [x])].

(** [value if isinstance(value, list) else [value]] *)
Definition as_list (v : value) : list scalar :=
  match v with
  | Scalar x => [x]
  | Multi xs => xs
  end.

(** [if cond: modifications[attr] = [(MODIFY_REPLACE, [x])]] *)
Definition set_if (cond : bool) (attr : string) (x : scalar)
    (modifications : modifications_t) : modifications_t :=
  if cond then <[attr := replace_with x]> modifications else modifications.

(** The items of the country drop-down: display name, two-letter code,
    numeric code. *)
Definition countries : list (string * (string * string)) :=
  [("United States", ("US", "840"));
   ("Canada", ("CA", "124"));
   ("United Kingdom", ("GB", "826"))].

(** [itemData(idx)] and [currentText()] of the country drop-down at a
    non-negative index; nothing there when the index is out of range. *)
Definition country_item (idx : Z) : option (string * (string * string)) :=
  countries !! Z.to_nat idx.

(** ** UserEditor/user_window.py, edit mode *)

Module EditMode.
Import PyStr UserEditorHelpers.

(** The widgets [save_changes] reads: texts of the line edits, states of
    the check boxes, current text of the UPN suffix box and current index
    of the country box. *)
Record edit_form := {
  first_name_edit : string;
  last_name_edit : string;
  display_name_edit : string;
  email_edit : string;
  phone_edit : string;
  mobile_edit : string;
  upn_edit : string;
  upn_suffix_combo : string;
  disabled_chk : bool;
  pwd_never_expires_chk : bool;
  cannot_change_pwd_chk : bool;
  pwd_expired_chk : bool;
  new_password_edit : string;
  confirm_password_edit : string;
  job_title_edit : string;
  department_edit : string;
  company_edit : string;
  description_edit : string;
  street_edit : string;
  city_edit : string;
  state_edit : string;
  postal_edit : string;
  country_combo : Z
}.

(** The edit session: the snapshot loaded from the directory, the dirty
    flags, the dictionary of the attributes tab and the form. *)
Record edit_window := {
  user_data : gmap string value;
  modified_attributes : gset string;
  custom_attributes : gmap string value;
  form : edit_form
}.

(** What [save_changes] ends in: the dictionary it hands to
    [ldap_conn.modify], the status "No changes to save", or the warning
    "Password Mismatch" followed by [return]. *)
Inductive save_outcome :=
| Modify (modifications : modifications_t)
| NoChangesToSave
| PasswordMismatch.

(** The operand of [uac |= 2]: anything but an integer raises. *)
Definition as_int (v : value) : py Z :=
  match v with
  | Scalar (SInt z) => Ret z
  | _ => Raise TypeError
  end.

(** The attribute names the loop over the attributes tab skips. *)
Definition handled_elsewhere : list string :=
  ["givenName"; "sn"; "displayName"; "mail"; "telephoneNumber"; "mobile";
   "userPrincipalName"; "userAccountControl"; "pwdLastSet"; "unicodePwd";
   "title"; "department"; "company"; "description"; "streetAddress";
   "l"; "st"; "postalCode"; "c"; "co"; "countryCode"].

(** One pass of [for attr_name, value in custom_attributes.items()]. *)
Definition custom_step (user_data : gmap string value)
    (modifications : modifications_t) (item : string * value)
    : modifications_t :=
  let '(attr_name, value) := item in
  if bool_decide (is_Some (modifications !! attr_name))
     || str_in attr_name handled_elsewhere
  then modifications
  else
    let original_value :=
      default (Scalar (SStr "")) (user_data !! attr_name) in
    if bool_decide (value ≠ original_value)
    then <[attr_name := [(MODIFY_REPLACE, as_list value)]]> modifications
    else modifications.

(** The part of [save_changes] up to the password check. *)
Definition before_password (w : edit_window) : py modifications_t :=
  let dirty attr := bool_decide (attr ∈ modified_attributes w) in
  let f := form w in
  let modifications : modifications_t := ∅ in
  (* Personal info *)
  let modifications :=
    set_if (dirty "givenName") "givenName" (SStr (first_name_edit f))
      modifications in
  let modifications :=
    set_if (dirty "sn") "sn" (SStr (last_name_edit f)) modifications in
  let modifications :=
    set_if (dirty "displayName") "displayName"
      (SStr (display_name_edit f)) modifications in
  let modifications :=
    set_if (dirty "mail") "mail" (SStr (email_edit f)) modifications in
  let modifications :=
    set_if (dirty "telephoneNumber") "telephoneNumber"
      (SStr (phone_edit f)) modifications in
  let modifications :=
    set_if (dirty "mobile") "mobile" (SStr (mobile_edit f)) modifications in
  (* Account info *)
  let modifications :=
    let upn_prefix := upn_edit f in
    let upn_suffix := upn_suffix_combo f in
    let upn := upn_prefix +:+ upn_suffix in
    set_if (dirty "userPrincipalName") "userPrincipalName" (SStr upn)
      modifications in
  (* UAC flags *)
  modifications ←
    (if dirty "userAccountControl" then
       uac ← as_int (default (Scalar (SInt 0))
                       (user_data w !! "userAccountControl"));
       let uac :=
         if disabled_chk f then Z.lor uac 2
         else Z.land uac (Z.lnot 2) in
       let uac :=
         if pwd_never_expires_chk f then Z.lor uac 65536
         else Z.land uac (Z.lnot 65536) in
       let uac :=
         if cannot_change_pwd_chk f then Z.lor uac 64
         else Z.land uac (Z.lnot 64) in
       Ret (<["userAccountControl" := replace_with (SInt uac)]>
              modifications)
     else Ret modifications);
  (* Password must change at next logon *)
  let modifications :=
    set_if (dirty "pwdLastSet") "pwdLastSet"
      (if pwd_expired_chk f then SInt 0 else SInt (-1)) modifications in
  Ret modifications.

(** The part of [save_changes] after the password check. *)
Definition after_password (w : edit_window)
    (modifications : modifications_t) : py save_outcome :=
  let dirty attr := bool_decide (attr ∈ modified_attributes w) in
  let f := form w in
  (* Job info *)
  let modifications :=
    set_if (dirty "title") "title" (SStr (job_title_edit f))
      modifications in
  let modifications :=
    set_if (dirty "department") "department" (SStr (department_edit f))
      modifications in
  let modifications :=
    set_if (dirty "company") "company" (SStr (company_edit f))
      modifications in
  let modifications :=
    set_if (dirty "description") "description" (SStr (description_edit f))
      modifications in
  (* Address info *)
  let modifications :=
    set_if (dirty "streetAddress") "streetAddress" (SStr (street_edit f))
      modifications in
  let modifications :=
    set_if (dirty "l") "l" (SStr (city_edit f)) modifications in
  let modifications :=
    set_if (dirty "st") "st" (SStr (state_edit f)) modifications in
  let modifications :=
    set_if (dirty "postalCode") "postalCode" (SStr (postal_edit f))
      modifications in
  modifications ←
    (if dirty "country" then
       let country_idx := country_combo f in
       if (0 <=? country_idx)%Z then
         match country_item country_idx with
         | None => Raise TypeError
         | Some (country_name, (country_code, country_num)) =>
             let modifications :=
               <["c" := replace_with (SStr country_code)]> modifications in
             let modifications :=
               <["co" := replace_with (SStr country_name)]> modifications in
             let modifications :=
               <["countryCode" := replace_with (SStr country_num)]>
                 modifications in
             Ret modifications
         end
       else Ret modifications
     else Ret modifications);
  (* Custom attributes from the attributes tab *)
  let modifications :=
    foldl (custom_step (user_data w)) modifications
      (map_to_list (custom_attributes w)) in
  (* Apply the modifications *)
  if bool_decide (modifications = ∅) then Ret NoChangesToSave
  else Ret (Modify modifications).

Definition save_changes (w : edit_window) : py save_outcome :=
  modifications ← before_password w;
  let f := form w in
  (* Reset password if requested *)
  if negb (is_empty (new_password_edit f))
     && String.eqb (new_password_edit f) (confirm_password_edit f)
  then
    after_password w
      (<["unicodePwd" :=
           replace_with (SBytes (encode_password (new_password_edit f)))]>
         modifications)
  else if negb (is_empty (new_password_edit f)) then Ret PasswordMismatch
  else after_password w modifications.

(** What [setup_edit_mode_ui] leaves behind: it evaluates [uac & 2] on the
    snapshot entry, so the entry is an integer or missing, and the country
    box holds its three items, so its index is -1, 0, 1 or 2. *)
Definition window_ok (w : edit_window) : Prop :=
  (user_data w !! "userAccountControl" = None
   ∨ ∃ z, user_data w !! "userAccountControl" = Some (Scalar (SInt z)))
  ∧ (-1 <= country_combo (form w) < 3)%Z.

End EditMode.

(** ** UserEditor/user_window.py, create mode *)

Module CreateMode.
Import PyStr Ldap UserEditorHelpers.

Record create_form := {
  first_name_edit : string;
  last_name_edit : string;
  display_name_edit : string;
  sam_account_edit : string;
  upn_edit : string;
  upn_suffix_combo : string;
  password_edit : string;
  confirm_password_edit : string;
  ou_combo : string;
  contractor_chk : bool;
  change_password_chk : bool;
  never_expires_chk : bool;
  job_title_edit : string;
  department_edit : string;
  company_edit : string;
  street_edit : string;
  city_edit : string;
  state_edit : string;
  postal_edit : string;
  country_combo : Z
}.

(** The create session: the read connection, the form, the dictionary of
    the attributes tab, the groups ticked on the groups tab and the groups
    known to it, as (name, dn). *)
Record create_window := {
  ldap_conn : option Connection;
  form : create_form;
  custom_attributes : gmap string value;
  selected_groups : list string;
  all_groups : list (string * string)
}.

(** What the surroundings answer during one [create_user]: whether the
    bind of the write connection succeeds, the result of [add], and the
    answer to the question about a manual account name. *)
Record answers := {
  bind_ok : bool;
  add_result : bool;
  manual_entry_reply : bool
}.

(** A call made on the write connection. *)
Inductive request :=
| Add (dn : string) (attributes : gmap string value)
| ModifyReq (dn : string) (changes : modifications_t)
| Unbind.

(** The text left on the status label. *)
Inductive create_status :=
| MissingRequiredFields
| PasswordsDoNotMatch
| EnterSamManually
| OperationCancelled
| LdapErrorOccurred
| ErrorCreatingUser
| UserCreated.

(** The contractor step shared by [create_user] and [auto_update_fields]:
    cut to 17 characters when longer, then append "-c". *)
Definition add_contractor_suffix (candidate : string) : string :=
  let candidate :=
    if (17 <? String.length candidate)%nat then slice_to 17 candidate
    else candidate in
  candidate +:+ "-c".

(** The account name [create_user] arrives at when the field is empty:
    the generator's candidate, suffixed for a contractor. *)
Definition generated_sam_account (first last : string)
    (ldap_conn : option Connection) (contractor : bool)
    : py (option string) :=
  candidate ←
    auto_generate_sam_account first last ldap_conn default_max_attempts;
  match candidate with
  | None => Ret None
  | Some candidate =>
      Ret (Some (if contractor then add_contractor_suffix candidate
                 else candidate))
  end.

(** The name [auto_update_fields] writes into the account field while the
    names are typed, [None] when it leaves the field alone. *)
Definition suggested_sam_account (first_name last_name : string)
    (ldap_conn : option Connection) (contractor : bool)
    : py (option string) :=
  let first := strip first_name in
  let last := strip last_name in
  if negb (is_empty first) && negb (is_empty last) then
    candidate ←
      auto_generate_sam_account first last ldap_conn default_max_attempts;
    match candidate with
    | Some candidate =>
        if is_empty candidate then Ret None
        else Ret (Some (if contractor then add_contractor_suffix candidate
                        else candidate))
    | None => Ret None
    end
  else Ret None.

(** [if text: attributes[attr] = text] *)
Definition set_nonempty (attr text : string)
    (attributes : gmap string value) : gmap string value :=
  if negb (is_empty text) then <[attr := Scalar (SStr text)]> attributes
  else attributes.

(** One pass of the loop over the attributes tab. *)
Definition custom_step (attributes : gmap string value)
    (item : string * value) : gmap string value :=
  let '(attr_name, value) := item in
  if bool_decide (is_Some (attributes !! attr_name)) then attributes
  else <[attr_name := Multi (as_list value)]> attributes.

(** The attribute dictionary handed to [add]. *)
Definition initial_attributes (w : create_window)
    (first last display_name sam_account upn password : string)
    : gmap string value :=
  let f := form w in
  let attributes : gmap string value :=
    <["unicodePwd" := Scalar (SBytes (encode_password password))]>
    (<["userAccountControl" := Scalar (SInt 66048)]>
    (<["mail" := Scalar (SStr upn)]>
    (<["userPrincipalName" := Scalar (SStr upn)]>
    (<["sAMAccountName" := Scalar (SStr sam_account)]>
    (<["displayName" := Scalar (SStr display_name)]>
    (<["givenName" := Scalar (SStr first)]>
    (<["sn" := Scalar (SStr last)]>
    (<["cn" := Scalar (SStr display_name)]>
    (<["objectClass" :=
         Multi [SStr "top"; SStr "person"; SStr "organizationalPerson";
                SStr "user"]]> ∅))))))))) in
  let attributes := set_nonempty "title" (strip (job_title_edit f)) attributes in
  let attributes :=
    set_nonempty "department" (strip (department_edit f)) attributes in
  let attributes := set_nonempty "company" (strip (company_edit f)) attributes in
  let attributes :=
    set_nonempty "streetAddress" (strip (street_edit f)) attributes in
  let attributes := set_nonempty "l" (strip (city_edit f)) attributes in
  let attributes := set_nonempty "st" (strip (state_edit f)) attributes in
  let attributes :=
    set_nonempty "postalCode" (strip (postal_edit f)) attributes in
  attributes.

(** The country block: with a selection, [c], [co] and [countryCode] are
    set from the selected item. *)
Definition country_attributes (country_idx : Z)
    (attributes : gmap string value) : py (gmap string value) :=
  if (0 <=? country_idx)%Z then
    match country_item country_idx with
    | None => Raise TypeError
    | Some (country_name, (country_code, country_num)) =>
        Ret (<["countryCode" := Scalar (SStr country_num)]>
             (<["co" := Scalar (SStr country_name)]>
             (<["c" := Scalar (SStr country_code)]> attributes)))
    end
  else Ret attributes.

(** [{'member': [(MODIFY_ADD, [new_user_dn])]}] for every ticked group that
    is found among the known groups. *)
Definition group_requests (w : create_window) (new_user_dn : string)
    : list request :=
  omap (fun group_name =>
          match List.find (fun g => String.eqb (fst g) group_name)
                  (all_groups w) with
          | Some (_, group_dn) =>
              Some (ModifyReq group_dn
                      {[ "member" := [(MODIFY_ADD, [SStr new_user_dn])] ]})
          | None => None
          end)
       (selected_groups w).

Definition create_user (w : create_window) (a : answers)
    : py (create_status * list request) :=
  let f := form w in
  let first := strip (first_name_edit f) in
  let last := strip (last_name_edit f) in
  let display_name := strip (display_name_edit f) in
  let sam_account := strip (sam_account_edit f) in
  let upn_suffix := strip (upn_suffix_combo f) in
  let upn := upn_edit f +:+ upn_suffix in
  let password := password_edit f in
  let confirm_password := confirm_password_edit f in
  let ou_dn := ou_combo f in
  if is_empty first || is_empty last || is_empty password
     || is_empty confirm_password
  then Ret (MissingRequiredFields, [])
  else if negb (String.eqb password confirm_password)
  then Ret (PasswordsDoNotMatch, [])
  else
    let display_name :=
      if is_empty display_name then first +:+ " " +:+ last
      else display_name in
    sam_account ←
      (if is_empty sam_account
       then generated_sam_account first last (ldap_conn w)
              (contractor_chk f)
       else Ret (Some sam_account));
    match sam_account with
    | None =>
        Ret (if manual_entry_reply a then EnterSamManually
             else OperationCancelled, [])
    | Some sam_account =>
        let new_user_dn := "CN=" +:+ display_name +:+ "," +:+ ou_dn in
        match ldap_conn w with
        | None => Raise AttributeError
        | Some _ =>
            if negb (bind_ok a) then Ret (LdapErrorOccurred, [])
            else
              let attributes :=
                initial_attributes w first last display_name sam_account
                  upn password in
              (* Set country based on selection *)
              attributes ← country_attributes (country_combo f) attributes;
              (* Custom attributes from the attributes tab *)
              let attributes :=
                foldl custom_step attributes
                  (map_to_list (custom_attributes w)) in
              let requests := [Add new_user_dn attributes] in
              if negb (add_result a)
              then Ret (ErrorCreatingUser, (requests ++ [Unbind])%list)
              else
                (* Set pwdLastSet if needed *)
                let requests :=
                  if change_password_chk f
                  then (requests ++
                        [ModifyReq new_user_dn
                           {[ "pwdLastSet" :=
                                [(MODIFY_REPLACE, [SInt 0])] ]}])%list
                  else requests in
                (* Add user to selected groups *)
                let requests :=
                  (requests ++ group_requests w new_user_dn)%list in
                Ret (UserCreated, (requests ++ [Unbind])%list)
        end
    end.

(** The same session with the "Password never expires" box set to [b]. *)
Definition set_never_expires (b : bool) (w : create_window)
    : create_window :=
  let f := form w in
  {| ldap_conn := ldap_conn w;
     form :=
       {| first_name_edit := first_name_edit f;
          last_name_edit := last_name_edit f;
          display_name_edit := display_name_edit f;
          sam_account_edit := sam_account_edit f;
          upn_edit := upn_edit f;
          upn_suffix_combo := upn_suffix_combo f;
          password_edit := password_edit f;
          confirm_password_edit := confirm_password_edit f;
          ou_combo := ou_combo f;
          contractor_chk := contractor_chk f;
          change_password_chk := change_password_chk f;
          never_expires_chk := b;
          job_title_edit := job_title_edit f;
          department_edit := department_edit f;
          company_edit := company_edit f;
          street_edit := street_edit f;
          city_edit := city_edit f;
          state_edit := state_edit f;
          postal_edit := postal_edit f;
          country_combo := country_combo f |};
     custom_attributes := custom_attributes w;
     selected_groups := selected_groups w;
     all_groups := all_groups w |}.

(** The follow-up request of the "must change password" box. *)
Definition expire_password : modifications_t :=
  {[ "pwdLastSet" := [(MODIFY_REPLACE, [SInt 0])] ]}.

End CreateMode.

(** ** Vocabulary for the reconciler *)

Module EditModeSpec.
Import PyStr UserEditorHelpers EditMode.

(** [attr in self.modified_attributes] *)
Definition dirty (w : edit_window) (attr : string) : bool :=
  bool_decide (attr ∈ modified_attributes w).

(** A reset is requested: the new password is non-empty and confirmed. *)
Definition password_requested (w : edit_window) : bool :=
  negb (is_empty (new_password_edit (form w)))
  && String.eqb (new_password_edit (form w)) (confirm_password_edit (form w)).

(** The new password is non-empty and differs from the confirmation. *)
Definition password_mismatch (w : edit_window) : bool :=
  negb (is_empty (new_password_edit (form w)))
  && negb (String.eqb (new_password_edit (form w))
             (confirm_password_edit (form w))).

(** The account-control bitmask of the snapshot, 0 when missing. *)
Definition snapshot_uac (w : edit_window) : Z :=
  match user_data w !! "userAccountControl" with
  | Some (Scalar (SInt z)) => z
  | _ => 0%Z
  end.

Definition apply_flag (checked : bool) (bit uac : Z) : Z :=
  if checked then Z.lor uac bit else Z.land uac (Z.lnot bit).

(** The snapshot bitmask with the three bits set or cleared after the
    check boxes. *)
Definition reconciled_uac (w : edit_window) : Z :=
  apply_flag (cannot_change_pwd_chk (form w)) 64
    (apply_flag (pwd_never_expires_chk (form w)) 65536
       (apply_flag (disabled_chk (form w)) 2 (snapshot_uac w))).

(** The directory attributes bound to a control of the form, each with
    the value the form currently gives it: those assigned before the
    password check and those assigned after it. *)
Definition account_values (w : edit_window) : list (string * scalar) :=
  let f := form w in
  [("givenName", SStr (first_name_edit f));
   ("sn", SStr (last_name_edit f));
   ("displayName", SStr (display_name_edit f));
   ("mail", SStr (email_edit f));
   ("telephoneNumber", SStr (phone_edit f));
   ("mobile", SStr (mobile_edit f));
   ("userPrincipalName", SStr (upn_edit f +:+ upn_suffix_combo f));
   ("userAccountControl", SInt (reconciled_uac w));
   ("pwdLastSet", if pwd_expired_chk f then SInt 0 else SInt (-1))].

Definition job_address_values (w : edit_window) : list (string * scalar) :=
  let f := form w in
  [("title", SStr (job_title_edit f));
   ("department", SStr (department_edit f));
   ("company", SStr (company_edit f));
   ("description", SStr (description_edit f));
   ("streetAddress", SStr (street_edit f));
   ("l", SStr (city_edit f));
   ("st", SStr (state_edit f));
   ("postalCode", SStr (postal_edit f))].

Definition form_values (w : edit_window) : list (string * scalar) :=
  (account_values w ++ job_address_values w)%list.

(** The names of those attributes. *)
Definition bound_attributes : list string :=
  ["givenName"; "sn"; "displayName"; "mail"; "telephoneNumber"; "mobile";
   "userPrincipalName"; "userAccountControl"; "pwdLastSet"; "title";
   "department"; "company"; "description"; "streetAddress"; "l"; "st";
   "postalCode"].

(** The three attributes the selected country expands to; none without a
    selection. *)
Definition country_values (w : edit_window) : list (string * scalar) :=
  if (0 <=? country_combo (form w))%Z then
    match country_item (country_combo (form w)) with
    | Some (country_name, (country_code, country_num)) =>
        [("c", SStr country_code); ("co", SStr country_name);
         ("countryCode", SStr country_num)]
    | None => []
    end
  else [].

(** An entry of the attributes tab that is not handled by a control and
    differs from the snapshot. *)
Definition custom_change (w : edit_window) (attr : string)
    : option (list (mod_op * list scalar)) :=
  if str_in attr handled_elsewhere then None
  else
    match custom_attributes w !! attr with
    | Some v =>
        if bool_decide (v ≠ default (Scalar (SStr "")) (user_data w !! attr))
        then Some [(MODIFY_REPLACE, as_list v)]
        else None
    | None => None
    end.

(** The request made for the password. *)
Definition password_value (w : edit_window) : scalar :=
  SBytes (encode_password (new_password_edit (form w))).

(** Every request the controls give rise to, in the order of the
    assignments, each with the condition under which it is made. *)
Definition guarded_requests (w : edit_window)
    : list (string * (bool * scalar)) :=
  (((fun '(attr, x) => (attr, (dirty w attr, x))) <$> account_values w)
   ++ [("unicodePwd", (password_requested w, password_value w))]
   ++ ((fun '(attr, x) => (attr, (dirty w attr, x)))
         <$> job_address_values w)
   ++ ((fun '(attr, x) => (attr, (dirty w "country", x)))
         <$> country_values w))%list.

(** The assignments made for a list of guarded requests. *)
Definition apply_requests (l : list (string * (bool * scalar)))
    (modifications : modifications_t) : modifications_t :=
  foldl (fun m '(attr, (c, x)) => set_if c attr x m) modifications l.

(** The first request for [attr] whose condition holds. *)
Fixpoint guarded_lookup (l : list (string * (bool * scalar))) (attr : string)
    : option scalar :=
  match l with
  | [] => None
  | (k, (c, x)) :: l' =>
      if String.eqb k attr && c then Some x else guarded_lookup l' attr
  end.

(** The request expected for [attr]. *)
Definition expected (w : edit_window) (attr : string)
    : option (list (mod_op * list scalar)) :=
  match guarded_lookup (guarded_requests w) attr with
  | Some x => Some (replace_with x)
  | None => custom_change w attr
  end.

(** The same session with the dirty flag of [attr] taken away. *)
Definition clear_flag (attr : string) (w : edit_window) : edit_window :=
  {| user_data := user_data w;
     modified_attributes := modified_attributes w ∖ {[attr]};
     custom_attributes := custom_attributes w;
     form := form w |}.

(** The dictionary a window is reconciled to, for an outcome other than
    the password mismatch. *)
Definition outcome_of (modifications : modifications_t) : save_outcome :=
  if bool_decide (modifications = ∅) then NoChangesToSave
  else Modify modifications.

End EditModeSpec.

(** ** Scenarios used as concrete inputs *)

Module Scenarios.
Import PyStr Ldap.

(** A directory in which no account exists. *)
Definition empty_directory : Connection :=
  {| defaultNamingContext := Some "DC=corp,DC=example,DC=com";
     search := fun _ _ => Entries [] |}.

(** A directory whose every search raises. *)
Definition unreachable_directory : Connection :=
  {| defaultNamingContext := Some "DC=corp,DC=example,DC=com";
     search := fun _ _ => SearchRaises |}.

(** A directory holding exactly the accounts named in [taken]. *)
Definition directory_with (taken : list string) : Connection :=
  {| defaultNamingContext := Some "DC=corp,DC=example,DC=com";
     search := fun _ filter =>
       if str_in filter (map sam_filter taken)
       then Entries ["CN=someone,DC=corp,DC=example,DC=com"]
       else Entries [] |}.

(** A directory holding every account but those named in [free]. *)
Definition directory_without (free : list string) : Connection :=
  {| defaultNamingContext := Some "DC=corp,DC=example,DC=com";
     search := fun _ filter =>
       if str_in filter (map sam_filter free)
       then Entries []
       else Entries ["CN=someone,DC=corp,DC=example,DC=com"] |}.

End Scenarios.

(** ** Edit sessions used as concrete inputs *)

Module EditScenarios.
Import EditMode.

(** The snapshot of Jane Doe, an enabled normal account. *)
Definition jane_snapshot : gmap string value :=
  {[ "givenName" := Scalar (SStr "Jane");
     "sn" := Scalar (SStr "Doe");
     "displayName" := Scalar (SStr "Jane Doe");
     "userPrincipalName" := Scalar (SStr "j.doe@corp.example.com");
     "userAccountControl" := Scalar (SInt 512);
     "c" := Scalar (SStr "US") ]}.

(** The form as [setup_edit_mode_ui] fills it from that snapshot. *)
Definition jane_form : edit_form :=
  {| first_name_edit := "Jane";
     last_name_edit := "Doe";
     display_name_edit := "Jane Doe";
     email_edit := "";
     phone_edit := "";
     mobile_edit := "";
     upn_edit := "j.doe";
     upn_suffix_combo := "@corp.example.com";
     disabled_chk := false;
     pwd_never_expires_chk := false;
     cannot_change_pwd_chk := false;
     pwd_expired_chk := false;
     new_password_edit := "";
     confirm_password_edit := "";
     job_title_edit := "";
     department_edit := "";
     company_edit := "";
     description_edit := "";
     street_edit := "";
     city_edit := "";
     state_edit := "";
     postal_edit := "";
     country_combo := 0 |}.

(** An edit session on that snapshot with the given dirty flags,
    attributes tab and form. *)
Definition session (flags : gset string) (tab : gmap string value)
    (f : edit_form) : edit_window :=
  {| user_data := jane_snapshot;
     modified_attributes := flags;
     custom_attributes := tab;
     form := f |}.

(** The first name retyped as it was. *)
Definition retyped_first_name : edit_window :=
  session {[ "givenName" ]} jane_snapshot jane_form.

(** Nothing touched but an entry of the attributes tab. *)
Definition info_edited : edit_window :=
  session ∅ (<[ "info" := Scalar (SStr "night shift") ]> jane_snapshot)
    jane_form.

(** The country box moved to Canada. *)
Definition country_changed : edit_window :=
  session {[ "country" ]} jane_snapshot
    {| first_name_edit := "Jane";
       last_name_edit := "Doe";
       display_name_edit := "Jane Doe";
       email_edit := "";
       phone_edit := "";
       mobile_edit := "";
       upn_edit := "j.doe";
       upn_suffix_combo := "@corp.example.com";
       disabled_chk := false;
       pwd_never_expires_chk := false;
       cannot_change_pwd_chk := false;
       pwd_expired_chk := false;
       new_password_edit := "";
       confirm_password_edit := "";
       job_title_edit := "";
       department_edit := "";
       company_edit := "";
       description_edit := "";
       street_edit := "";
       city_edit := "";
       state_edit := "";
       postal_edit := "";
       country_combo := 1 |}.

(** The form with a new password and its confirmation typed in. *)
Definition password_form (new_password confirm_password : string)
    : edit_form :=
  {| first_name_edit := "Jane";
     last_name_edit := "Doe";
     display_name_edit := "Jane Doe";
     email_edit := "";
     phone_edit := "";
     mobile_edit := "";
     upn_edit := "j.doe";
     upn_suffix_combo := "@corp.example.com";
     disabled_chk := false;
     pwd_never_expires_chk := false;
     cannot_change_pwd_chk := false;
     pwd_expired_chk := false;
     new_password_edit := new_password;
     confirm_password_edit := confirm_password;
     job_title_edit := "";
     department_edit := "";
     company_edit := "";
     description_edit := "";
     street_edit := "";
     city_edit := "";
     state_edit := "";
     postal_edit := "";
     country_combo := 0 |}.

(** The "account is disabled" box ticked. *)
Definition account_disabled : edit_window :=
  session {[ "userAccountControl" ]} jane_snapshot
    {| first_name_edit := "Jane";
       last_name_edit := "Doe";
       display_name_edit := "Jane Doe";
       email_edit := "";
       phone_edit := "";
       mobile_edit := "";
       upn_edit := "j.doe";
       upn_suffix_combo := "@corp.example.com";
       disabled_chk := true;
       pwd_never_expires_chk := false;
       cannot_change_pwd_chk := false;
       pwd_expired_chk := false;
       new_password_edit := "";
       confirm_password_edit := "";
       job_title_edit := "";
       department_edit := "";
       company_edit := "";
       description_edit := "";
       street_edit := "";
       city_edit := "";
       state_edit := "";
       postal_edit := "";
       country_combo := 0 |}.

End EditScenarios.

(** ** Create sessions used as concrete inputs *)

Module CreateScenarios.
Import CreateMode Scenarios.

(** Jane Doe, a contractor, typed into an otherwise untouched form, with
    the two password boxes set as given; the directory is empty. *)
Definition jane_contractor (must_change never_expires : bool)
    : create_window :=
  {| ldap_conn := Some empty_directory;
     form :=
       {| first_name_edit := "Jane";
          last_name_edit := "Doe";
          display_name_edit := "";
          sam_account_edit := "";
          upn_edit := "j.doe-c";
          upn_suffix_combo := "@corp.example.com";
          password_edit := "S3cret!";
          confirm_password_edit := "S3cret!";
          ou_combo := "OU=Staff,DC=corp,DC=example,DC=com";
          contractor_chk := true;
          change_password_chk := must_change;
          never_expires_chk := never_expires;
          job_title_edit := "";
          department_edit := "";
          company_edit := "";
          street_edit := "";
          city_edit := "";
          state_edit := "";
          postal_edit := "";
          country_combo := 0 |};
     custom_attributes := ∅;
     selected_groups := ["Staff"];
     all_groups :=
       [("Staff", "CN=Staff,OU=Groups,DC=corp,DC=example,DC=com")] |}.

(** The bind and the add succeed. *)
Definition all_fine : answers :=
  {| bind_ok := true; add_result := true; manual_entry_reply := false |}.

End CreateScenarios.

(** ** More Python string operations *)

Module PyText.
Import PyStr.

(** [s.split(sep)] for a separator of one character. *)
Fixpoint split_on (sep : ascii) (s : string) : list string :=
  match s with
  | EmptyString => [""]
  | String c s' =>
      if Ascii.eqb c sep then "" :: split_on sep s'
      else
        match split_on sep s' with
        | [] => [String c ""]
        | part :: parts => String c part :: parts
        end
  end.

(** [sep.join(parts)] *)
Fixpoint join (sep : string) (parts : list string) : string :=
  match parts with
  | [] => ""
  | [part] => part
  | part :: parts' => part +:+ sep +:+ join sep parts'
  end.

(** [s.split(sep, 1)] when [sep] occurs in [s]: the text before the first
    separator and the text after it. *)
Fixpoint split_first (sep : ascii) (s : string) : string * string :=
  match s with
  | EmptyString => ("", "")
  | String c s' =>
      if Ascii.eqb c sep then ("", s')
      else let '(before, after) := split_first sep s' in
           (String c before, after)
  end.

(** [s.startswith(p)] *)
Fixpoint startswith (p s : string) : bool :=
  match p, s with
  | EmptyString, _ => true
  | String a p', String b s' => Ascii.eqb a b && startswith p' s'
  | String _ _, EmptyString => false
  end.

(** [parts[-2:]] *)
Definition last_two (parts : list string) : list string :=
  skipn (List.length parts - 2) parts.

(** Insertion of a string into a list sorted by code points. *)
Fixpoint insert_sorted (x : string) (l : list string) : list string :=
  match l with
  | [] => [x]
  | y :: l' => if String.leb x y then x :: l else y :: insert_sorted x l'
  end.

(** [sorted(l)] on strings; equal strings are indistinguishable, so any
    sorting order of ties gives the same list. *)
Definition sorted (l : list string) : list string :=
  foldr insert_sorted [] l.

(** The elements of [l] without repetition, as [set(l)] holds them. *)
Fixpoint distinct (l : list string) : list string :=
  match l with
  | [] => []
  | x :: l' => if str_in x l' then distinct l' else x :: distinct l'
  end.

End PyText.

(** ** [domain_to_base_dn], the same in helpers.py and UserEditor/helpers.py *)

Module BaseDn.
Import PyText.

Definition domain_to_base_dn (domain : string) : string :=
  let parts := split_on "." domain in
  join "," ((fun part => "DC=" +:+ part) <$> parts).

End BaseDn.
(** ** What [setup_edit_mode_ui] puts into the controls *)

Module EditInit.
Import PyStr PyText.

(** The stored UPN cut into the text of the prefix field and the suffix,
    at the first '@'. *)
Definition split_upn (upn : string) : string * string :=
  if char_in "@" upn then
    let '(before, after) := split_first "@" upn in
    (before, "@" +:+ after)
  else (upn, "").

(** The items of the suffix box: the known suffixes, with the suffix of the
    stored UPN appended and the list sorted again when it is not among
    them. *)
Definition suffix_items (upn_suffix : string) (domain_suffixes : list string)
    : list string :=
  if negb (is_empty upn_suffix) && negb (str_in upn_suffix domain_suffixes)
  then sorted (domain_suffixes ++ [upn_suffix])
  else domain_suffixes.

(** [findText]: the index of the first item equal to [text], -1 without. *)
Fixpoint find_text (text : string) (items : list string) : Z :=
  match items with
  | [] => (-1)%Z
  | item :: items' =>
      if String.eqb item text then 0%Z
      else
        let idx := find_text text items' in
        if (0 <=? idx)%Z then (idx + 1)%Z else (-1)%Z
  end.

(** The current index of the suffix box: the first item once items are
    added, then the stored suffix when there is one and it is found. *)
Definition suffix_index (upn_suffix : string) (items : list string) : Z :=
  let current := match items with [] => (-1)%Z | _ :: _ => 0%Z end in
  if negb (is_empty upn_suffix) then
    let suffix_idx := find_text upn_suffix items in
    if (0 <=? suffix_idx)%Z then suffix_idx else current
  else current.

(** [currentText()] of a box with these items at this index. *)
Definition item_text (items : list string) (idx : Z) : string :=
  if (0 <=? idx)%Z then default "" (items !! Z.to_nat idx) else "".

(** The texts of the UPN prefix field and of the suffix box after the
    set-up. *)
Definition initial_upn (upn : string) (domain_suffixes : list string)
    : string * string :=
  let '(upn_prefix, upn_suffix) := split_upn upn in
  let items := suffix_items upn_suffix domain_suffixes in
  (upn_prefix, item_text items (suffix_index upn_suffix items)).

(** [bool(uac & bit)], the state a flag box is set to. *)
Definition initial_flag (uac bit : Z) : bool :=
  negb (Z.land uac bit =? 0)%Z.

(** The index the country box is left at: the first item, or the item
    whose code is the stored [c]. *)
Fixpoint matching_country (code : string)
    (items : list (string * (string * string))) (i : Z) : option Z :=
  match items with
  | [] => None
  | (_, (country_code, _)) :: items' =>
      if String.eqb country_code code then Some i
      else matching_country code items' (i + 1)%Z
  end.

Definition initial_country_index (current_country : option value) : Z :=
  match current_country with
  | Some (Scalar (SStr code)) =>
      if negb (is_empty code) then default 0%Z (matching_country code countries 0)
      else 0%Z
  | _ => 0%Z
  end.

End EditInit.

(** ** attributes_tab.py *)

Module AttributesTab.
Import PyStr PyText.

(** How the edit dialog is left: cancelled, or saved with this text. *)
Inductive dialog_result :=
| Rejected
| Accepted (text : string).

(** [edit_attribute] on the selected attribute. *)
Definition edit_attribute (custom_attributes : gmap string value)
    (attr_name : string) (result : dialog_result) : gmap string value :=
  let current_value :=
    default (Scalar (SStr "")) (custom_attributes !! attr_name) in
  match result with
  | Rejected => custom_attributes
  | Accepted text =>
      match current_value with
      | Multi _ =>
          let new_value := split_on "010" text in
          let new_value :=
            List.filter (fun v => negb (is_empty (strip v))) new_value in
          match new_value with
          | _ :: _ => <[attr_name := Multi (SStr <$> new_value)]> custom_attributes
          | [] => delete attr_name custom_attributes
          end
      | Scalar _ =>
          let new_value := strip text in
          if negb (is_empty new_value)
          then <[attr_name := Scalar (SStr new_value)]> custom_attributes
          else delete attr_name custom_attributes
      end
  end.

(** [clear_attribute] on the selected attribute. *)
Definition clear_attribute (custom_attributes : gmap string value)
    (attr_name : string) : gmap string value :=
  delete attr_name custom_attributes.

(** The edit session after the attributes tab was changed to [tab]. *)
Definition with_tab (tab : gmap string value) (w : EditMode.edit_window)
    : EditMode.edit_window :=
  {| EditMode.user_data := EditMode.user_data w;
     EditMode.modified_attributes := EditMode.modified_attributes w;
     EditMode.custom_attributes := tab;
     EditMode.form := EditMode.form w |}.

End AttributesTab.
(** ** More edit sessions used as concrete inputs *)

Module MoreEditScenarios.
Import EditMode EditScenarios.

(** The UPN controls touched and put back as they were. *)
Definition upn_retyped : edit_window :=
  session {[ "userPrincipalName" ]} jane_snapshot jane_form.

(** The "account is disabled" box ticked and unticked again. *)
Definition flag_toggled_back : edit_window :=
  session {[ "userAccountControl" ]} jane_snapshot jane_form.

(** Nothing touched at all. *)
Definition untouched : edit_window :=
  session ∅ jane_snapshot jane_form.

(** A snapshot that also holds a free-text note. *)
Definition noted_snapshot : gmap string value :=
  <[ "info" := Scalar (SStr "night shift") ]> jane_snapshot.

(** An edit session on that snapshot with nothing touched. *)
Definition noted_session : edit_window :=
  {| user_data := noted_snapshot;
     modified_attributes := ∅;
     custom_attributes := noted_snapshot;
     form := jane_form |}.

End MoreEditScenarios.

(** ** Vocabulary for [create_user] *)

Module CreateModeSpec.
Import PyStr Ldap CreateMode.

(** The same create session on another connection and with the contractor
    box set to [contractor]. *)
Definition retarget (conn : Connection) (contractor : bool)
    (w : create_window) : create_window :=
  let f := form w in
  {| ldap_conn := Some conn;
     form :=
       {| first_name_edit := first_name_edit f;
          last_name_edit := last_name_edit f;
          display_name_edit := display_name_edit f;
          sam_account_edit := sam_account_edit f;
          upn_edit := upn_edit f;
          upn_suffix_combo := upn_suffix_combo f;
          password_edit := password_edit f;
          confirm_password_edit := confirm_password_edit f;
          ou_combo := ou_combo f;
          contractor_chk := contractor;
          change_password_chk := change_password_chk f;
          never_expires_chk := never_expires_chk f;
          job_title_edit := job_title_edit f;
          department_edit := department_edit f;
          company_edit := company_edit f;
          street_edit := street_edit f;
          city_edit := city_edit f;
          state_edit := state_edit f;
          postal_edit := postal_edit f;
          country_combo := country_combo f |};
     custom_attributes := custom_attributes w;
     selected_groups := selected_groups w;
     all_groups := all_groups w |}.

(** The display name [create_user] works with: the one typed, trimmed, or
    first and last name when none is typed. *)
Definition effective_display_name (w : create_window) : string :=
  if is_empty (strip (display_name_edit (form w)))
  then strip (first_name_edit (form w)) +:+ " "
       +:+ strip (last_name_edit (form w))
  else strip (display_name_edit (form w)).

(** The UPN [create_user] works with. *)
Definition effective_upn (w : create_window) : string :=
  upn_edit (form w) +:+ strip (upn_suffix_combo (form w)).

(** The attribute names the form itself can set in the attribute
    dictionary of the add. *)
Definition form_attribute_names : list string :=
  ["objectClass"; "cn"; "sn"; "givenName"; "displayName"; "sAMAccountName";
   "userPrincipalName"; "mail"; "userAccountControl"; "unicodePwd";
   "title"; "department"; "company"; "streetAddress"; "l"; "st";
   "postalCode"; "c"; "co"; "countryCode"].

End CreateModeSpec.

(** ** More create sessions used as concrete inputs *)

Module MoreCreateScenarios.
Import CreateMode Scenarios.

(** Jane Doe with an account name typed by hand and two entries on the
    attributes tab, one of them named like an attribute of the form. *)
Definition jane_manual : create_window :=
  {| ldap_conn := Some empty_directory;
     form :=
       {| first_name_edit := " Jane";
          last_name_edit := "Doe ";
          display_name_edit := "";
          sam_account_edit := "jdoe ";
          upn_edit := "jdoe";
          upn_suffix_combo := "@corp.example.com";
          password_edit := "S3cret!";
          confirm_password_edit := "S3cret!";
          ou_combo := "OU=Staff,DC=corp,DC=example,DC=com";
          contractor_chk := true;
          change_password_chk := false;
          never_expires_chk := true;
          job_title_edit := "";
          department_edit := "";
          company_edit := "";
          street_edit := "";
          city_edit := "";
          state_edit := "";
          postal_edit := "";
          country_combo := 2 |};
     custom_attributes :=
       {[ "employeeID" := Scalar (SStr "4711");
          "mail" := Scalar (SStr "jane@elsewhere.example") ]};
     selected_groups := ["Staff"; "Gone"];
     all_groups :=
       [("Staff", "CN=Staff,OU=Groups,DC=corp,DC=example,DC=com")] |}.

End MoreCreateScenarios.
(** ** The UPN suffixes offered by the user window, and the domain the
    directory browser hands to it *)

Module DomainSuffixes.
Import PyStr PyText.

(** [DirectoryBrowser.determine_connected_domain] over [DOMAIN_CONFIG],
    a dictionary from NetBIOS name to FQDN and list of domain
    controllers, in its order. *)
Fixpoint determine_connected_domain
    (config : list (string * (string * list string)))
    (login_domain_dns dc_fqdn : string) : string :=
  match config with
  | [] => login_domain_dns
  | (_, (fqdn, dc_list)) :: config' =>
      if existsb (fun dc => String.eqb (lower dc) (lower dc_fqdn)) dc_list
      then fqdn
      else determine_connected_domain config' login_domain_dns dc_fqdn
  end.

(** [{netbios: fqdn for netbios, (fqdn, _) in DOMAIN_CONFIG.items()}] *)
Definition browser_domains
    (config : list (string * (string * list string)))
    : list (string * string) :=
  (fun '(netbios, (fqdn, _)) => (netbios, fqdn)) <$> config.

(** The suffixes collected from the domains dictionary. *)
Definition configured_suffixes (domains : list (string * string))
    : list string :=
  omap (fun '(_, fqdn) =>
          if is_empty fqdn then None else Some ("@" +:+ fqdn)) domains.

(** ['.'.join(domain.split('.')[-2:])] *)
Definition main_domain (domain : string) : string :=
  join "." (last_two (split_on "." domain)).

(** [UserWindow.discover_domain_suffixes]; [current_domain] is [None] when
    the window is built without one. *)
Definition discover_domain_suffixes (domains : list (string * string))
    (current_domain : option string) : list string :=
  let suffixes := configured_suffixes domains in
  let suffixes :=
    match current_domain with
    | Some current_domain =>
        if negb (is_empty current_domain)
           && negb (str_in ("@" +:+ current_domain) suffixes)
        then
          let suffixes := (suffixes ++ ["@" +:+ current_domain])%list in
          if negb (str_in ("@" +:+ main_domain current_domain) suffixes)
          then (suffixes ++ ["@" +:+ main_domain current_domain])%list
          else suffixes
        else suffixes
    | None => suffixes
    end in
  let suffixes :=
    match suffixes with
    | [] => ["@adenshomelab.com"]
    | _ :: _ => suffixes
    end in
  sorted (distinct suffixes).

(** The list [discover_domain_suffixes] has collected before the default is
    added and the list is sorted. *)
Definition collected (domains : list (string * string))
    (current_domain : option string) : list string :=
  let suffixes := configured_suffixes domains in
  match current_domain with
  | Some current_domain =>
      if negb (is_empty current_domain)
         && negb (str_in ("@" +:+ current_domain) suffixes)
      then
        let suffixes := (suffixes ++ ["@" +:+ current_domain])%list in
        if negb (str_in ("@" +:+ main_domain current_domain) suffixes)
        then (suffixes ++ ["@" +:+ main_domain current_domain])%list
        else suffixes
      else suffixes
  | None => suffixes
  end.

(** Strictly ascending order of code points, the order of a [sorted] list
    without repetition. *)
Fixpoint ascending (l : list string) : bool :=
  match l with
  | x :: ((y :: _) as l') =>
      String.leb x y && negb (String.eqb x y) && ascending l'
  | _ => true
  end.

(** The [DOMAIN_CONFIG] of Login.py. *)
Definition DOMAIN_CONFIG : list (string * (string * list string)) :=
  [("CORP", ("corp.adenshomelab.xyz",
             ["SDMSRVDCP001.corp.adenshomelab.xyz"]));
   ("SDNM", ("sdnm.adenshomelab.xyz",
             ["SDNMSRVDCP001.sdnm.adenshomelab.xyz"]))].

End DomainSuffixes.
(** ** The create form while it is filled in *)

Module CreateEvents.
Import PyStr Ldap UserEditorHelpers CreateMode.

(** The session with the display name, account name and UPN prefix fields
    set to the given texts. *)
Definition with_fields (display_name sam_account upn : string)
    (w : create_window) : create_window :=
  let f := form w in
  {| ldap_conn := ldap_conn w;
     form :=
       {| first_name_edit := first_name_edit f;
          last_name_edit := last_name_edit f;
          display_name_edit := display_name;
          sam_account_edit := sam_account;
          upn_edit := upn;
          upn_suffix_combo := upn_suffix_combo f;
          password_edit := password_edit f;
          confirm_password_edit := confirm_password_edit f;
          ou_combo := ou_combo f;
          contractor_chk := contractor_chk f;
          change_password_chk := change_password_chk f;
          never_expires_chk := never_expires_chk f;
          job_title_edit := job_title_edit f;
          department_edit := department_edit f;
          company_edit := company_edit f;
          street_edit := street_edit f;
          city_edit := city_edit f;
          state_edit := state_edit f;
          postal_edit := postal_edit f;
          country_combo := country_combo f |};
     custom_attributes := custom_attributes w;
     selected_groups := selected_groups w;
     all_groups := all_groups w |}.

(** [sync_upn_field], run whenever the text of the account field changes. *)
Definition sync_upn_field (w : create_window) : create_window :=
  with_fields (display_name_edit (form w)) (sam_account_edit (form w))
    (strip (sam_account_edit (form w))) w.

(** [auto_update_fields] in create mode, run whenever the first or last
    name changes; [has_focus] tells whether the account field has the
    focus. *)
Definition auto_update_fields (has_focus : bool) (w : create_window)
    : py create_window :=
  let f := form w in
  let first := strip (first_name_edit f) in
  let last := strip (last_name_edit f) in
  let display_name := strip (first +:+ " " +:+ last) in
  sam_account ←
    (if negb (is_empty first) && negb (is_empty last) && negb has_focus
     then
       candidate ←
         auto_generate_sam_account first last (ldap_conn w)
           default_max_attempts;
       match candidate with
       | Some candidate =>
           if is_empty candidate then Ret (sam_account_edit f)
           else Ret (if contractor_chk f
                     then add_contractor_suffix candidate
                     else candidate)
       | None => Ret (sam_account_edit f)
       end
     else Ret (sam_account_edit f));
  Ret (sync_upn_field
         (with_fields display_name sam_account (upn_edit f) w)).

End CreateEvents.

(** ** A freshly opened create form with the names typed *)

Module TypingScenarios.
Import CreateMode Scenarios.

Definition jane_typed : create_window :=
  {| ldap_conn := Some (directory_with ["j.doe"]);
     form :=
       {| first_name_edit := "Jane";
          last_name_edit := "Doe";
          display_name_edit := "";
          sam_account_edit := "";
          upn_edit := "";
          upn_suffix_combo := "@corp.example.com";
          password_edit := "S3cret!";
          confirm_password_edit := "S3cret!";
          ou_combo := "OU=Staff,DC=corp,DC=example,DC=com";
          contractor_chk := false;
          change_password_chk := false;
          never_expires_chk := true;
          job_title_edit := "";
          department_edit := "";
          company_edit := "";
          street_edit := "";
          city_edit := "";
          state_edit := "";
          postal_edit := "";
          country_combo := 0 |};
     custom_attributes := ∅;
     selected_groups := [];
     all_groups := [] |}.

End TypingScenarios.
(** ** templates.py: [UserTemplate] and [TemplateManager] *)

Module Templates.

(** Python values as [json.load] returns them and as the forms hand them
    over; no operation here looks inside a number. *)
#[local] Unset Elimination Schemes.
Inductive pyval : Type :=
| PNone
| PBool (b : bool)
| PInt (z : Z)
| PStr (s : string)
| PList (l : list pyval)
| PTuple (l : list pyval)
| PDict (items : list (string * pyval)).
#[local] Set Elimination Schemes.

Record UserTemplate : Type :=
  { name : pyval; settings : pyval }.

(** What opening and parsing a file comes to. *)
Inductive load_outcome : Type :=
| FileNotFoundError
| JSONDecodeError
| Loaded (data : pyval).

(** The exceptions that leave the functions below; [RaisedException] is the
    [Exception("Error importing templates: ...")] of [import_templates]. *)
Inductive raised : Type :=
| RaisedKeyError
| RaisedTypeError
| RaisedAttributeError
| RaisedException.

Fixpoint dict_get (items : list (string * pyval)) (key : string)
    : option pyval :=
  match items with
  | [] => None
  | (k, v) :: items' => if String.eqb k key then Some v else dict_get items' key
  end.

(** [data[key]] for a string [key] *)
Definition getitem (data : pyval) (key : string) : raised + pyval :=
  match data with
  | PDict items =>
      match dict_get items key with
      | Some v => inr v
      | None => inl RaisedKeyError
      end
  | _ => inl RaisedTypeError
  end.

(** [UserTemplate.from_dict] *)
Definition from_dict (data : pyval) : raised + UserTemplate :=
  match getitem data "name" with
  | inl e => inl e
  | inr n =>
      match getitem data "settings" with
      | inl e => inl e
      | inr s => inr {| name := n; settings := s |}
      end
  end.

(** The manager: the dictionary it holds, and the dictionary whose
    serialisation [save_templates] last wrote to its file, if it wrote. *)
Record manager : Type :=
  { templates : gmap string UserTemplate;
    file : option (gmap string UserTemplate) }.

Definition save_templates (m : manager) : manager :=
  {| templates := templates m; file := Some (templates m) |}.

(** The loop of [import_templates] and of the comprehension of
    [load_templates]: the dictionary reached and the count, or the
    dictionary reached when [from_dict] raises. *)
Fixpoint import_items (items : list (string * pyval))
    (templates : gmap string UserTemplate) (imported : nat)
    : gmap string UserTemplate * (raised + nat) :=
  match items with
  | [] => (templates, inr imported)
  | (name, template_data) :: items' =>
      match from_dict template_data with
      | inl e => (templates, inl e)
      | inr template =>
          import_items items' (<[name := template]> templates) (S imported)
      end
  end.


Definition get_template (template_name : string) (m : manager)
    : option UserTemplate :=
  templates m !! template_name.

(** [import_templates]: the manager afterwards, and the count returned or
    the exception raised. *)
Definition import_templates (loaded : load_outcome) (m : manager)
    : manager * (raised + nat) :=
  match loaded with
  | FileNotFoundError | JSONDecodeError => (m, inl RaisedException)
  | Loaded (PDict items) =>
      match import_items items (templates m) 0 with
      | (templates', inr imported) =>
          (save_templates {| templates := templates'; file := file m |},
           inr imported)
      | (templates', inl RaisedKeyError) =>
          ({| templates := templates'; file := file m |},
           inl RaisedException)
      | (templates', inl e) =>
          ({| templates := templates'; file := file m |}, inl e)
      end
  | Loaded _ => (m, inl RaisedAttributeError)
  end.

End Templates.

(** ** Template files used as concrete inputs *)

Module TemplateScenarios.
Import Templates.

Definition sales : pyval :=
  PDict [("name", PStr "Sales");
         ("settings", PDict [("department", PStr "Sales")])].

(** An entry without settings. *)
Definition broken : pyval := PDict [("name", PStr "Broken")].

Definition half_good_file : load_outcome :=
  Loaded (PDict [("Sales", sales); ("Broken", broken)]).

Definition fresh_manager : manager := {| templates := ∅; file := None |}.

End TemplateScenarios.
(** ** Edit sessions on the country box *)

Module CountryScenarios.
Import EditMode EditScenarios.

(** The country box moved and put back where the set-up left it. *)
Definition country_toggled_back : edit_window :=
  session {[ "country" ]} jane_snapshot jane_form.

(** The same for an account whose stored country is not in the list. *)
Definition unlisted_country : edit_window :=
  {| user_data := <[ "c" := Scalar (SStr "DE") ]> jane_snapshot;
     modified_attributes := {[ "country" ]};
     custom_attributes := ∅;
     form := jane_form |}.

End CountryScenarios.

(** * Properties *)

(** ** Facts about the string operations *)

Section StringFacts.
Import PyStr.

Lemma length_append (s t : string) :
  String.length (s +:+ t) = String.length s + String.length t.
Proof. induction s as [|c s IH]; simpl; [reflexivity | now rewrite IH]. Qed.

Lemma length_take (n : nat) (s : string) :
  String.length (take n s) = Nat.min n (String.length s).
Proof.
  revert s. induction n as [|n IH]; intros [|c s]; simpl; auto.
Qed.

Lemma take_all (n : nat) (s : string) :
  String.length s <= n -> take n s = s.
Proof.
  revert s. induction n as [|n IH]; intros [|c s]; simpl; intros H;
    try reflexivity; try lia.
  f_equal. apply IH. lia.
Qed.

Lemma length_map_str (f : ascii -> ascii) (s : string) :
  String.length (map_str f s) = String.length s.
Proof. induction s as [|c s IH]; simpl; congruence. Qed.

Lemma slice_to_nonneg (k : nat) (s : string) :
  slice_to (Z.of_nat k) s = take k s.
Proof.
  unfold slice_to. destruct (Z.leb_spec 0 (Z.of_nat k)); [|lia].
  now rewrite Nat2Z.id.
Qed.

Lemma is_empty_true (s : string) : is_empty s = true <-> s = "".
Proof. destruct s; simpl; split; congruence. Qed.

Lemma is_empty_false (s : string) : is_empty s = false <-> s <> "".
Proof. destruct s; simpl; split; congruence. Qed.


Lemma all_chars_take (p : ascii -> bool) (n : nat) (s : string) :
  all_chars p s = true -> all_chars p (take n s) = true.
Proof.
  revert s. induction n as [|n IH]; intros [|c s]; simpl; auto.
  intros [H1 H2]%andb_prop. rewrite H1. simpl. auto.
Qed.

Lemma all_chars_slice_to (p : ascii -> bool) (k : Z) (s : string) :
  all_chars p s = true -> all_chars p (slice_to k s) = true.
Proof. unfold slice_to. destruct (0 <=? k)%Z; apply all_chars_take. Qed.

Lemma all_chars_map_str (p : ascii -> bool) (f : ascii -> ascii) (s : string) :
  (forall c, p (f c) = true) -> all_chars p (map_str f s) = true.
Proof.
  intros Hf. induction s as [|c s IH]; simpl; [reflexivity|].
  now rewrite Hf, IH.
Qed.







Lemma str_in_spec (s : string) (l : list string) :
  str_in s l = true <-> In s l.
Proof.
  unfold str_in. rewrite existsb_exists. split.
  - intros (x & Hx & ->%String.eqb_eq). exact Hx.
  - intros H. exists s. split; [exact H | apply String.eqb_refl].
Qed.

End StringFacts.

(** ** The generator of helpers.py *)

Section HelpersFacts.
Import PyStr Ldap Helpers.


Lemma first_free_head (conn : option Connection) (c : string) (cs : list string) :
  check_sam_account_exists c conn = false ->
  first_free conn (c :: cs) = Some c.
Proof. intros H. simpl. now rewrite H. Qed.



(** With trimmed, lower-case names whose dotted form fits, that form heads
    the candidate list. *)
Lemma candidates_head (first last : string) :
  String.length (strip (lower first) +:+ "." +:+ strip (lower last)) <= 20 ->
  exists rest,
    candidates first last
    = (strip (lower first) +:+ "." +:+ strip (lower last)) :: rest.
Proof.
  intros Hlen. unfold candidates. cbv zeta.
  apply Nat.leb_le in Hlen. rewrite Hlen. simpl.
  repeat match goal with
         | |- context [if ?b then _ else _] => destruct b
         end; simpl; eauto.
Qed.

End HelpersFacts.

(** ** The generator of UserEditor/helpers.py *)

Section UserEditorHelpersFacts.
Import PyStr Ldap UserEditorHelpers.



Lemma sanitize_char_valid (c : ascii) : is_valid_char (sanitize_char c) = true.
Proof.
  unfold sanitize_char. destruct (is_valid_char c) eqn:H; [exact H | reflexivity].
Qed.

Lemma sanitize_valid (s : string) :
  all_chars is_valid_char (sanitize s) = true.
Proof. apply all_chars_map_str, sanitize_char_valid. Qed.

(** Sanitizing a second time changes nothing. *)
Lemma sanitize_idempotent (s : string) : sanitize (sanitize s) = sanitize s.
Proof.
  unfold sanitize. induction s as [|c s IH]; simpl; [reflexivity|].
  rewrite IH. f_equal. unfold sanitize_char at 1.
  now rewrite sanitize_char_valid.
Qed.

Lemma base_candidate_ok (first last c : string) :
  base_candidate first last = Ret c ->
  all_chars is_valid_char c = true /\ String.length c <= 20 /\ c <> "".
Proof.
  unfold base_candidate. destruct first as [|a first']; [discriminate|].
  intros [= <-]. split; [apply sanitize_valid|].
  unfold sanitize. rewrite length_map_str. split.
  - destruct (20 <? _)%nat eqn:E.
    + change 20%Z with (Z.of_nat 20). rewrite slice_to_nonneg, length_take. lia.
    + apply Nat.ltb_ge in E. exact E.
  - destruct (20 <? _)%nat; simpl; discriminate.
Qed.

Lemma variations_some (conn : option Connection)
    (first last c : string) (attempts : list nat) (s : string) :
  variations conn first last c attempts = Some s ->
  exists attempt,
    In attempt attempts /\ s = new_candidate conn first last c attempt
    /\ is_sam_account_unique conn s = true.
Proof.
  induction attempts as [|a rest IH]; simpl; [discriminate|].
  destruct (is_sam_account_unique conn (new_candidate conn first last c a)) eqn:Hu.
  - intros [= <-]. exists a. auto.
  - intros H. destruct (IH H) as (a' & Hin & Hs & Hu'). exists a'. auto.
Qed.



(** What a successful call returns: the sanitized base candidate, or the
    candidate of one of the passes. *)
Lemma generated_cases (first last : string) (conn : option Connection)
    (max_attempts : nat) (s : string) :
  auto_generate_sam_account first last conn max_attempts = Ret (Some s) ->
  exists c,
    base_candidate (lower (strip first)) (lower (strip last)) = Ret c
    /\ (s = c
        \/ exists attempt,
             In attempt (seq 1 max_attempts)
             /\ s = new_candidate conn (lower (strip first))
                      (lower (strip last)) c attempt).
Proof.
  unfold auto_generate_sam_account.
  destruct (is_empty first || is_empty last || bool_decide (conn = None));
    [discriminate|].
  destruct (base_candidate (lower (strip first)) (lower (strip last)))
    as [c|e] eqn:Hb; [|discriminate].
  cbn. destruct (negb (is_sam_account_unique conn c)).
  - intros [= H]. apply variations_some in H as (a & Hin & Hs & _).
    exists c. split; [reflexivity|]. right. eauto.
  - intros [= <-]. exists c. auto.
Qed.

End UserEditorHelpersFacts.

(** ** Claims about the username generators *)

Section GeneratorClaims.
Import PyStr Ldap UserEditorHelpers Scenarios.

(** C1 (amended): for non-empty, trimmed, lower-case [first] and [last] and
    a directory in which the existence check never finds an account, the
    generator of helpers.py returns [first + "." + last] whenever that
    string has at most 20 characters, while the generator of
    UserEditor/helpers.py, the one the user window imports, returns the
    sanitized first-initial form [first[0] + "." + last], cut to 20
    characters. *)
Theorem first_candidate_in_empty_directory
    (first last : string) (conn : option Connection) :
  first <> "" -> last <> "" ->
  strip first = first -> lower first = first ->
  strip last = last -> lower last = last ->
  ((forall s, Helpers.check_sam_account_exists s conn = false) ->
   String.length (first +:+ "." +:+ last) <= 20 ->
   Helpers.auto_generate_sam_account first last conn
   = Some (first +:+ "." +:+ last))
  /\ ((forall s, s <> "" -> is_sam_account_unique conn s = true) ->
      auto_generate_sam_account first last conn default_max_attempts
      = Ret (Some (sanitize (take 20 (take 1 first +:+ "." +:+ last))))).
Proof.
  intros Hf Hl Hsf Hlf Hsl Hll. split.
  - intros Hfree Hlen. unfold Helpers.auto_generate_sam_account.
    destruct (candidates_head first last) as [rest ->].
    + now rewrite Hlf, Hll, Hsf, Hsl.
    + rewrite Hlf, Hll, Hsf, Hsl. apply first_free_head, Hfree.
  - intros Hfree. unfold auto_generate_sam_account.
    apply is_empty_false in Hf as Hf'. apply is_empty_false in Hl as Hl'.
    rewrite Hf', Hl'.
    assert (Hconn : conn <> None).
    { intros ->. specialize (Hfree "a"). simpl in Hfree.
      assert ("a" <> "") as Ha by discriminate.
      specialize (Hfree Ha). discriminate. }
    rewrite bool_decide_eq_false_2 by exact Hconn. cbn [orb].
    rewrite Hsf, Hlf, Hsl, Hll.
    destruct first as [|c first']; [contradiction|].
    unfold base_candidate. cbn [mbind py_bind].
    assert (Hcut :
      (if (20 <? String.length (String c "" +:+ "." +:+ last))%nat
       then slice_to 20 (String c "" +:+ "." +:+ last)
       else String c "" +:+ "." +:+ last)
      = take 20 (String c "" +:+ "." +:+ last)).
    { destruct (Nat.ltb_spec 20 (String.length (String c "" +:+ "." +:+ last))).
      - change 20%Z with (Z.of_nat 20). now rewrite slice_to_nonneg.
      - symmetry. now apply take_all. }
    rewrite Hcut. rewrite Hfree; [reflexivity|].
    cbn. discriminate.
Qed.

Lemma first_candidate_in_empty_directory_witness :
  Helpers.auto_generate_sam_account "jane" "doe" (Some empty_directory)
  = Some "jane.doe"
  /\ auto_generate_sam_account "jane" "doe" (Some empty_directory)
       default_max_attempts
     = Ret (Some "j.doe").
Proof.
  destruct (first_candidate_in_empty_directory "jane" "doe"
              (Some empty_directory)) as [H1 H2];
    try reflexivity; try discriminate.
  split.
  - apply H1; [intros s; reflexivity | vm_compute; lia].
  - apply H2. intros [|c s] Hs; [contradiction | reflexivity].
Defined.

(** C1, as stated, fails on the generator the user window imports: in a
    directory without any account it answers "j.doe" for Jane Doe, not
    "jane.doe", although that name has only 8 characters. *)
Lemma window_generator_starts_from_initial :
  (forall s, s <> "" -> is_sam_account_unique (Some empty_directory) s = true)
  /\ String.length ("jane" +:+ "." +:+ "doe") <= 20
  /\ auto_generate_sam_account "jane" "doe" (Some empty_directory)
       default_max_attempts
     = Ret (Some "j.doe")
  /\ auto_generate_sam_account "jane" "doe" (Some empty_directory)
       default_max_attempts
     <> Ret (Some ("jane" +:+ "." +:+ "doe")).
Proof.
  split; [|split; [|split]].
  - intros [|c s] Hs; [contradiction | reflexivity].
  - vm_compute. lia.
  - reflexivity.
  - discriminate.
Qed.

(** C6: when every directory search raises, [check_sam_account_exists] of
    helpers.py answers "does not exist", and its generator proposes
    "jane.doe" although the name could not be verified. *)
Theorem helpers_proposes_unverified_name :
  search unreachable_directory "" (sam_filter "jane.doe") = SearchRaises
  /\ Helpers.check_sam_account_exists "jane.doe" (Some unreachable_directory)
     = false
  /\ Helpers.auto_generate_sam_account "jane" "doe"
       (Some unreachable_directory)
     = Some "jane.doe".
Proof. repeat split. Qed.

(** The sibling check of UserEditor/helpers.py is conservative: a search
    that raises makes the name count as taken. *)
Lemma is_sam_account_unique_conservative (conn : Connection) (s : string) :
  (forall base filter, search conn base filter = SearchRaises) ->
  is_sam_account_unique (Some conn) s = false.
Proof.
  intros H. unfold is_sam_account_unique.
  destruct (is_empty s); [reflexivity|].
  destruct (defaultNamingContext conn); [|reflexivity].
  now rewrite H.
Qed.

(** ... so its generator never proposes a name then. *)
Lemma window_generator_conservative
    (first last : string) (conn : Connection) (max_attempts : nat) (s : string) :
  (forall base filter, search conn base filter = SearchRaises) ->
  auto_generate_sam_account first last (Some conn) max_attempts
  <> Ret (Some s).
Proof.
  intros H. unfold auto_generate_sam_account.
  destruct (_ || _ || _); [discriminate|].
  destruct (base_candidate _ _) as [c|e]; [|discriminate].
  cbn [mbind py_bind].
  rewrite is_sam_account_unique_conservative by exact H. cbn [negb].
  intros [= Hv]. apply variations_some in Hv as (a & _ & _ & Hu).
  rewrite is_sam_account_unique_conservative in Hu by exact H.
  discriminate.
Qed.




(** The two-letter branch of UserEditor/helpers.py hands its candidate to
    the existence check, and back to the caller, without sanitizing it. *)
Remark two_letter_branch_unsanitized :
  auto_generate_sam_account "Jane" "O'Neil"
    (Some (directory_with ["j.o.neil"; "j.o.neil1"; "j.o.neil2"]))
    default_max_attempts
  = Ret (Some "ja.o'neil")
  /\ all_chars is_valid_char "ja.o'neil" = false.
Proof. split; reflexivity. Qed.

End GeneratorClaims.

(** ** The contractor suffix *)

Section ContractorClaims.
Import PyStr Ldap UserEditorHelpers CreateMode Scenarios.

Lemma add_contractor_suffix_take (candidate : string) :
  add_contractor_suffix candidate = take 17 candidate +:+ "-c".
Proof.
  unfold add_contractor_suffix.
  destruct (Nat.ltb_spec 17 (String.length candidate)).
  - change 17%Z with (Z.of_nat 17). now rewrite slice_to_nonneg.
  - now rewrite take_all.
Qed.

Lemma add_contractor_suffix_length (candidate : string) :
  String.length (add_contractor_suffix candidate) <= 19.
Proof.
  rewrite add_contractor_suffix_take, length_append, length_take.
  cbn [String.length]. lia.
Qed.

Lemma append_nonempty_r (s t : string) : t <> "" -> s +:+ t <> "".
Proof. intros Ht. destruct s; [exact Ht | discriminate]. Qed.

Lemma new_candidate_nonempty (conn : option Connection)
    (first last c : string) (attempt : nat) :
  In attempt (seq 1 default_max_attempts) ->
  new_candidate conn first last c attempt <> "".
Proof.
  intros Hin. unfold new_candidate, numbered.
  assert (Hd : str_of_nat attempt <> "" /\ str_of_nat (attempt - 2) <> "").
  { simpl in Hin. intuition (subst; discriminate). }
  destruct Hd as [Hd1 Hd2].
  destruct (attempt <=? 2)%nat; [now apply append_nonempty_r|].
  destruct (2 <=? String.length first)%nat eqn:Hlen;
    [|now apply append_nonempty_r].
  destruct (negb _).
  - now repeat apply append_nonempty_r.
  - destruct first as [|x [|y first']]; try discriminate Hlen.
    cbn. discriminate.
Qed.

(** C7 (amended): with the contractor box ticked, the candidate the
    generator returns, already checked against the directory in its bare
    form, is cut to 17 characters when longer and gets "-c" appended, so
    the final name has at most 20 characters; [auto_update_fields] does the
    same.  The suffixed name itself is not looked up: for Jane Doe the
    result is "j.doe-c" in a directory without accounts and also in one
    that already holds "j.doe-c". *)
Theorem contractor_suffix_after_generation
    (first last : string) (conn : option Connection) (candidate : string) :
  auto_generate_sam_account first last conn default_max_attempts
  = Ret (Some candidate) ->
  generated_sam_account first last conn true
  = Ret (Some (take 17 candidate +:+ "-c"))
  /\ String.length (take 17 candidate +:+ "-c") <= 20
  /\ (strip first = first -> strip last = last ->
      suggested_sam_account first last conn true
      = generated_sam_account first last conn true)
  /\ generated_sam_account "Jane" "Doe" (Some empty_directory) true
     = Ret (Some "j.doe-c")
  /\ generated_sam_account "Jane" "Doe"
       (Some (directory_with ["j.doe-c"])) true
     = Ret (Some "j.doe-c").
Proof.
  intros H. unfold generated_sam_account. rewrite H. cbn [mbind py_bind].
  rewrite add_contractor_suffix_take.
  split; [reflexivity|]. split.
  { rewrite <- add_contractor_suffix_take.
    pose proof (add_contractor_suffix_length candidate). lia. }
  split; [|split; reflexivity].
  intros Hf Hl. unfold suggested_sam_account. rewrite Hf, Hl.
  assert (Hne : is_empty first = false /\ is_empty last = false).
  { unfold auto_generate_sam_account in H.
    destruct (is_empty first); [discriminate|].
    destruct (is_empty last); [discriminate|]. auto. }
  destruct Hne as [-> ->]. cbn [negb andb]. rewrite H. cbn [mbind py_bind].
  apply generated_cases in H as (c & Hb & Hs).
  assert (Hc : is_empty candidate = false).
  { apply is_empty_false. destruct Hs as [->|(a & Hin & ->)].
    - eapply base_candidate_ok, Hb.
    - now apply new_candidate_nonempty. }
  rewrite Hc, add_contractor_suffix_take. reflexivity.
Qed.

(** What C7 states fails on the code.  In a directory without accounts,
    where the existence check is false for "jane.doe-c", the name for the
    contractor Jane Doe is not "jane.doe-c"; in a directory where
    "jane.doe-c" is the only free name no name is found at all; and a
    directory that already holds "j.doe-c" still gets "j.doe-c" proposed,
    the suffixed name never being looked up. *)
Lemma contractor_check_uses_bare_name :
  is_sam_account_unique (Some empty_directory) "jane.doe-c" = true
  /\ generated_sam_account "Jane" "Doe" (Some empty_directory) true
     <> Ret (Some "jane.doe-c")
  /\ is_sam_account_unique (Some (directory_without ["jane.doe-c"]))
       "jane.doe-c" = true
  /\ generated_sam_account "Jane" "Doe"
       (Some (directory_without ["jane.doe-c"])) true
     = Ret None
  /\ is_sam_account_unique (Some (directory_with ["j.doe-c"])) "j.doe-c"
     = false
  /\ generated_sam_account "Jane" "Doe"
       (Some (directory_with ["j.doe-c"])) true
     = Ret (Some "j.doe-c").
Proof. repeat split; try reflexivity. discriminate. Qed.

Lemma contractor_suffix_after_generation_witness :
  generated_sam_account "Jane" "Doe" (Some empty_directory) true
  = Ret (Some "j.doe-c")
  /\ String.length "j.doe-c" <= 20.
Proof.
  destruct (contractor_suffix_after_generation "Jane" "Doe"
              (Some empty_directory) "j.doe" eq_refl) as (H1 & H2 & _).
  split; [exact H1 | exact H2].
Defined.

End ContractorClaims.

(** ** The reconciler [save_changes] *)

Section ReconcilerFacts.
Import PyStr UserEditorHelpers EditMode EditModeSpec.

Lemma lookup_insert_eqb (k j : string) (v : list (mod_op * list scalar))
    (m : modifications_t) :
  <[k := v]> m !! j = if String.eqb k j then Some v else m !! j.
Proof.
  destruct (String.eqb_spec k j) as [->|Hne].
  - apply lookup_insert_eq.
  - now apply lookup_insert_ne.
Qed.

Lemma lookup_set_if (c : bool) (k j : string) (x : scalar)
    (m : modifications_t) :
  set_if c k x m !! j
  = if String.eqb k j && c then Some (replace_with x) else m !! j.
Proof.
  unfold set_if. destruct c.
  - rewrite lookup_insert_eqb, andb_true_r. reflexivity.
  - rewrite andb_false_r. reflexivity.
Qed.

(** The loop over the attributes tab leaves every request already made
    alone and adds, for the other names, the entries that are not handled
    by a control and differ from the snapshot. *)
Lemma custom_loop_lookup (u : gmap string value)
    (l : list (string * value)) (m : modifications_t) (j : string) :
  NoDup l.*1 ->
  foldl (custom_step u) m l !! j
  = match m !! j with
    | Some x => Some x
    | None =>
        if str_in j handled_elsewhere then None
        else
          match (list_to_map l : gmap string value) !! j with
          | Some v =>
              if bool_decide (v ≠ default (Scalar (SStr "")) (u !! j))
              then Some [(MODIFY_REPLACE, as_list v)]
              else None
          | None => None
          end
    end.
Proof.
  revert m. induction l as [|[k v] l IH]; intros m Hnd.
  - cbn [foldl list_to_map foldr]. rewrite lookup_empty.
    destruct (m !! j); [reflexivity|].
    now destruct (str_in j handled_elsewhere).
  - apply NoDup_cons in Hnd as [Hk Hnd]. simpl in Hk.
    cbn [foldl]. rewrite (IH _ Hnd). cbn [list_to_map foldr].
    destruct (decide (k = j)) as [->|Hne].
    + rewrite lookup_insert_eq.
      rewrite (not_elem_of_list_to_map_1 (M := gmap string) l j Hk).
      unfold custom_step.
      destruct (m !! j) as [x|] eqn:Hm.
      * rewrite bool_decide_eq_true_2 by eauto. cbn [orb]. now rewrite Hm.
      * rewrite bool_decide_eq_false_2 by (intros [? ?]; discriminate).
        cbn [orb]. destruct (str_in j handled_elsewhere) eqn:Hh.
        -- now rewrite Hm.
        -- destruct (bool_decide _).
           ++ now rewrite lookup_insert_eq.
           ++ now rewrite Hm.
    + rewrite lookup_insert_ne by exact Hne.
      assert (Hstep : custom_step u m (k, v) !! j = m !! j).
      { unfold custom_step.
        destruct (_ || _); [reflexivity|].
        destruct (bool_decide _); [|reflexivity].
        now rewrite lookup_insert_ne. }
      now rewrite Hstep.
Qed.

Lemma custom_attributes_lookup (w : edit_window) (m : modifications_t)
    (j : string) :
  foldl (custom_step (user_data w)) m (map_to_list (custom_attributes w)) !! j
  = match m !! j with
    | Some x => Some x
    | None => custom_change w j
    end.
Proof.
  rewrite custom_loop_lookup by apply NoDup_fst_map_to_list.
  rewrite list_to_map_to_list. reflexivity.
Qed.

Lemma as_int_snapshot (w : edit_window) :
  window_ok w ->
  as_int (default (Scalar (SInt 0)) (user_data w !! "userAccountControl"))
  = Ret (snapshot_uac w).
Proof.
  intros [[H|[z H]] _]; unfold snapshot_uac; rewrite H; reflexivity.
Qed.

(** Evaluate the tests on a known country index. *)
Ltac eval_country_index :=
  repeat match goal with
         | |- context [(0 <=? ?z)%Z] =>
             let b := eval vm_compute in (0 <=? z)%Z in
             change (0 <=? z)%Z with b
         | |- context [country_item ?z] =>
             let v := eval vm_compute in (country_item z) in
             change (country_item z) with v
         end.

Lemma ret_set_if (c : bool) (k : string) (x : scalar) (m : modifications_t) :
  (if c then Ret (<[k := replace_with x]> m) else Ret m)
  = (Ret (set_if c k x m) : py modifications_t).
Proof. now destruct c. Qed.

Lemma before_password_requests (w : edit_window) :
  window_ok w ->
  before_password w
  = Ret (apply_requests
           ((fun '(attr, x) => (attr, (dirty w attr, x)))
              <$> account_values w) ∅).
Proof.
  intros Hok. unfold before_password. cbv zeta.
  rewrite (as_int_snapshot w Hok). cbn [mbind py_bind].
  fold (apply_flag (disabled_chk (form w)) 2 (snapshot_uac w)).
  fold (apply_flag (pwd_never_expires_chk (form w)) 65536
          (apply_flag (disabled_chk (form w)) 2 (snapshot_uac w))).
  fold (apply_flag (cannot_change_pwd_chk (form w)) 64
          (apply_flag (pwd_never_expires_chk (form w)) 65536
             (apply_flag (disabled_chk (form w)) 2 (snapshot_uac w)))).
  fold (reconciled_uac w). rewrite ret_set_if. reflexivity.
Qed.

Lemma after_password_requests (w : edit_window) (m : modifications_t) :
  window_ok w ->
  after_password w m
  = Ret (outcome_of
           (foldl (custom_step (user_data w))
              (apply_requests
                 (((fun '(attr, x) => (attr, (dirty w attr, x)))
                     <$> job_address_values w)
                  ++ ((fun '(attr, x) => (attr, (dirty w "country", x)))
                        <$> country_values w)) m)
              (map_to_list (custom_attributes w)))).
Proof.
  intros [_ Hidx]. unfold after_password, country_values. cbv zeta.
  assert (Hcases : country_combo (form w) = (-1)%Z
                   \/ country_combo (form w) = 0%Z
                   \/ country_combo (form w) = 1%Z
                   \/ country_combo (form w) = 2%Z) by lia.
  destruct Hcases as [H|[H|[H|H]]]; rewrite H;
    unfold dirty; destruct (bool_decide ("country" ∈ _));
    eval_country_index;
    cbn [mbind py_bind]; unfold outcome_of;
    match goal with
    | |- (if ?b then _ else _) = Ret (if ?b' then _ else _) =>
        change b' with b; destruct b; reflexivity
    end.
Qed.

(** Without a password mismatch the window is reconciled to the requests
    of the controls, completed by the loop over the attributes tab. *)
Lemma save_changes_requests (w : edit_window) :
  window_ok w ->
  password_mismatch w = false ->
  save_changes w
  = Ret (outcome_of
           (foldl (custom_step (user_data w))
              (apply_requests (guarded_requests w) ∅)
              (map_to_list (custom_attributes w)))).
Proof.
  intros Hok Hmm. unfold save_changes.
  rewrite (before_password_requests w Hok). cbn [mbind py_bind]. cbv zeta.
  unfold guarded_requests, apply_requests. rewrite !foldl_app.
  fold (apply_requests
          ((fun '(attr, x) => (attr, (dirty w attr, x)))
             <$> account_values w) ∅).
  set (m := apply_requests _ ∅).
  unfold password_mismatch in Hmm. unfold password_requested, password_value.
  destruct (negb (is_empty (new_password_edit (form w))));
    destruct (String.eqb _ _); try discriminate Hmm;
    cbn [andb foldl set_if];
    rewrite (after_password_requests w _ Hok);
    unfold apply_requests; rewrite foldl_app; reflexivity.
Qed.

Lemma save_changes_mismatch (w : edit_window) :
  window_ok w ->
  password_mismatch w = true ->
  save_changes w = Ret PasswordMismatch.
Proof.
  intros Hok Hmm. unfold save_changes.
  rewrite (before_password_requests w Hok). cbn [mbind py_bind]. cbv zeta.
  unfold password_mismatch in Hmm.
  apply andb_prop in Hmm as [-> ->%negb_true_iff]. reflexivity.
Qed.

Lemma guarded_lookup_none (l : list (string * (bool * scalar))) (j : string) :
  j ∉ l.*1 -> guarded_lookup l j = None.
Proof.
  induction l as [|[k [c x]] l IH]; [reflexivity|].
  cbn [guarded_lookup fmap list_fmap fst]. intros Hj.
  apply not_elem_of_cons in Hj as [Hne Hj].
  destruct (String.eqb_spec k j) as [->|_]; [contradiction|].
  cbn [andb]. now apply IH.
Qed.

Lemma guarded_lookup_some (l : list (string * (bool * scalar)))
    (j : string) (x : scalar) :
  guarded_lookup l j = Some x -> (j, (true, x)) ∈ l.
Proof.
  induction l as [|[k [c x']] l IH]; [discriminate|].
  cbn [guarded_lookup].
  destruct (String.eqb_spec k j) as [->|_]; destruct c; cbn [andb];
    try (intros H; right; now apply IH).
  intros [= ->]. left.
Qed.

Lemma guarded_lookup_intro (l : list (string * (bool * scalar)))
    (j : string) (x : scalar) :
  NoDup l.*1 -> (j, (true, x)) ∈ l -> guarded_lookup l j = Some x.
Proof.
  induction l as [|[k [c x']] l IH]; intros Hnd Hin.
  - now apply elem_of_nil in Hin.
  - cbn [fmap list_fmap fst] in Hnd. apply NoDup_cons in Hnd as [Hk Hnd].
    cbn [guarded_lookup]. apply elem_of_cons in Hin as [[= <- <- <-]|Hin].
    + now rewrite String.eqb_refl.
    + destruct (String.eqb_spec k j) as [->|_].
      * exfalso. apply Hk.
        apply (list_elem_of_fmap_2 fst) in Hin. exact Hin.
      * cbn [andb]. now apply IH.
Qed.

Lemma lookup_apply_requests (l : list (string * (bool * scalar)))
    (m : modifications_t) (j : string) :
  NoDup l.*1 ->
  apply_requests l m !! j
  = match guarded_lookup l j with
    | Some x => Some (replace_with x)
    | None => m !! j
    end.
Proof.
  revert m. induction l as [|[k [c x]] l IH]; intros m Hnd; [reflexivity|].
  cbn [fmap list_fmap fst] in Hnd. apply NoDup_cons in Hnd as [Hk Hnd].
  unfold apply_requests. cbn [foldl]. fold (apply_requests l (set_if c k x m)).
  rewrite (IH _ Hnd), lookup_set_if. cbn [guarded_lookup].
  destruct (String.eqb_spec k j) as [->|_]; [|reflexivity].
  rewrite (guarded_lookup_none l j Hk). now destruct c.
Qed.

(** The names the controls can make a request for are pairwise different
    and all skipped by the loop over the attributes tab. *)
Lemma guarded_keys (w : edit_window) :
  window_ok w ->
  NoDup (guarded_requests w).*1
  /\ forall k, k ∈ (guarded_requests w).*1 ->
               str_in k handled_elsewhere = true.
Proof.
  intros [_ Hidx].
  assert (Hcases : country_combo (form w) = (-1)%Z
                   \/ country_combo (form w) = 0%Z
                   \/ country_combo (form w) = 1%Z
                   \/ country_combo (form w) = 2%Z) by lia.
  unfold guarded_requests, country_values.
  destruct Hcases as [H|[H|[H|H]]]; rewrite H; eval_country_index;
    cbn [fmap list_fmap app fst account_values job_address_values];
    (split;
     [ refine (bool_decide_unpack _ _); vm_compute; exact I
     | intros k Hk;
       repeat (apply elem_of_cons in Hk as [->|Hk]; [reflexivity|]);
       now apply elem_of_nil in Hk ]).
Qed.

(** Without a password mismatch, [save_changes] ends with a dictionary
    that holds, for every name, the request expected for it. *)
Lemma save_changes_lookup (w : edit_window) :
  window_ok w ->
  password_mismatch w = false ->
  exists modifications,
    save_changes w = Ret (outcome_of modifications)
    /\ forall attr, modifications !! attr = expected w attr.
Proof.
  intros Hok Hmm. eexists. split; [now apply save_changes_requests|].
  intros attr. rewrite custom_attributes_lookup.
  rewrite lookup_apply_requests by now apply guarded_keys.
  unfold expected. rewrite lookup_empty.
  now destruct (guarded_lookup _ _).
Qed.

Lemma guarded_requests_elem (w : edit_window) (attr : string) (x : scalar) :
  (attr, (true, x)) ∈ guarded_requests w
  <-> ((attr, x) ∈ form_values w /\ dirty w attr = true)
      \/ (attr = "unicodePwd" /\ x = password_value w
          /\ password_requested w = true)
      \/ ((attr, x) ∈ country_values w /\ dirty w "country" = true).
Proof.
  unfold guarded_requests, form_values.
  rewrite !elem_of_app, !list_elem_of_fmap, list_elem_of_singleton.
  split.
  - intros [([a y] & [= -> Hd ->] & Hin)
           |[[= -> Hp ->]
            |[([a y] & [= -> Hd ->] & Hin)
             |([a y] & [= -> Hd ->] & Hin)]]]; auto 6.
  - intros [[[Hin|Hin] Hd]|[(-> & -> & Hp)|[Hin Hd]]].
    + left. exists (attr, x). now rewrite Hd.
    + right; right; left. exists (attr, x). now rewrite Hd.
    + right; left. now rewrite Hp.
    + right; right; right. exists (attr, x). now rewrite Hd.
Qed.

Lemma expected_some (w : edit_window) (attr : string)
    (r : list (mod_op * list scalar)) :
  window_ok w ->
  expected w attr = Some r
  <-> (exists x, (attr, (true, x)) ∈ guarded_requests w
                 /\ r = replace_with x)
      \/ custom_change w attr = Some r.
Proof.
  intros Hok. destruct (guarded_keys w Hok) as [Hnd Hkeys].
  unfold expected. split.
  - destruct (guarded_lookup _ _) as [x|] eqn:Hg.
    + intros [= <-]. left. exists x. split; [|reflexivity].
      now apply guarded_lookup_some.
    + now right.
  - intros [(x & Hin & ->)|Hc].
    + now rewrite (guarded_lookup_intro _ _ _ Hnd Hin).
    + rewrite guarded_lookup_none; [exact Hc|].
      intros Hk. apply Hkeys in Hk. unfold custom_change in Hc.
      rewrite Hk in Hc. discriminate.
Qed.

Lemma custom_change_some (w : edit_window) (attr : string)
    (r : list (mod_op * list scalar)) :
  custom_change w attr = Some r
  <-> str_in attr handled_elsewhere = false
      /\ exists v, custom_attributes w !! attr = Some v
                   /\ v <> default (Scalar (SStr "")) (user_data w !! attr)
                   /\ r = [(MODIFY_REPLACE, as_list v)].
Proof.
  unfold custom_change. destruct (str_in attr handled_elsewhere).
  - split; [discriminate | intros [? _]; discriminate].
  - destruct (custom_attributes w !! attr) as [v|].
    + destruct (bool_decide_reflect
                  (v ≠ default (Scalar (SStr "")) (user_data w !! attr)))
        as [Hne|He].
      * split.
        -- intros [= <-]. split; [reflexivity|]. exists v. auto.
        -- intros (_ & v' & [= <-] & _ & ->). reflexivity.
      * split; [discriminate|].
        intros (_ & v' & [= <-] & Hne & _). contradiction.
    + split; [discriminate|]. intros (_ & v & Hv & _). discriminate.
Qed.

Lemma outcome_of_modify (m mods : modifications_t) :
  outcome_of m = Modify mods -> m = mods.
Proof.
  unfold outcome_of. destruct (bool_decide _); [discriminate|].
  now intros [= ->].
Qed.

Lemma outcome_of_nonempty (m : modifications_t) (attr : string) :
  is_Some (m !! attr) -> outcome_of m = Modify m.
Proof.
  intros [r Hr]. unfold outcome_of.
  rewrite bool_decide_eq_false_2; [reflexivity|].
  intros ->. rewrite lookup_empty in Hr. discriminate.
Qed.

Lemma password_mismatch_cases (w : edit_window) :
  password_mismatch w = true
  \/ (password_mismatch w = false /\ password_requested w = true)
  \/ (password_mismatch w = false /\ password_requested w = false
      /\ new_password_edit (form w) = "").
Proof.
  unfold password_mismatch, password_requested.
  destruct (new_password_edit (form w)) as [|c s]; cbn [is_empty negb andb].
  - auto.
  - destruct (String.eqb _ _); auto.
Qed.

End ReconcilerFacts.

(** ** Claims about the reconciler *)

Section ReconcilerClaims.
Import PyStr UserEditorHelpers EditMode EditModeSpec EditScenarios.

Lemma form_values_names (w : edit_window) (attr : string) :
  attr ∈ bound_attributes <-> exists x, (attr, x) ∈ form_values w.
Proof.
  change bound_attributes with (form_values w).*1.
  rewrite list_elem_of_fmap. split.
  - intros ([a x] & -> & Hin). now exists x.
  - intros [x Hin]. now exists (attr, x).
Qed.

Lemma dirty_true (w : edit_window) (attr : string) :
  dirty w attr = true <-> attr ∈ modified_attributes w.
Proof. unfold dirty. apply bool_decide_eq_true. Qed.

(** C3: for every attribute bound to a control of the form and marked
    dirty, a save that is not stopped by a password mismatch hands the
    directory one replace request for it, carrying the value the form
    currently gives it; the snapshot is not compared with, so the request
    is made also when the value is the one already stored. *)
Theorem dirty_attribute_always_written
    (w : edit_window) (attr : string) (x : scalar) :
  window_ok w ->
  password_mismatch w = false ->
  attr ∈ modified_attributes w ->
  (attr, x) ∈ form_values w ->
  exists modifications,
    save_changes w = Ret (Modify modifications)
    /\ modifications !! attr = Some [(MODIFY_REPLACE, [x])].
Proof.
  intros Hok Hmm Hd Hin.
  destruct (save_changes_lookup w Hok Hmm) as (m & Hsave & Hm).
  assert (Hattr : m !! attr = Some (replace_with x)).
  { rewrite Hm. apply expected_some; [exact Hok|]. left. exists x.
    split; [|reflexivity]. apply guarded_requests_elem. left.
    split; [exact Hin | now apply dirty_true]. }
  exists m. split; [|exact Hattr].
  rewrite Hsave. f_equal. apply (outcome_of_nonempty m attr). eauto.
Qed.

Lemma dirty_attribute_always_written_witness :
  user_data retyped_first_name !! "givenName" = Some (Scalar (SStr "Jane"))
  /\ exists modifications,
       save_changes retyped_first_name = Ret (Modify modifications)
       /\ modifications !! "givenName"
          = Some [(MODIFY_REPLACE, [SStr "Jane"])].
Proof.
  split; [reflexivity|].
  apply (dirty_attribute_always_written retyped_first_name "givenName"
           (SStr "Jane")).
  - split; [right; eexists; reflexivity | simpl; lia].
  - reflexivity.
  - refine (bool_decide_unpack _ _). vm_compute. exact I.
  - apply list_elem_of_here.
Defined.

(** C4: with a non-empty new password that differs from its confirmation
    the save ends in the password-mismatch warning, which is neither "no
    changes" nor a modify call; with a non-empty new password equal to its
    confirmation the modify call carries, whatever the dirty flags, one
    replace request for [unicodePwd] whose value is the UTF-16LE encoding
    of the password between double quotes. *)
Theorem password_reset_reconciled (w : edit_window) :
  window_ok w ->
  new_password_edit (form w) <> "" ->
  (new_password_edit (form w) <> confirm_password_edit (form w) ->
   save_changes w = Ret PasswordMismatch
   /\ save_changes w <> Ret NoChangesToSave
   /\ forall modifications, save_changes w <> Ret (Modify modifications))
  /\ (new_password_edit (form w) = confirm_password_edit (form w) ->
      exists modifications,
        save_changes w = Ret (Modify modifications)
        /\ modifications !! "unicodePwd"
           = Some [(MODIFY_REPLACE,
                    [SBytes (utf_16_le
                               (String dquote
                                  (new_password_edit (form w)
                                   +:+ String dquote "")))])]).
Proof.
  intros Hok Hne. apply is_empty_false in Hne. split.
  - intros Hdiff. apply String.eqb_neq in Hdiff.
    assert (Hmm : password_mismatch w = true).
    { unfold password_mismatch. now rewrite Hne, Hdiff. }
    rewrite (save_changes_mismatch w Hok Hmm).
    repeat split; [discriminate | intros m; discriminate].
  - intros Heq. apply String.eqb_eq in Heq.
    assert (Hmm : password_mismatch w = false).
    { unfold password_mismatch. now rewrite Hne, Heq. }
    assert (Hreq : password_requested w = true).
    { unfold password_requested. now rewrite Hne, Heq. }
    destruct (save_changes_lookup w Hok Hmm) as (m & Hsave & Hm).
    assert (Hpwd : m !! "unicodePwd"
                   = Some (replace_with (password_value w))).
    { rewrite Hm. apply expected_some; [exact Hok|]. left.
      exists (password_value w). split; [|reflexivity].
      apply guarded_requests_elem. right; left. auto. }
    exists m. split; [|exact Hpwd].
    rewrite Hsave. f_equal. apply (outcome_of_nonempty m "unicodePwd"). eauto.
Qed.

Lemma password_reset_reconciled_witness :
  save_changes (session ∅ jane_snapshot (password_form "S3cret!" "S3cret"))
  = Ret PasswordMismatch
  /\ exists modifications,
       save_changes
         (session ∅ jane_snapshot (password_form "S3cret!" "S3cret!"))
       = Ret (Modify modifications)
       /\ modifications !! "unicodePwd"
          = Some [(MODIFY_REPLACE,
                   [SBytes [x22; x00; x53; x00; x33; x00; x63; x00; x72;
                            x00; x65; x00; x74; x00; x21; x00; x22; x00]])].
Proof.
  split.
  - apply (password_reset_reconciled
             (session ∅ jane_snapshot (password_form "S3cret!" "S3cret"))).
    + split; [right; eexists; reflexivity | simpl; lia].
    + discriminate.
    + discriminate.
  - apply (password_reset_reconciled
             (session ∅ jane_snapshot (password_form "S3cret!" "S3cret!"))).
    + split; [right; eexists; reflexivity | simpl; lia].
    + discriminate.
    + reflexivity.
Defined.

(** C5: with 512 in the snapshot, the "account is disabled" box ticked,
    the two password boxes unticked, [userAccountControl] the only dirty
    attribute, no new password and an untouched attributes tab, the modify
    call carries exactly one request: replace [userAccountControl] by
    514. *)
Theorem disable_account_scenario (w : edit_window) :
  window_ok w ->
  user_data w !! "userAccountControl" = Some (Scalar (SInt 512)) ->
  modified_attributes w = {[ "userAccountControl" ]} ->
  disabled_chk (form w) = true ->
  pwd_never_expires_chk (form w) = false ->
  cannot_change_pwd_chk (form w) = false ->
  new_password_edit (form w) = "" ->
  custom_attributes w = user_data w ->
  save_changes w
  = Ret (Modify {[ "userAccountControl" := [(MODIFY_REPLACE, [SInt 514])] ]}).
Proof.
  intros Hok Huac Hflags Hdis Hnev Hcan Hpwd Htab.
  assert (Hmm : password_mismatch w = false).
  { unfold password_mismatch. now rewrite Hpwd. }
  assert (Hreq : password_requested w = false).
  { unfold password_requested. now rewrite Hpwd. }
  destruct (save_changes_lookup w Hok Hmm) as (m & Hsave & Hm).
  assert (Hval : reconciled_uac w = 514%Z).
  { unfold reconciled_uac, snapshot_uac. now rewrite Huac, Hdis, Hnev, Hcan. }
  assert (Heq : m = {[ "userAccountControl"
                       := [(MODIFY_REPLACE, [SInt 514])] ]}).
  { apply map_eq. intros attr. rewrite Hm.
    destruct (decide (attr = "userAccountControl")) as [->|Hne].
    - rewrite lookup_singleton_eq. apply expected_some; [exact Hok|]. left.
      exists (SInt 514). split; [|reflexivity].
      apply guarded_requests_elem. left. split.
      + rewrite <- Hval. unfold form_values, account_values.
        repeat first [apply list_elem_of_here | apply list_elem_of_further].
      + apply dirty_true. rewrite Hflags. now apply elem_of_singleton.
    - rewrite lookup_singleton_ne by congruence.
      apply eq_None_not_Some. intros [r Hr].
      apply expected_some in Hr; [|exact Hok].
      destruct Hr as [(x & Hin & _)|Hc].
      + apply guarded_requests_elem in Hin
          as [[_ Hd]|[(_ & _ & Hp)|[_ Hd]]].
        * apply dirty_true in Hd. rewrite Hflags in Hd.
          apply elem_of_singleton in Hd. contradiction.
        * congruence.
        * apply dirty_true in Hd. rewrite Hflags in Hd.
          apply elem_of_singleton in Hd. discriminate.
      + apply custom_change_some in Hc as (_ & v & Hv & Hdiff & _).
        rewrite Htab in Hv. rewrite Hv in Hdiff. now apply Hdiff. }
  rewrite Hsave, Heq. reflexivity.
Qed.

Lemma disable_account_scenario_witness :
  save_changes account_disabled
  = Ret (Modify {[ "userAccountControl" := [(MODIFY_REPLACE, [SInt 514])] ]}).
Proof.
  apply (disable_account_scenario account_disabled); try reflexivity.
  split; [right; eexists; reflexivity | simpl; lia].
Defined.

(** C2 (amended): the attribute names of the modify call are exactly: the
    dirty names among the attributes bound to a control; [unicodePwd]
    when a confirmed new password was typed; [c], [co] and [countryCode]
    when the country box is dirty; and every entry of the attributes tab
    that no control handles and whose value differs from the snapshot,
    whether or not anything was marked dirty. *)
Theorem change_set_names (w : edit_window) (modifications : modifications_t) :
  window_ok w ->
  save_changes w = Ret (Modify modifications) ->
  forall attr,
    attr ∈ dom modifications
    <-> (attr ∈ bound_attributes /\ attr ∈ modified_attributes w)
        \/ (attr = "unicodePwd" /\ password_requested w = true)
        \/ ((attr ∈ (country_values w).*1)
            /\ "country" ∈ modified_attributes w)
        \/ ((attr ∉ handled_elsewhere)
            /\ exists v,
                 custom_attributes w !! attr = Some v
                 /\ v <> default (Scalar (SStr "")) (user_data w !! attr)).
Proof.
  intros Hok Hsave attr.
  assert (Hmm : password_mismatch w = false).
  { destruct (password_mismatch w) eqn:Hmm; [|reflexivity].
    rewrite (save_changes_mismatch w Hok Hmm) in Hsave. discriminate. }
  destruct (save_changes_lookup w Hok Hmm) as (m & Hsave' & Hm).
  rewrite Hsave' in Hsave. injection Hsave as Hsave.
  apply outcome_of_modify in Hsave as <-.
  rewrite elem_of_dom, Hm. unfold is_Some.
  setoid_rewrite (expected_some w attr _ Hok).
  setoid_rewrite guarded_requests_elem.
  setoid_rewrite custom_change_some.
  rewrite (form_values_names w attr).
  rewrite list_elem_of_fmap.
  rewrite <- (dirty_true w attr), <- (dirty_true w "country").
  assert (Hh : str_in attr handled_elsewhere = false
               <-> attr ∉ handled_elsewhere).
  { rewrite <- not_true_iff_false, str_in_spec, list_elem_of_In. tauto. }
  rewrite <- Hh. split.
  - intros (r & [(x & [[Hin Hd]|[(-> & -> & Hp)|[Hin Hd]]] & ->)
                |(Hs & v & Hv & Hdiff & ->)]).
    + left. eauto.
    + right; left. auto.
    + right; right; left. split; [|exact Hd]. now exists (attr, x).
    + right; right; right. eauto.
  - intros [[[x Hin] Hd]|[[-> Hp]|[[([a x] & -> & Hin) Hd]|(Hs & v & Hv & Hdiff)]]].
    + exists (replace_with x). left. exists x. auto.
    + exists (replace_with (password_value w)). left.
      exists (password_value w). auto 6.
    + exists (replace_with x). left. exists x. auto 6.
    + exists [(MODIFY_REPLACE, as_list v)]. right. eauto 6.
Qed.

Lemma change_set_names_witness :
  exists modifications,
    save_changes country_changed = Ret (Modify modifications)
    /\ forall attr,
         attr ∈ dom modifications
         <-> (attr ∈ bound_attributes
              /\ attr ∈ modified_attributes country_changed)
             \/ (attr = "unicodePwd"
                 /\ password_requested country_changed = true)
             \/ ((attr ∈ (country_values country_changed).*1)
                 /\ "country" ∈ modified_attributes country_changed)
             \/ ((attr ∉ handled_elsewhere)
                 /\ exists v,
                      custom_attributes country_changed !! attr = Some v
                      /\ v <> default (Scalar (SStr ""))
                                (user_data country_changed !! attr)).
Proof.
  eexists. split; [vm_compute; reflexivity|].
  apply (change_set_names country_changed).
  - split; [right; eexists; reflexivity | simpl; lia].
  - vm_compute. reflexivity.
Defined.

(** C2, as stated, fails on the code: with no attribute marked dirty and
    no password typed, an entry edited on the attributes tab is written;
    and a dirty country box leads to requests for [c], [co] and
    [countryCode], none of which is, or can be, in the dirty set, and to
    none under its own name. *)
Lemma untracked_attribute_written :
  modified_attributes info_edited = ∅
  /\ new_password_edit (form info_edited) = ""
  /\ save_changes info_edited
     = Ret (Modify {[ "info" := [(MODIFY_REPLACE, [SStr "night shift"])] ]})
  /\ modified_attributes country_changed = {[ "country" ]}
  /\ save_changes country_changed
     = Ret (Modify {[ "c" := [(MODIFY_REPLACE, [SStr "CA"])];
                      "co" := [(MODIFY_REPLACE, [SStr "Canada"])];
                      "countryCode" := [(MODIFY_REPLACE, [SStr "124"])] ]}).
Proof. repeat split; vm_compute; reflexivity. Qed.

Lemma dirty_clear_flag (w : edit_window) (flag attr : string) :
  dirty (clear_flag flag w) attr = true
  <-> dirty w attr = true /\ attr <> flag.
Proof.
  rewrite !dirty_true. unfold clear_flag. cbn [modified_attributes].
  rewrite elem_of_difference, elem_of_singleton. tauto.
Qed.

Lemma country_values_names (w : edit_window) (attr : string) (x : scalar) :
  (attr, x) ∈ country_values w ->
  attr = "c" \/ attr = "co" \/ attr = "countryCode".
Proof.
  unfold country_values. destruct (0 <=? _)%Z; [|now intros ?%elem_of_nil].
  destruct (country_item _) as [[name [code num]]|];
    [|now intros ?%elem_of_nil].
  rewrite !elem_of_cons, elem_of_nil.
  intros [[= -> _]|[[= -> _]|[[= -> _]|[]]]]; auto.
Qed.

(** Taking the country flag away removes the requests for the three
    country attributes and changes no other. *)
Lemma expected_without_country (w : edit_window) (attr : string) :
  window_ok w ->
  expected (clear_flag "country" w) attr
  = if bool_decide (attr ∈ ["c"; "co"; "countryCode"]) then None
    else expected w attr.
Proof.
  intros Hok.
  assert (Hok' : window_ok (clear_flag "country" w)) by exact Hok.
  apply option_eq. intros r.
  rewrite (expected_some _ attr r Hok').
  setoid_rewrite guarded_requests_elem.
  setoid_rewrite dirty_clear_flag.
  change (form_values (clear_flag "country" w)) with (form_values w).
  change (country_values (clear_flag "country" w)) with (country_values w).
  change (password_value (clear_flag "country" w)) with (password_value w).
  change (password_requested (clear_flag "country" w))
    with (password_requested w).
  change (custom_change (clear_flag "country" w) attr)
    with (custom_change w attr).
  destruct (bool_decide_reflect (attr ∈ ["c"; "co"; "countryCode"]))
    as [Hc|Hc].
  - split; [|discriminate].
    intros [(x & [[Hin _]|[(-> & _)|[_ [_ Hn]]]] & _)|Hcust]; exfalso.
    + assert (Hb : attr ∈ bound_attributes)
        by (apply (form_values_names w); eauto).
      revert Hc Hb. rewrite !elem_of_cons, !elem_of_nil.
      unfold bound_attributes. rewrite !elem_of_cons, elem_of_nil.
      intros [->|[->|[->|[]]]]; intuition discriminate.
    + revert Hc. rewrite !elem_of_cons, !elem_of_nil.
      intuition discriminate.
    + now apply Hn.
    + apply custom_change_some in Hcust as [Hs _].
      revert Hc Hs. rewrite !elem_of_cons, !elem_of_nil.
      intros [->|[->|[->|[]]]]; discriminate.
  - rewrite (expected_some w attr r Hok).
    setoid_rewrite guarded_requests_elem.
    split.
    + intros [(x & [[Hin [Hd _]]|[Hp|[_ [_ Hn]]]] & ->)|Hcust]; eauto 8.
      exfalso. now apply Hn.
    + intros [(x & [[Hin Hd]|[Hp|[Hin _]]] & ->)|Hcust]; eauto 8.
      * left. exists x. split; [|reflexivity]. left. split; [exact Hin|].
        split; [exact Hd|]. intros ->.
        assert (Hb : "country" ∈ bound_attributes)
          by (apply (form_values_names w); eauto).
        revert Hb. unfold bound_attributes.
        rewrite !elem_of_cons, elem_of_nil. intuition discriminate.
      * exfalso. apply Hc. apply country_values_names in Hin.
        rewrite !elem_of_cons. tauto.
Qed.

(** C9: when the country box is dirty and holds a selection, a save that
    is not stopped by a password mismatch requests the replacement of
    [c] by the two-letter code, of [co] by the display name and of
    [countryCode] by the numeric code of the selected country, as the
    table [countries] gives them at the index of the box, all in the one
    modify call; these three requests are all the dirty flag adds: without
    it the call would carry the same requests but these. *)
Theorem country_expands_to_three_requests (w : edit_window) :
  window_ok w ->
  password_mismatch w = false ->
  "country" ∈ modified_attributes w ->
  (0 <= country_combo (form w))%Z ->
  exists modifications rest country_name country_code country_num,
    save_changes w = Ret (Modify modifications)
    /\ country_item (country_combo (form w))
       = Some (country_name, (country_code, country_num))
    /\ countries !! Z.to_nat (country_combo (form w))
       = Some (country_name, (country_code, country_num))
    /\ modifications !! "c" = Some [(MODIFY_REPLACE, [SStr country_code])]
    /\ modifications !! "co" = Some [(MODIFY_REPLACE, [SStr country_name])]
    /\ modifications !! "countryCode"
       = Some [(MODIFY_REPLACE, [SStr country_num])]
    /\ save_changes (clear_flag "country" w) = Ret (outcome_of rest)
    /\ rest !! "c" = None /\ rest !! "co" = None
    /\ rest !! "countryCode" = None
    /\ modifications
       = <["countryCode" := [(MODIFY_REPLACE, [SStr country_num])]]>
           (<["co" := [(MODIFY_REPLACE, [SStr country_name])]]>
              (<["c" := [(MODIFY_REPLACE, [SStr country_code])]]> rest)).
Proof.
  intros Hok Hmm Hd Hsel.
  destruct (save_changes_lookup w Hok Hmm) as (m & Hsave & Hm).
  destruct (save_changes_lookup (clear_flag "country" w) Hok Hmm)
    as (rest & Hsave' & Hrest).
  assert (Hitem : exists name code num,
             country_item (country_combo (form w)) = Some (name, (code, num))).
  { destruct Hok as [_ Hidx].
    assert (Hcases : country_combo (form w) = 0%Z
                     \/ country_combo (form w) = 1%Z
                     \/ country_combo (form w) = 2%Z) by lia.
    destruct Hcases as [H|[H|H]]; rewrite H; cbn; eauto. }
  destruct Hitem as (name & code & num & Hitem).
  assert (Hvalues : country_values w
                    = [("c", SStr code); ("co", SStr name);
                       ("countryCode", SStr num)]).
  { unfold country_values. rewrite Hitem.
    destruct (Z.leb_spec 0 (country_combo (form w))); [reflexivity | lia]. }
  assert (Hthree : forall attr x,
             (attr, x) ∈ country_values w ->
             m !! attr = Some (replace_with x)).
  { intros attr x Hin. rewrite Hm. apply expected_some; [exact Hok|].
    left. exists x. split; [|reflexivity].
    apply guarded_requests_elem. right; right.
    split; [exact Hin | now apply dirty_true]. }
  rewrite Hvalues in Hthree.
  assert (Hc : m !! "c" = Some (replace_with (SStr code)))
    by (apply Hthree; repeat first [apply list_elem_of_here
                                   | apply list_elem_of_further]).
  assert (Hco : m !! "co" = Some (replace_with (SStr name)))
    by (apply Hthree; repeat first [apply list_elem_of_here
                                   | apply list_elem_of_further]).
  assert (Hcc : m !! "countryCode" = Some (replace_with (SStr num)))
    by (apply Hthree; repeat first [apply list_elem_of_here
                                   | apply list_elem_of_further]).
  exists m, rest, name, code, num.
  split. { rewrite Hsave. f_equal. apply (outcome_of_nonempty m "c"). eauto. }
  split; [exact Hitem|]. split; [exact Hitem|].
  split; [exact Hc|]. split; [exact Hco|]. split; [exact Hcc|].
  split; [exact Hsave'|].
  split. { rewrite Hrest, (expected_without_country w "c" Hok). reflexivity. }
  split. { rewrite Hrest, (expected_without_country w "co" Hok). reflexivity. }
  split.
  { rewrite Hrest, (expected_without_country w "countryCode" Hok).
    reflexivity. }
  apply map_eq. intros attr. rewrite !lookup_insert_eqb.
  destruct (String.eqb_spec "countryCode" attr) as [<-|H1]; [exact Hcc|].
  destruct (String.eqb_spec "co" attr) as [<-|H2]; [exact Hco|].
  destruct (String.eqb_spec "c" attr) as [<-|H3]; [exact Hc|].
  rewrite Hm, Hrest, (expected_without_country w attr Hok).
  rewrite bool_decide_eq_false_2; [reflexivity|].
  rewrite !elem_of_cons, elem_of_nil. intuition congruence.
Qed.

Lemma country_expands_to_three_requests_witness :
  exists modifications rest,
    save_changes country_changed = Ret (Modify modifications)
    /\ countries !! 1%nat = Some ("Canada", ("CA", "124"))
    /\ modifications !! "c" = Some [(MODIFY_REPLACE, [SStr "CA"])]
    /\ modifications !! "co" = Some [(MODIFY_REPLACE, [SStr "Canada"])]
    /\ modifications !! "countryCode"
       = Some [(MODIFY_REPLACE, [SStr "124"])]
    /\ save_changes (clear_flag "country" country_changed)
       = Ret (outcome_of rest)
    /\ rest !! "c" = None /\ rest !! "co" = None
    /\ rest !! "countryCode" = None
    /\ modifications
       = <["countryCode" := [(MODIFY_REPLACE, [SStr "124"])]]>
           (<["co" := [(MODIFY_REPLACE, [SStr "Canada"])]]>
              (<["c" := [(MODIFY_REPLACE, [SStr "CA"])]]> rest)).
Proof.
  destruct (country_expands_to_three_requests country_changed)
    as (m & rest & name & code & num & Hsave & _ & Htable & H).
  - split; [right; eexists; reflexivity | simpl; lia].
  - reflexivity.
  - refine (bool_decide_unpack _ _). vm_compute. exact I.
  - simpl. lia.
  - change (countries !! 1%nat = Some (name, (code, num))) in Htable.
    injection Htable as <- <- <-.
    exists m, rest. split; [exact Hsave|]. split; [reflexivity|]. exact H.
Defined.

End ReconcilerClaims.

(** ** Claims about [create_user] *)

Section CreateClaims.
Import PyStr Ldap UserEditorHelpers CreateMode CreateScenarios.

Lemma lookup_set_nonempty_ne (attr text k : string)
    (attributes : gmap string value) :
  attr <> k -> set_nonempty attr text attributes !! k = attributes !! k.
Proof.
  intros Hne. unfold set_nonempty. destruct (negb _); [|reflexivity].
  now apply lookup_insert_ne.
Qed.

Lemma initial_attributes_uac (w : create_window)
    (first last display_name sam_account upn password : string) :
  initial_attributes w first last display_name sam_account upn password
    !! "userAccountControl"
  = Some (Scalar (SInt 66048)).
Proof.
  unfold initial_attributes. cbv zeta.
  rewrite !lookup_set_nonempty_ne by discriminate.
  rewrite lookup_insert_ne by discriminate. apply lookup_insert_eq.
Qed.

Lemma country_attributes_uac (idx : Z)
    (attributes attributes' : gmap string value) :
  country_attributes idx attributes = Ret attributes' ->
  attributes' !! "userAccountControl" = attributes !! "userAccountControl".
Proof.
  unfold country_attributes. destruct (0 <=? idx)%Z; [|now intros [= <-]].
  destruct (country_item idx) as [[name [code num]]|]; [|discriminate].
  intros [= <-]. now rewrite !lookup_insert_ne by discriminate.
Qed.

(** The loop over the attributes tab never overwrites an attribute that
    is already set. *)
Lemma custom_loop_keeps (l : list (string * value))
    (attributes : gmap string value) (k : string) (v : value) :
  attributes !! k = Some v ->
  foldl custom_step attributes l !! k = Some v.
Proof.
  revert attributes. induction l as [|[a x] l IH]; intros attributes Hk;
    [exact Hk|].
  cbn [foldl]. apply IH. unfold custom_step.
  destruct (bool_decide_reflect (is_Some (attributes !! a))) as [Hs|Hn];
    [exact Hk|].
  rewrite lookup_insert_ne; [exact Hk|].
  intros ->. apply Hn. eauto.
Qed.

Lemma group_requests_member (w : create_window) (new_user_dn dn : string)
    (changes : modifications_t) :
  ModifyReq dn changes ∈ group_requests w new_user_dn ->
  changes !! "pwdLastSet" = None.
Proof.
  unfold group_requests. rewrite list_elem_of_omap.
  intros (g & _ & Hg).
  destruct (List.find _ _) as [[name gdn]|]; [|discriminate].
  injection Hg as <- <-. reflexivity.
Qed.

Lemma group_requests_no_add (w : create_window) (new_user_dn dn : string)
    (attributes : gmap string value) :
  Add dn attributes ∉ group_requests w new_user_dn.
Proof.
  unfold group_requests. rewrite list_elem_of_omap.
  intros (g & _ & Hg).
  destruct (List.find _ _) as [[name gdn]|]; discriminate.
Qed.

(** C10: whatever the "Password never expires" box shows, the attribute
    set [create_user] hands to [add] holds [userAccountControl] = 66048;
    the box does not influence the routine at all.  The "must change
    password" box is honoured: after a successful add a separate modify
    request setting [pwdLastSet] to 0 is made exactly when it is ticked;
    the add is the first request, the modify is the request right after
    it and names the very DN the add created, and no later request sets
    [pwdLastSet]. *)
Theorem created_account_control (w : create_window) (a : answers) :
  (forall b, create_user (set_never_expires b w) a = create_user w a)
  /\ (forall status requests,
        create_user w a = Ret (status, requests) ->
        (forall dn attributes,
           Add dn attributes ∈ requests ->
           attributes !! "userAccountControl" = Some (Scalar (SInt 66048)))
        /\ (status = UserCreated ->
            (exists dn attributes, Add dn attributes ∈ requests)
            /\ (change_password_chk (form w) = true
                <-> exists dn, ModifyReq dn expire_password ∈ requests)
            /\ exists dn attributes rest,
                 requests
                 = (Add dn attributes
                    :: (if change_password_chk (form w)
                        then [ModifyReq dn expire_password] else [])
                    ++ rest)%list
                 /\ forall dn' changes,
                      ModifyReq dn' changes ∈ rest ->
                      changes !! "pwdLastSet" = None)).
Proof.
  split; [reflexivity|].
  intros status requests Hc. unfold create_user in Hc. cbv zeta in Hc.
  destruct (_ || _ || _ || _).
  { injection Hc as <- <-. split; [|discriminate].
    now intros dn attrs ?%elem_of_nil. }
  destruct (negb (String.eqb _ _)).
  { injection Hc as <- <-. split; [|discriminate].
    now intros dn attrs ?%elem_of_nil. }
  match type of Hc with
  | context [mbind _ ?m] => destruct m as [[sam|]|e]; [| |discriminate]
  end.
  2:{ cbn [mbind py_bind] in Hc. injection Hc as <- <-.
      split; [now intros dn attrs ?%elem_of_nil|].
      destruct (manual_entry_reply a); discriminate. }
  cbn [mbind py_bind] in Hc.
  destruct (ldap_conn w); [|discriminate].
  destruct (negb (bind_ok a)).
  { injection Hc as <- <-. split; [|discriminate].
    now intros dn attrs ?%elem_of_nil. }
  destruct (country_attributes _ _) as [attrs|e] eqn:Hattrs; [|discriminate].
  cbn [mbind py_bind] in Hc.
  assert (Huac : foldl custom_step attrs (map_to_list (custom_attributes w))
                   !! "userAccountControl"
                 = Some (Scalar (SInt 66048))).
  { apply custom_loop_keeps.
    rewrite (country_attributes_uac _ _ _ Hattrs).
    apply initial_attributes_uac. }
  assert (Hcases : forall (rs : list request) dn attrs',
             Add dn attrs' ∈ rs ->
             (forall dn0 attrs0, Add dn0 attrs0 ∈ rs ->
                                 Add dn0 attrs0
                                 = Add ("CN=" +:+
                                        (if is_empty (strip (display_name_edit (form w)))
                                         then strip (first_name_edit (form w)) +:+ " "
                                              +:+ strip (last_name_edit (form w))
                                         else strip (display_name_edit (form w)))
                                        +:+ "," +:+ ou_combo (form w))
                                     (foldl custom_step attrs
                                        (map_to_list (custom_attributes w)))) ->
             attrs' !! "userAccountControl" = Some (Scalar (SInt 66048))).
  { intros rs dn attrs' Hin Hall. specialize (Hall _ _ Hin).
    injection Hall as _ ->. exact Huac. }
  destruct (negb (add_result a)).
  { injection Hc as <- <-. split; [|discriminate].
    intros dn attrs' Hin. apply (Hcases _ _ _ Hin).
    intros dn0 attrs0. rewrite ?elem_of_app, ?elem_of_cons, ?elem_of_nil.
    intuition discriminate. }
  injection Hc as <- <-. split.
  - intros dn attrs' Hin. apply (Hcases _ _ _ Hin).
    intros dn0 attrs0. destruct (change_password_chk (form w));
      rewrite ?elem_of_app, ?elem_of_cons, ?elem_of_nil;
      intros H;
      repeat match type of H with
             | _ \/ _ => destruct H as [H|H]
             end;
      try discriminate H; try contradiction; try exact H;
      now apply group_requests_no_add in H.
  - intros _. split; [|split].
    + eexists _, _. destruct (change_password_chk (form w));
        rewrite ?elem_of_app, ?elem_of_cons; auto 6.
    + destruct (change_password_chk (form w)); split.
      * intros _. eexists.
        rewrite ?elem_of_app, ?elem_of_cons. left; left; right; left.
        reflexivity.
      * reflexivity.
      * discriminate.
      * intros [dn Hin]. exfalso. revert Hin.
        rewrite ?elem_of_app, ?elem_of_cons, ?elem_of_nil.
        intros H;
          repeat match type of H with
                 | _ \/ _ => destruct H as [H|H]
                 end;
          try discriminate H; try contradiction.
        apply group_requests_member in H. discriminate.
    + eexists _, _, (group_requests w _ ++ [Unbind])%list. split.
      * destruct (change_password_chk (form w));
          cbn [app]; now rewrite <- ?app_assoc.
      * intros dn' changes [H|H]%elem_of_app.
        -- now apply group_requests_member in H.
        -- apply list_elem_of_singleton in H. discriminate H.
Qed.

Lemma created_account_control_witness :
  create_user (jane_contractor true false) all_fine
  = create_user (jane_contractor true true) all_fine
  /\ exists attributes,
       create_user (jane_contractor true false) all_fine
       = Ret (UserCreated,
              [Add "CN=Jane Doe,OU=Staff,DC=corp,DC=example,DC=com"
                 attributes;
               ModifyReq "CN=Jane Doe,OU=Staff,DC=corp,DC=example,DC=com"
                 expire_password;
               ModifyReq "CN=Staff,OU=Groups,DC=corp,DC=example,DC=com"
                 {[ "member" :=
                      [(MODIFY_ADD,
                        [SStr "CN=Jane Doe,OU=Staff,DC=corp,DC=example,DC=com"])]
                 ]};
               Unbind])
       /\ attributes !! "userAccountControl" = Some (Scalar (SInt 66048)).
Proof.
  destruct (created_account_control (jane_contractor true true) all_fine)
    as [Hsame _].
  destruct (created_account_control (jane_contractor true false) all_fine)
    as [_ Hreq].
  split; [exact (Hsame false)|].
  destruct (create_user (jane_contractor true false) all_fine)
    as [[status requests]|e] eqn:Hc; [|vm_compute in Hc; discriminate Hc].
  assert (status = UserCreated) as ->
    by (vm_compute in Hc; now injection Hc as <- _).
  destruct (Hreq UserCreated requests eq_refl) as [Huac Hcreated].
  destruct (Hcreated eq_refl)
    as (_ & _ & dn & attributes & rest & -> & _).
  exists attributes. split.
  - vm_compute in Hc. injection Hc as Hdn Hattrs Hrest.
    subst dn rest. do 2 f_equal.
  - apply (Huac dn). apply list_elem_of_here.
Defined.

(** The account name [create_user] arrives at for the contractor Jane Doe
    in an empty directory. *)
Remark created_contractor_account_name :
  exists requests dn attributes,
    create_user (jane_contractor false true) all_fine
    = Ret (UserCreated, requests)
    /\ Add dn attributes ∈ requests
    /\ attributes !! "sAMAccountName" = Some (Scalar (SStr "j.doe-c")).
Proof.
  eexists _, _, _. split; [vm_compute; reflexivity|].
  split; [apply list_elem_of_here | vm_compute; reflexivity].
Qed.

End CreateClaims.

(** * Further properties of the code *)

(** ** [domain_to_base_dn] *)

Section BaseDnFacts.
Import PyStr PyText BaseDn.

Lemma append_assoc (a b c : string) : (a +:+ b) +:+ c = a +:+ (b +:+ c).
Proof.
  induction a as [|x a IH]; [reflexivity|].
  change (String x ((a +:+ b) +:+ c) = String x (a +:+ b +:+ c)).
  now rewrite IH.
Qed.

Lemma split_on_nonempty (sep : ascii) (s : string) : split_on sep s <> [].
Proof.
  induction s as [|c s IH]; simpl; [discriminate|].
  destruct (Ascii.eqb c sep); [discriminate|].
  destruct (split_on sep s); discriminate.
Qed.

(** Splitting distributes over a separator. *)
Lemma split_on_append (sep : ascii) (a b : string) :
  split_on sep (a +:+ String sep b) = (split_on sep a ++ split_on sep b)%list.
Proof.
  induction a as [|c a IH]; simpl.
  - now rewrite Ascii.eqb_refl.
  - destruct (Ascii.eqb c sep); [now rewrite IH|].
    rewrite IH. pose proof (split_on_nonempty sep a) as Hne.
    destruct (split_on sep a) as [|p ps]; [contradiction | reflexivity].
Qed.

Lemma split_on_without (sep : ascii) (s : string) :
  char_in sep s = false -> split_on sep s = [s].
Proof.
  induction s as [|c s IH]; simpl; [reflexivity|].
  rewrite Ascii.eqb_sym. destruct (Ascii.eqb c sep); [discriminate|].
  simpl. intros H. now rewrite (IH H).
Qed.

Lemma join_app (sep : string) (l1 l2 : list string) :
  l1 <> [] -> l2 <> [] ->
  join sep (l1 ++ l2) = join sep l1 +:+ sep +:+ join sep l2.
Proof.
  intros H1 H2. induction l1 as [|x l1 IH]; [contradiction|].
  destruct l1 as [|y l1].
  - destruct l2; [contradiction | reflexivity].
  - change (join sep ((x :: y :: l1) ++ l2))
      with (x +:+ sep +:+ join sep ((y :: l1) ++ l2)).
    rewrite IH by discriminate.
    change (join sep (x :: y :: l1)) with (x +:+ sep +:+ join sep (y :: l1)).
    now rewrite !append_assoc.
Qed.

(** X1: the base DN of [a.b] is the base DN of [a], a comma, and the base
    DN of [b]; a domain without a dot, the empty one included, becomes the
    single component [DC=domain]. *)
Theorem domain_to_base_dn_labels (a b d : string) :
  domain_to_base_dn (a +:+ "." +:+ b)
  = domain_to_base_dn a +:+ "," +:+ domain_to_base_dn b
  /\ (char_in "." d = false -> domain_to_base_dn d = "DC=" +:+ d).
Proof.
  unfold domain_to_base_dn. split.
  - change (a +:+ "." +:+ b) with (a +:+ String "." b).
    rewrite split_on_append, fmap_app. apply join_app.
    + pose proof (split_on_nonempty "." a). now destruct (split_on "." a).
    + pose proof (split_on_nonempty "." b). now destruct (split_on "." b).
  - intros H. now rewrite (split_on_without _ _ H).
Qed.

Lemma domain_to_base_dn_labels_witness :
  domain_to_base_dn ("corp" +:+ "." +:+ "example.com")
  = "DC=corp,DC=example,DC=com"
  /\ domain_to_base_dn "" = "DC=".
Proof.
  destruct (domain_to_base_dn_labels "corp" "example.com" "") as [H1 H2].
  split; [exact H1 | exact (H2 eq_refl)].
Defined.

End BaseDnFacts.

(** ** More about the two generators *)

Section GeneratorFacts.
Import PyStr Ldap Scenarios.

Lemma first_free_spec (conn : option Connection) (cs : list string) :
  match Helpers.first_free conn cs with
  | Some s =>
      exists before after,
        cs = (before ++ s :: after)%list
        /\ Helpers.check_sam_account_exists s conn = false
        /\ Forall (fun c => Helpers.check_sam_account_exists c conn = true)
             before
  | None =>
      Forall (fun c => Helpers.check_sam_account_exists c conn = true) cs
  end.
Proof.
  induction cs as [|c cs IH]; simpl; [constructor|].
  destruct (Helpers.check_sam_account_exists c conn) eqn:Hc; simpl.
  - destruct (Helpers.first_free conn cs) as [s|].
    + destruct IH as (before & after & -> & Hs & Hb).
      exists (c :: before), after. repeat split; [exact Hs|].
      now constructor.
    + now constructor.
  - exists [], cs. repeat split; [exact Hc | constructor].
Qed.

(** X2: the generator of helpers.py returns the first candidate of its
    list that the directory does not report as existing, every candidate
    before it being reported as existing; it returns nothing exactly when
    all candidates are reported as existing. *)
Theorem helpers_first_free_candidate
    (first last : string) (conn : option Connection) :
  match Helpers.auto_generate_sam_account first last conn with
  | Some s =>
      exists before after,
        Helpers.candidates first last = (before ++ s :: after)%list
        /\ Helpers.check_sam_account_exists s conn = false
        /\ Forall (fun c => Helpers.check_sam_account_exists c conn = true)
             before
  | None =>
      Forall (fun c => Helpers.check_sam_account_exists c conn = true)
        (Helpers.candidates first last)
  end.
Proof. apply first_free_spec. Qed.

Lemma NoDup_snoc_new (l : list string) (c : string) :
  NoDup l -> str_in c l = false -> NoDup (l ++ [c]).
Proof.
  intros Hnd Hc. apply NoDup_app. split; [exact Hnd|]. split.
  - intros x Hx ->%list_elem_of_singleton.
    apply list_elem_of_In, str_in_spec in Hx. congruence.
  - apply NoDup_singleton.
Qed.

(** X3: the candidate list of helpers.py never holds a name twice and never
    more than three names. *)
Theorem helpers_candidates_distinct (first last : string) :
  NoDup (Helpers.candidates first last)
  /\ List.length (Helpers.candidates first last) <= 3.
Proof.
  unfold Helpers.candidates. cbv zeta.
  repeat match goal with
         | |- context [if ?b then _ else _] =>
             lazymatch b with
             | context [if _ then _ else _] => fail
             | _ => destruct b eqn:?
             end
         end;
    repeat match goal with
           | H : (_ && _)%bool = true |- _ => apply andb_prop in H as [? ?]
           | H : negb _ = true |- _ => apply negb_true_iff in H
           end;
    (split; [|cbn [app List.length]; lia]);
    repeat first [ apply NoDup_nil_2
                 | apply NoDup_snoc_new; [|first [assumption | reflexivity]] ].
Qed.

Lemma length_neq (s t : string) : String.length s <> String.length t -> s <> t.
Proof. intros H ->. now apply H. Qed.

(** X4: for trimmed, lower-case names with a first name of at least two
    characters, when [first.last] is too long or reported as existing and
    [first[0].last] fits and is not reported as existing, the generator of
    helpers.py returns [first[0].last]. *)
Theorem helpers_second_candidate
    (first last : string) (conn : option Connection) :
  strip first = first -> lower first = first ->
  strip last = last -> lower last = last ->
  2 <= String.length first ->
  String.length (take 1 first +:+ "." +:+ last) <= 20 ->
  (20 < String.length (first +:+ "." +:+ last)
   \/ Helpers.check_sam_account_exists (first +:+ "." +:+ last) conn = true) ->
  Helpers.check_sam_account_exists (take 1 first +:+ "." +:+ last) conn = false ->
  Helpers.auto_generate_sam_account first last conn
  = Some (take 1 first +:+ "." +:+ last).
Proof.
  intros Hsf Hlf Hsl Hll Hlen H20 Hfirst Hsecond.
  unfold Helpers.auto_generate_sam_account, Helpers.candidates. cbv zeta.
  rewrite Hlf, Hll, Hsf, Hsl.
  destruct first as [|c [|d first']]; try (simpl in Hlen; lia).
  change (take 1 (String c (String d first'))) with (String c "") in *.
  set (full := String c (String d first') +:+ "." +:+ last) in *.
  set (short := String c "" +:+ "." +:+ last) in *.
  assert (Hne : String.eqb short full = false).
  { apply String.eqb_neq, length_neq. subst short full.
    rewrite !length_append. cbn [String.length]. lia. }
  assert (Hshort : negb (is_empty short) = true) by reflexivity.
  apply Nat.leb_le in H20.
  destruct (Nat.leb_spec (String.length full) 20) as [Hfit|Hlong].
  - destruct Hfirst as [Hlong|Hex]; [lia|].
    cbn [app]. rewrite Hshort, H20. cbn [str_in existsb andb orb negb].
    rewrite Hne. cbn [negb orb andb app].
    match goal with
    | |- Helpers.first_free _ (if ?b then _ else _) = _ => destruct b
    end; cbn [app Helpers.first_free]; now rewrite Hex, Hsecond.
  - rewrite Hshort, H20. cbn [str_in existsb andb orb negb app].
    match goal with
    | |- Helpers.first_free _ (if ?b then _ else _) = _ => destruct b
    end; cbn [app Helpers.first_free]; now rewrite Hsecond.
Qed.

Lemma helpers_second_candidate_witness :
  Helpers.auto_generate_sam_account "jane" "doe"
    (Some (directory_with ["jane.doe"]))
  = Some "j.doe".
Proof.
  apply (helpers_second_candidate "jane" "doe"
           (Some (directory_with ["jane.doe"])));
    try reflexivity; simpl; try lia.
Defined.

(** X5: whatever the number of attempts, a name returned by the generator
    of UserEditor/helpers.py has passed [is_sam_account_unique] on the very
    connection, and is therefore not empty. *)
Theorem window_generator_result_verified
    (first last : string) (conn : option Connection) (max_attempts : nat)
    (s : string) :
  UserEditorHelpers.auto_generate_sam_account first last conn max_attempts
  = Ret (Some s) ->
  UserEditorHelpers.is_sam_account_unique conn s = true /\ s <> "".
Proof.
  intros H.
  assert (Hu : UserEditorHelpers.is_sam_account_unique conn s = true).
  { unfold UserEditorHelpers.auto_generate_sam_account in H.
    destruct (_ || _ || _); [discriminate|].
    destruct (UserEditorHelpers.base_candidate _ _) as [c|e]; [|discriminate].
    cbn [mbind py_bind] in H.
    destruct (UserEditorHelpers.is_sam_account_unique conn c) eqn:Hc;
      cbn [negb] in H.
    - now injection H as <-.
    - injection H as H. now apply variations_some in H as (a & _ & _ & Hu). }
  split; [exact Hu|]. intros ->.
  unfold UserEditorHelpers.is_sam_account_unique in Hu.
  destruct conn; discriminate.
Qed.

Lemma window_generator_result_verified_witness :
  UserEditorHelpers.is_sam_account_unique (Some (directory_with ["j.doe"]))
    "j.doe1" = true
  /\ "j.doe1" <> "".
Proof.
  apply (window_generator_result_verified "Jane" "Doe"
           (Some (directory_with ["j.doe"])) 5 "j.doe1").
  reflexivity.
Defined.

(** X6: a first name that is not empty but consists of white space only
    gets past the guard of the generator of UserEditor/helpers.py and makes
    [first[0]] raise IndexError. *)
Theorem window_generator_blank_first_name
    (first last : string) (conn : Connection) (max_attempts : nat) :
  first <> "" -> strip first = "" -> last <> "" ->
  UserEditorHelpers.auto_generate_sam_account first last (Some conn)
    max_attempts
  = Raise IndexError.
Proof.
  intros Hf Hs Hl. unfold UserEditorHelpers.auto_generate_sam_account.
  apply is_empty_false in Hf, Hl. rewrite Hf, Hl, Hs. reflexivity.
Qed.

Lemma window_generator_blank_first_name_witness :
  UserEditorHelpers.auto_generate_sam_account "  " "Doe"
    (Some empty_directory) 5
  = Raise IndexError.
Proof.
  apply window_generator_blank_first_name; [discriminate | reflexivity
                                           | discriminate].
Defined.

(** X7: sanitizing keeps the length, changes nothing when applied a second
    time, and leaves a name as it is exactly when the name consists of
    a-z, 0-9, '.', '-' and '_' only. *)
Theorem sanitize_fixes_valid_names (s : string) :
  String.length (UserEditorHelpers.sanitize s) = String.length s
  /\ UserEditorHelpers.sanitize (UserEditorHelpers.sanitize s)
     = UserEditorHelpers.sanitize s
  /\ (UserEditorHelpers.sanitize s = s
      <-> all_chars UserEditorHelpers.is_valid_char s = true).
Proof.
  split; [apply length_map_str|]. split; [apply sanitize_idempotent|].
  split.
  - intros <-. apply sanitize_valid.
  - unfold UserEditorHelpers.sanitize.
    induction s as [|c s IH]; [reflexivity|].
    cbn [all_chars map_str]. intros [Hc Hs]%andb_prop.
    rewrite (IH Hs). unfold UserEditorHelpers.sanitize_char. now rewrite Hc.
Qed.

Lemma utf_16_le_inj (s t : string) :
  UserEditorHelpers.utf_16_le s = UserEditorHelpers.utf_16_le t -> s = t.
Proof.
  revert t. induction s as [|c s IH]; intros [|d t]; simpl;
    try discriminate; [reflexivity|].
  intros [= Hc Hs]. f_equal; [|now apply IH].
  rewrite <- (ascii_of_byte_of_ascii c), <- (ascii_of_byte_of_ascii d).
  now rewrite Hc.
Qed.

Lemma append_char_inj (s t : string) (c : ascii) :
  s +:+ String c "" = t +:+ String c "" -> s = t.
Proof.
  revert t. induction s as [|a s IH]; intros [|b t]; simpl.
  - reflexivity.
  - intros [= _ H]. destruct t; discriminate.
  - intros [= _ H]. destruct s; discriminate.
  - intros [= -> H]. f_equal. now apply IH.
Qed.

Lemma utf_16_le_app (s t : string) :
  UserEditorHelpers.utf_16_le (s +:+ t)
  = (UserEditorHelpers.utf_16_le s ++ UserEditorHelpers.utf_16_le t)%list.
Proof.
  induction s as [|c s IH]; [reflexivity|].
  change (String c s +:+ t) with (String c (s +:+ t)).
  cbn [UserEditorHelpers.utf_16_le app]. now rewrite IH.
Qed.

(** X8: the encoded password is the two bytes of a double quote, 34 and 0,
    then the UTF-16LE bytes of the password itself, then the two bytes of a
    double quote again; and different passwords have different
    encodings. *)
Theorem encode_password_faithful (password other : string) :
  UserEditorHelpers.encode_password password
  = ([x22; x00] ++ UserEditorHelpers.utf_16_le password
     ++ [x22; x00])%list
  /\ (UserEditorHelpers.encode_password password
      = UserEditorHelpers.encode_password other ->
      password = other).
Proof.
  unfold UserEditorHelpers.encode_password. cbv zeta. split.
  - cbn [UserEditorHelpers.utf_16_le app].
    now rewrite utf_16_le_app.
  - intros H. apply utf_16_le_inj in H. injection H as H.
    now apply append_char_inj in H.
Qed.

Lemma encode_password_faithful_witness :
  UserEditorHelpers.encode_password "a!"
  = [x22; x00; x61; x00; x21; x00; x22; x00]
  /\ "a!" = "a!".
Proof.
  destruct (encode_password_faithful "a!" "a!") as [H1 H2].
  split; [exact H1 | exact (H2 eq_refl)].
Defined.

End GeneratorFacts.
(** ** The controls as set up, and what a save makes of them *)

Section EditInitFacts.
Import PyStr PyText EditMode EditModeSpec EditInit.

Lemma split_first_spec (sep : ascii) (s : string) :
  char_in sep s = true ->
  s = fst (split_first sep s) +:+ String sep (snd (split_first sep s))
  /\ char_in sep (fst (split_first sep s)) = false.
Proof.
  induction s as [|c s IH]; simpl; [discriminate|].
  rewrite (Ascii.eqb_sym sep c).
  destruct (Ascii.eqb c sep) eqn:Hc.
  - apply Ascii.eqb_eq in Hc as ->. intros _. split; reflexivity.
  - cbn [orb]. intros H. destruct (IH H) as [Hs Hb].
    destruct (split_first sep s) as [before after]. cbn [fst snd] in *.
    split.
    + change (String c s = String c (before +:+ String sep after)).
      now f_equal.
    + cbn [char_in]. now rewrite Ascii.eqb_sym, Hc, Hb.
Qed.

Lemma elem_of_insert_sorted (x y : string) (l : list string) :
  y ∈ insert_sorted x l <-> y = x \/ y ∈ l.
Proof.
  induction l as [|z l IH]; simpl.
  - rewrite list_elem_of_singleton, elem_of_nil. tauto.
  - destruct (String.leb x z); rewrite !elem_of_cons; [tauto|].
    rewrite IH. tauto.
Qed.

Lemma elem_of_sorted (y : string) (l : list string) : y ∈ sorted l <-> y ∈ l.
Proof.
  unfold sorted. induction l as [|x l IH]; simpl; [tauto|].
  rewrite elem_of_insert_sorted, IH, elem_of_cons. tauto.
Qed.

Lemma find_text_found (text : string) (items : list string) :
  text ∈ items ->
  (0 <= find_text text items)%Z
  /\ items !! Z.to_nat (find_text text items) = Some text.
Proof.
  induction items as [|item items IH]; [now intros ?%elem_of_nil|].
  intros Hin. simpl. destruct (String.eqb_spec item text) as [->|Hne].
  - split; [lia | reflexivity].
  - apply elem_of_cons in Hin as [->|Hin]; [contradiction|].
    destruct (IH Hin) as [Hpos Hlook].
    destruct (Z.leb_spec 0 (find_text text items)); [|lia].
    split; [lia|]. rewrite Z2Nat.inj_add by lia.
    rewrite Nat.add_comm. exact Hlook.
Qed.

Lemma str_in_elem_of (s : string) (l : list string) :
  str_in s l = true <-> s ∈ l.
Proof. rewrite str_in_spec. symmetry. apply list_elem_of_In. Qed.

(** The suffix box shows the suffix of the stored UPN whenever there is
    one. *)
Lemma suffix_box_shows_suffix (upn_suffix : string)
    (domain_suffixes : list string) :
  upn_suffix <> "" ->
  item_text (suffix_items upn_suffix domain_suffixes)
    (suffix_index upn_suffix (suffix_items upn_suffix domain_suffixes))
  = upn_suffix.
Proof.
  intros Hne. apply is_empty_false in Hne.
  assert (Hin : upn_suffix ∈ suffix_items upn_suffix domain_suffixes).
  { unfold suffix_items. rewrite Hne. cbn [negb andb].
    destruct (str_in upn_suffix domain_suffixes) eqn:Hs; cbn [negb].
    - now apply str_in_elem_of.
    - apply elem_of_sorted, elem_of_app. right. apply list_elem_of_here. }
  destruct (find_text_found _ _ Hin) as [Hpos Hlook].
  unfold suffix_index, item_text. rewrite Hne. cbn [negb].
  apply Z.leb_le in Hpos. rewrite Hpos, Hpos, Hlook. reflexivity.
Qed.

Lemma initial_upn_with_at (upn : string) (domain_suffixes : list string) :
  char_in "@" upn = true ->
  fst (initial_upn upn domain_suffixes) +:+ snd (initial_upn upn domain_suffixes)
  = upn.
Proof.
  intros Hat. unfold initial_upn, split_upn. rewrite Hat.
  destruct (split_first_spec "@" upn Hat) as [Hs _].
  destruct (split_first "@" upn) as [before after]. cbn [fst snd] in *.
  rewrite suffix_box_shows_suffix by discriminate. symmetry. exact Hs.
Qed.

(** X9: when the stored UPN contains '@', the prefix field and the suffix
    box as [setup_edit_mode_ui] fills them join to the stored UPN again,
    whatever suffixes are known; so a save with [userPrincipalName] dirty
    and these controls unchanged writes the stored UPN back.  A stored UPN
    without '@' is not reproduced once a suffix is known: the box then shows
    the first suffix, which the save appends. *)
Theorem upn_controls_round_trip
    (w : edit_window) (upn : string) (domain_suffixes : list string) :
  window_ok w ->
  password_mismatch w = false ->
  "userPrincipalName" ∈ modified_attributes w ->
  upn_edit (form w) = fst (initial_upn upn domain_suffixes) ->
  upn_suffix_combo (form w) = snd (initial_upn upn domain_suffixes) ->
  exists modifications written,
    save_changes w = Ret (Modify modifications)
    /\ modifications !! "userPrincipalName"
       = Some [(MODIFY_REPLACE, [SStr written])]
    /\ (char_in "@" upn = true -> written = upn)
    /\ (char_in "@" upn = false ->
        written = upn +:+ default "" (head domain_suffixes)).
Proof.
  intros Hok Hmm Hd Hp Hs.
  destruct (save_changes_lookup w Hok Hmm) as (m & Hsave & Hm).
  assert (Hupn : m !! "userPrincipalName"
                 = Some (replace_with
                           (SStr (upn_edit (form w)
                                  +:+ upn_suffix_combo (form w))))).
  { rewrite Hm. apply expected_some; [exact Hok|]. left. eexists.
    split; [|reflexivity]. apply guarded_requests_elem. left.
    split; [|now apply dirty_true].
    unfold form_values, account_values.
    repeat first [apply list_elem_of_here | apply list_elem_of_further]. }
  exists m, (upn_edit (form w) +:+ upn_suffix_combo (form w)).
  split.
  { rewrite Hsave. f_equal.
    apply (outcome_of_nonempty m "userPrincipalName"). eauto. }
  split; [exact Hupn|]. rewrite Hp, Hs. split.
  - apply initial_upn_with_at.
  - intros Hat. unfold initial_upn, split_upn. rewrite Hat. cbn [fst snd].
    unfold suffix_items, suffix_index, item_text. cbn [is_empty negb andb].
    destruct domain_suffixes as [|d ds]; reflexivity.
Qed.

End EditInitFacts.

Section EditInitWitnesses.
Import PyStr PyText EditMode EditModeSpec EditInit EditScenarios MoreEditScenarios.

Lemma upn_controls_round_trip_witness :
  exists modifications written,
    save_changes upn_retyped = Ret (Modify modifications)
    /\ modifications !! "userPrincipalName"
       = Some [(MODIFY_REPLACE, [SStr written])]
    /\ (char_in "@" "j.doe@corp.example.com" = true ->
        written = "j.doe@corp.example.com")
    /\ (char_in "@" "j.doe@corp.example.com" = false ->
        written = "j.doe@corp.example.com"
                  +:+ default "" (head ["@corp.example.com"])).
Proof.
  apply (upn_controls_round_trip upn_retyped "j.doe@corp.example.com"
           ["@corp.example.com"]).
  - split; [right; eexists; reflexivity | simpl; lia].
  - reflexivity.
  - refine (bool_decide_unpack _ _). vm_compute. exact I.
  - reflexivity.
  - reflexivity.
Defined.

End EditInitWitnesses.

(** ** The account-control bits *)

Section AccountControlFacts.
Import PyStr EditMode EditModeSpec EditInit EditScenarios MoreEditScenarios.

Lemma apply_flag_testbit (checked : bool) (k z n : Z) :
  (0 <= k)%Z -> (0 <= n)%Z ->
  Z.testbit (apply_flag checked (2 ^ k) z) n
  = if (n =? k)%Z then checked else Z.testbit z n.
Proof.
  intros Hk Hn. unfold apply_flag. destruct checked.
  - rewrite Z.lor_spec, Z.pow2_bits_eqb by exact Hk.
    rewrite (Z.eqb_sym k n). destruct (n =? k)%Z.
    + apply orb_true_r.
    + apply orb_false_r.
  - rewrite Z.land_spec, Z.lnot_spec, Z.pow2_bits_eqb by assumption.
    rewrite (Z.eqb_sym k n). destruct (n =? k)%Z.
    + apply andb_false_r.
    + apply andb_true_r.
Qed.

Lemma reconciled_uac_bits (w : edit_window) (n : Z) :
  (0 <= n)%Z ->
  Z.testbit (reconciled_uac w) n
  = if (n =? 6)%Z then cannot_change_pwd_chk (form w)
    else if (n =? 16)%Z then pwd_never_expires_chk (form w)
    else if (n =? 1)%Z then disabled_chk (form w)
    else Z.testbit (snapshot_uac w) n.
Proof.
  intros Hn. unfold reconciled_uac.
  change 64%Z with (2 ^ 6)%Z. change 65536%Z with (2 ^ 16)%Z.
  change 2%Z with (2 ^ 1)%Z at 3.
  rewrite !apply_flag_testbit by lia. reflexivity.
Qed.

Lemma initial_flag_testbit (uac k : Z) :
  (0 <= k)%Z -> initial_flag uac (2 ^ k) = Z.testbit uac k.
Proof.
  intros Hk. unfold initial_flag.
  destruct (Z.testbit uac k) eqn:Hb.
  - apply negb_true_iff, Z.eqb_neq. intros H0.
    assert (Ht : Z.testbit (Z.land uac (2 ^ k)) k = true).
    { rewrite Z.land_spec, Hb, Z.pow2_bits_eqb, Z.eqb_refl by exact Hk.
      reflexivity. }
    rewrite H0, Z.bits_0 in Ht. discriminate.
  - apply negb_false_iff, Z.eqb_eq, Z.bits_inj'. intros n Hn.
    rewrite Z.land_spec, Z.bits_0, Z.pow2_bits_eqb by exact Hk.
    destruct (Z.eqb_spec k n) as [<-|_].
    + now rewrite Hb.
    + apply andb_false_r.
Qed.

Lemma uac_written (w : edit_window) :
  window_ok w ->
  password_mismatch w = false ->
  "userAccountControl" ∈ modified_attributes w ->
  exists modifications,
    save_changes w = Ret (Modify modifications)
    /\ modifications !! "userAccountControl"
       = Some [(MODIFY_REPLACE, [SInt (reconciled_uac w)])].
Proof.
  intros Hok Hmm Hd.
  destruct (save_changes_lookup w Hok Hmm) as (m & Hsave & Hm).
  assert (Huac : m !! "userAccountControl"
                 = Some (replace_with (SInt (reconciled_uac w)))).
  { rewrite Hm. apply expected_some; [exact Hok|]. left. eexists.
    split; [|reflexivity]. apply guarded_requests_elem. left.
    split; [|now apply dirty_true].
    unfold form_values, account_values.
    repeat first [apply list_elem_of_here | apply list_elem_of_further]. }
  exists m. split; [|exact Huac].
  rewrite Hsave. f_equal.
  apply (outcome_of_nonempty m "userAccountControl"). eauto.
Qed.

(** X10: the value written for a dirty [userAccountControl] has bit 1
    (disabled), bit 16 (password never expires) and bit 6 (cannot change
    password) as the three boxes show, and every other bit as the snapshot
    has it. *)
Theorem account_control_other_bits_kept (w : edit_window) :
  window_ok w ->
  password_mismatch w = false ->
  "userAccountControl" ∈ modified_attributes w ->
  exists modifications uac,
    save_changes w = Ret (Modify modifications)
    /\ modifications !! "userAccountControl"
       = Some [(MODIFY_REPLACE, [SInt uac])]
    /\ Z.testbit uac 1 = disabled_chk (form w)
    /\ Z.testbit uac 16 = pwd_never_expires_chk (form w)
    /\ Z.testbit uac 6 = cannot_change_pwd_chk (form w)
    /\ forall n, (0 <= n)%Z -> n <> 1%Z -> n <> 16%Z -> n <> 6%Z ->
                 Z.testbit uac n = Z.testbit (snapshot_uac w) n.
Proof.
  intros Hok Hmm Hd.
  destruct (uac_written w Hok Hmm Hd) as (m & Hsave & Huac).
  exists m, (reconciled_uac w). split; [exact Hsave|]. split; [exact Huac|].
  repeat split; try (rewrite reconciled_uac_bits by lia; reflexivity).
  intros n Hn H1 H16 H6. rewrite reconciled_uac_bits by exact Hn.
  destruct (Z.eqb_spec n 6); [contradiction|].
  destruct (Z.eqb_spec n 16); [contradiction|].
  destruct (Z.eqb_spec n 1); [contradiction|]. reflexivity.
Qed.

Lemma account_control_other_bits_kept_witness :
  exists modifications uac,
    save_changes account_disabled = Ret (Modify modifications)
    /\ modifications !! "userAccountControl"
       = Some [(MODIFY_REPLACE, [SInt uac])]
    /\ Z.testbit uac 1 = disabled_chk (form account_disabled)
    /\ Z.testbit uac 16 = pwd_never_expires_chk (form account_disabled)
    /\ Z.testbit uac 6 = cannot_change_pwd_chk (form account_disabled)
    /\ forall n, (0 <= n)%Z -> n <> 1%Z -> n <> 16%Z -> n <> 6%Z ->
                 Z.testbit uac n
                 = Z.testbit (snapshot_uac account_disabled) n.
Proof.
  apply (account_control_other_bits_kept account_disabled).
  - split; [right; eexists; reflexivity | simpl; lia].
  - reflexivity.
  - refine (bool_decide_unpack _ _). vm_compute. exact I.
Defined.

(** X11: when the three flag boxes show what [setup_edit_mode_ui] put
    there from the snapshot, that is [bool(uac & bit)] for each, a dirty
    [userAccountControl] is written with the very value of the snapshot. *)
Theorem account_control_round_trip (w : edit_window) :
  window_ok w ->
  password_mismatch w = false ->
  "userAccountControl" ∈ modified_attributes w ->
  disabled_chk (form w) = initial_flag (snapshot_uac w) 2 ->
  pwd_never_expires_chk (form w) = initial_flag (snapshot_uac w) 65536 ->
  cannot_change_pwd_chk (form w) = initial_flag (snapshot_uac w) 64 ->
  exists modifications,
    save_changes w = Ret (Modify modifications)
    /\ modifications !! "userAccountControl"
       = Some [(MODIFY_REPLACE, [SInt (snapshot_uac w)])].
Proof.
  intros Hok Hmm Hd Hdis Hnev Hcan.
  destruct (uac_written w Hok Hmm Hd) as (m & Hsave & Huac).
  exists m. split; [exact Hsave|]. rewrite Huac.
  assert (reconciled_uac w = snapshot_uac w) as ->; [|reflexivity].
  apply Z.bits_inj'. intros n Hn. rewrite reconciled_uac_bits by exact Hn.
  rewrite Hdis, Hnev, Hcan.
  change 2%Z with (2 ^ 1)%Z. change 65536%Z with (2 ^ 16)%Z.
  change 64%Z with (2 ^ 6)%Z. rewrite !initial_flag_testbit by lia.
  destruct (Z.eqb_spec n 6) as [->|_]; [reflexivity|].
  destruct (Z.eqb_spec n 16) as [->|_]; [reflexivity|].
  destruct (Z.eqb_spec n 1) as [->|_]; reflexivity.
Qed.

Lemma account_control_round_trip_witness :
  exists modifications,
    save_changes flag_toggled_back = Ret (Modify modifications)
    /\ modifications !! "userAccountControl"
       = Some [(MODIFY_REPLACE, [SInt 512])].
Proof.
  apply (account_control_round_trip flag_toggled_back); try reflexivity.
  split; [right; eexists; reflexivity | simpl; lia].
Defined.

End AccountControlFacts.

(** ** Saves that change nothing, and the attributes tab *)

Section TabFacts.
Import PyStr PyText EditMode EditModeSpec EditInit AttributesTab
  EditScenarios MoreEditScenarios.

Lemma outcome_of_no_changes (m : modifications_t) :
  outcome_of m = NoChangesToSave <-> forall attr, m !! attr = None.
Proof.
  unfold outcome_of. destruct (bool_decide_reflect (m = ∅)) as [->|Hne].
  - split; [intros _ attr; apply lookup_empty | reflexivity].
  - split; [discriminate|]. intros Hall. exfalso. apply Hne.
    apply map_eq. intros attr. now rewrite Hall, lookup_empty.
Qed.

Lemma country_values_selected (w : edit_window) :
  window_ok w ->
  country_combo (form w) <> (-1)%Z ->
  exists x, ("c", x) ∈ country_values w.
Proof.
  intros [_ Hidx] Hsel. unfold country_values.
  assert (Hcases : country_combo (form w) = 0%Z
                   \/ country_combo (form w) = 1%Z
                   \/ country_combo (form w) = 2%Z) by lia.
  destruct Hcases as [H|[H|H]]; rewrite H; eexists; apply list_elem_of_here.
Qed.

Lemma country_values_unselected (w : edit_window) :
  country_combo (form w) = (-1)%Z -> country_values w = [].
Proof. intros H. unfold country_values. now rewrite H. Qed.

Lemma not_requested_iff (w : edit_window) :
  password_mismatch w = false ->
  password_requested w = false <-> new_password_edit (form w) = "".
Proof.
  unfold password_mismatch, password_requested.
  destruct (new_password_edit (form w)) as [|c s]; cbn [is_empty negb andb].
  - tauto.
  - destruct (String.eqb _ _); cbn [negb]; split; discriminate.
Qed.

(** X12: a save that is not stopped by a password mismatch ends in "No
    changes to save" exactly when no attribute bound to a control is
    dirty, no new password is typed, the country box is not dirty (or holds
    no selection), and every entry of the attributes tab is handled by a
    control or equals the snapshot. *)
Theorem no_changes_iff (w : edit_window) :
  window_ok w ->
  password_mismatch w = false ->
  save_changes w = Ret NoChangesToSave
  <-> (forall attr, attr ∈ bound_attributes -> attr ∉ modified_attributes w)
      /\ new_password_edit (form w) = ""
      /\ ("country" ∈ modified_attributes w ->
          country_combo (form w) = (-1)%Z)
      /\ (forall attr v,
            custom_attributes w !! attr = Some v ->
            attr ∈ handled_elsewhere
            \/ v = default (Scalar (SStr "")) (user_data w !! attr)).
Proof.
  intros Hok Hmm.
  destruct (save_changes_lookup w Hok Hmm) as (m & Hsave & Hm).
  rewrite Hsave.
  assert (Hret : Ret (outcome_of m) = Ret NoChangesToSave
                 <-> forall attr, expected w attr = None).
  { split.
    - intros [= Ho] attr. rewrite <- Hm. now apply outcome_of_no_changes.
    - intros Hall. f_equal. apply outcome_of_no_changes.
      intros attr. now rewrite Hm. }
  rewrite Hret. rewrite <- (not_requested_iff w Hmm). split.
  - intros Hnone.
    assert (Hno : forall attr r, expected w attr <> Some r)
      by (intros attr r; rewrite Hnone; discriminate).
    repeat split.
    + intros attr [x Hin]%(form_values_names w) Hd.
      apply (Hno attr (replace_with x)), expected_some; [exact Hok|].
      left. exists x. split; [|reflexivity].
      apply guarded_requests_elem. left. now rewrite dirty_true.
    + destruct (password_requested w) eqn:Hp; [|reflexivity]. exfalso.
      apply (Hno "unicodePwd" (replace_with (password_value w))).
      apply expected_some; [exact Hok|]. left. eexists.
      split; [|reflexivity]. apply guarded_requests_elem. auto.
    + intros Hd. destruct (decide (country_combo (form w) = (-1)%Z))
        as [He|Hsel]; [exact He|]. exfalso.
      destruct (country_values_selected w Hok Hsel) as [x Hx].
      apply (Hno "c" (replace_with x)), expected_some; [exact Hok|].
      left. exists x. split; [|reflexivity].
      apply guarded_requests_elem. right; right. now rewrite dirty_true.
    + intros attr v Hv.
      destruct (str_in attr handled_elsewhere) eqn:Hh.
      { left. now apply str_in_elem_of. }
      destruct (decide (v = default (Scalar (SStr "")) (user_data w !! attr)))
        as [He|Hdiff]; [now right|]. exfalso.
      apply (Hno attr [(MODIFY_REPLACE, as_list v)]).
      apply expected_some; [exact Hok|]. right.
      apply custom_change_some. split; [exact Hh|]. exists v. auto.
  - intros (Hbound & Hpwd & Hcountry & Htab) attr.
    apply eq_None_not_Some. intros [r Hr].
    apply expected_some in Hr; [|exact Hok].
    destruct Hr as [(x & Hin & _)|Hc].
    + apply guarded_requests_elem in Hin
        as [[Hin Hd]|[(_ & _ & Hp)|[Hin Hd]]].
      * apply (Hbound attr); [|now apply dirty_true].
        apply (form_values_names w). eauto.
      * congruence.
      * apply dirty_true in Hd.
        rewrite (country_values_unselected w (Hcountry Hd)) in Hin.
        now apply elem_of_nil in Hin.
    + apply custom_change_some in Hc as (Hh & v & Hv & Hdiff & _).
      destruct (Htab attr v Hv) as [Hin|He]; [|contradiction].
      apply str_in_elem_of in Hin. congruence.
Qed.

Lemma no_changes_iff_witness :
  save_changes untouched = Ret NoChangesToSave.
Proof.
  apply (no_changes_iff untouched).
  - split; [right; eexists; reflexivity | simpl; lia].
  - reflexivity.
  - repeat split.
    + intros attr _ Hd. now apply elem_of_empty in Hd.
    + intros Hd. now apply elem_of_empty in Hd.
    + intros attr v Hv. right. unfold untouched, session in *.
      cbn [custom_attributes user_data] in *. now rewrite Hv.
Defined.

Lemma with_tab_ok (tab : gmap string value) (w : edit_window) :
  window_ok w -> window_ok (with_tab tab w).
Proof. intros H. exact H. Qed.

Lemma unhandled_expected (w : edit_window) (attr : string) :
  window_ok w ->
  attr ∉ handled_elsewhere ->
  expected w attr = custom_change w attr.
Proof.
  intros Hok Hh. unfold expected.
  rewrite guarded_lookup_none; [reflexivity|].
  intros Hk. apply (guarded_keys w Hok) in Hk.
  apply Hh. now apply str_in_elem_of.
Qed.

(** X13: "Clear Selected" on the attributes tab never reaches the
    directory: for an attribute no control handles, a save after
    [clear_attribute] carries no request for it, whatever the snapshot holds
    for it. *)
Theorem cleared_attribute_not_written (w : edit_window) (attr : string) :
  window_ok w ->
  password_mismatch w = false ->
  attr ∉ handled_elsewhere ->
  exists modifications,
    save_changes
      (with_tab (clear_attribute (custom_attributes w) attr) w)
    = Ret (outcome_of modifications)
    /\ modifications !! attr = None.
Proof.
  intros Hok Hmm Hh.
  set (w' := with_tab (clear_attribute (custom_attributes w) attr) w).
  destruct (save_changes_lookup w' (with_tab_ok _ w Hok) Hmm)
    as (m & Hsave & Hm).
  exists m. split; [exact Hsave|].
  rewrite Hm, (unhandled_expected w' attr (with_tab_ok _ w Hok) Hh).
  unfold custom_change, w', with_tab, clear_attribute.
  cbn [custom_attributes]. rewrite lookup_delete_eq.
  now destruct (str_in attr handled_elsewhere).
Qed.

Lemma cleared_attribute_not_written_witness :
  user_data noted_session !! "info" = Some (Scalar (SStr "night shift"))
  /\ exists modifications,
       save_changes
         (with_tab (clear_attribute (custom_attributes noted_session) "info")
            noted_session)
       = Ret (outcome_of modifications)
       /\ modifications !! "info" = None.
Proof.
  split; [reflexivity|].
  apply (cleared_attribute_not_written noted_session "info").
  - split; [right; eexists; reflexivity | simpl; lia].
  - reflexivity.
  - intros Hin. apply str_in_elem_of in Hin. discriminate Hin.
Defined.

(** X14: after a single-valued attribute that no control handles was
    edited on the attributes tab, a save carries for it: nothing when the
    text typed is blank (the attribute is taken off the tab, not cleared in
    the directory), nothing when the trimmed text is what the snapshot
    holds, and otherwise one replace request with the trimmed text. *)
Theorem edited_attribute_written (w : edit_window) (attr text : string) :
  window_ok w ->
  password_mismatch w = false ->
  attr ∉ handled_elsewhere ->
  (forall xs, custom_attributes w !! attr <> Some (Multi xs)) ->
  exists modifications,
    save_changes
      (with_tab (edit_attribute (custom_attributes w) attr (Accepted text)) w)
    = Ret (outcome_of modifications)
    /\ modifications !! attr
       = if is_empty (strip text) then None
         else if bool_decide
                   (Scalar (SStr (strip text))
                    = default (Scalar (SStr "")) (user_data w !! attr))
              then None
              else Some [(MODIFY_REPLACE, [SStr (strip text)])].
Proof.
  intros Hok Hmm Hh Hscalar.
  set (w' := with_tab
               (edit_attribute (custom_attributes w) attr (Accepted text)) w).
  destruct (save_changes_lookup w' (with_tab_ok _ w Hok) Hmm)
    as (m & Hsave & Hm).
  exists m. split; [exact Hsave|].
  rewrite Hm, (unhandled_expected w' attr (with_tab_ok _ w Hok) Hh).
  assert (Hs : str_in attr handled_elsewhere = false).
  { destruct (str_in attr handled_elsewhere) eqn:E; [|reflexivity].
    exfalso. now apply Hh, str_in_elem_of. }
  assert (Hcur : exists x, default (Scalar (SStr ""))
                             (custom_attributes w !! attr) = Scalar x).
  { destruct (custom_attributes w !! attr) as [[x|xs]|] eqn:Hcur.
    - now exists x.
    - exfalso. now apply (Hscalar xs).
    - now exists (SStr ""). }
  destruct Hcur as [x Hcur].
  unfold custom_change, w', with_tab, edit_attribute.
  cbn [custom_attributes user_data]. rewrite Hs, Hcur.
  destruct (is_empty (strip text)); cbn [negb].
  - now rewrite lookup_delete_eq.
  - rewrite lookup_insert_eq.
    destruct (bool_decide_reflect
                (Scalar (SStr (strip text))
                 = default (Scalar (SStr "")) (user_data w !! attr)))
      as [He|Hne].
    + rewrite bool_decide_eq_false_2 by (intros Hx; now apply Hx).
      reflexivity.
    + rewrite bool_decide_eq_true_2 by exact Hne. reflexivity.
Qed.

Lemma edited_attribute_written_witness :
  exists modifications,
    save_changes
      (with_tab
         (edit_attribute (custom_attributes noted_session) "info"
            (Accepted "  day shift "))
         noted_session)
    = Ret (outcome_of modifications)
    /\ modifications !! "info"
       = Some [(MODIFY_REPLACE, [SStr "day shift"])].
Proof.
  apply (edited_attribute_written noted_session "info" "  day shift ").
  - split; [right; eexists; reflexivity | simpl; lia].
  - reflexivity.
  - intros Hin. apply str_in_elem_of in Hin. discriminate Hin.
  - intros xs. discriminate.
Defined.

End TabFacts.


(** ** More about [create_user] *)

Section CreateFacts.
Import PyStr Ldap UserEditorHelpers CreateMode CreateModeSpec CreateScenarios
  MoreCreateScenarios Scenarios.

Lemma country_attributes_keeps (idx : Z)
    (attributes attributes' : gmap string value) (k : string) :
  country_attributes idx attributes = Ret attributes' ->
  k <> "c" -> k <> "co" -> k <> "countryCode" ->
  attributes' !! k = attributes !! k.
Proof.
  unfold country_attributes. destruct (0 <=? idx)%Z; [|now intros [= <-]].
  destruct (country_item idx) as [[name [code num]]|]; [|discriminate].
  intros [= <-] H1 H2 H3. now rewrite !lookup_insert_ne by congruence.
Qed.

(** No add among requests that are modifies, unbinds and group requests. *)
Ltac no_add_in H :=
  first [ now apply elem_of_nil in H
        | now apply group_requests_no_add in H
        | apply elem_of_cons in H; destruct H as [H|H];
          [discriminate H | no_add_in H]
        | apply elem_of_app in H; destruct H as [H|H];
          [no_add_in H | no_add_in H] ].

(** Whenever [create_user] sends anything, the input was complete and the
    first and only add carries the attributes built from the form, the
    country selection and the attributes tab. *)
Lemma create_user_shape (w : create_window) (a : answers)
    (status : create_status) (requests : list request) :
  create_user w a = Ret (status, requests) ->
  requests <> [] ->
  strip (first_name_edit (form w)) <> ""
  /\ strip (last_name_edit (form w)) <> ""
  /\ password_edit (form w) <> ""
  /\ password_edit (form w) = confirm_password_edit (form w)
  /\ bind_ok a = true
  /\ exists sam_account base rest,
       ((strip (sam_account_edit (form w)) <> "" ->
         sam_account = strip (sam_account_edit (form w)))
        /\ (strip (sam_account_edit (form w)) = "" ->
            generated_sam_account (strip (first_name_edit (form w)))
              (strip (last_name_edit (form w))) (ldap_conn w)
              (contractor_chk (form w))
            = Ret (Some sam_account)))
       /\ country_attributes (country_combo (form w))
            (initial_attributes w (strip (first_name_edit (form w)))
               (strip (last_name_edit (form w))) (effective_display_name w)
               sam_account (effective_upn w) (password_edit (form w)))
          = Ret base
       /\ requests
          = Add ("CN=" +:+ effective_display_name w +:+ ","
                 +:+ ou_combo (form w))
              (foldl custom_step base (map_to_list (custom_attributes w)))
            :: rest
       /\ (forall dn attributes, Add dn attributes ∉ rest)
       /\ (status = UserCreated \/ status = ErrorCreatingUser).
Proof.
  intros Hc Hne. unfold create_user in Hc. cbv zeta in Hc.
  destruct (is_empty (strip (first_name_edit (form w)))) eqn:Hf;
    [cbn [orb] in Hc; injection Hc as <- <-; contradiction|].
  destruct (is_empty (strip (last_name_edit (form w)))) eqn:Hl;
    [cbn [orb] in Hc; injection Hc as <- <-; contradiction|].
  destruct (is_empty (password_edit (form w))) eqn:Hp;
    [cbn [orb] in Hc; injection Hc as <- <-; contradiction|].
  destruct (is_empty (confirm_password_edit (form w))) eqn:Hp';
    [cbn [orb] in Hc; injection Hc as <- <-; contradiction|].
  cbn [orb] in Hc.
  destruct (String.eqb_spec (password_edit (form w))
              (confirm_password_edit (form w))) as [Heq|_];
    [|cbn [negb] in Hc; injection Hc as <- <-; contradiction].
  cbn [negb] in Hc.
  apply is_empty_false in Hf, Hl, Hp.
  do 4 (split; [assumption|]).
  fold (effective_display_name w) in Hc. fold (effective_upn w) in Hc.
  destruct (is_empty (strip (sam_account_edit (form w)))) eqn:Hs.
  - destruct (generated_sam_account _ _ _ _) as [[sam|]|e] eqn:Hgen;
      cbn [mbind py_bind] in Hc; [| |discriminate].
    2:{ injection Hc as <- <-. contradiction. }
    destruct (ldap_conn w) eqn:Hconn; [|discriminate].
    destruct (bind_ok a) eqn:Hb; cbn [negb] in Hc;
      [|injection Hc as <- <-; contradiction].
    split; [reflexivity|].
    destruct (country_attributes _ _) as [base|e] eqn:Hbase; [|discriminate].
    cbn [mbind py_bind] in Hc. exists sam, base.
    destruct (add_result a); cbn [negb] in Hc; injection Hc as <- <-.
    + destruct (change_password_chk (form w)); eexists;
        (split; [split; [intros Hx; apply is_empty_true in Hs; congruence
                      |intros _; reflexivity]|]);
        (split; [exact Hbase|]); (split; [reflexivity|]);
        (split; [|now left]); intros dn attrs H; no_add_in H.
    + eexists.
      split; [split; [intros Hx; apply is_empty_true in Hs; congruence
                      |intros _; reflexivity]|].
      split; [exact Hbase|]. split; [reflexivity|]. split; [|now right].
      intros dn attrs H. no_add_in H.
  - cbn [mbind py_bind mret py_ret] in Hc.
    destruct (ldap_conn w); [|discriminate].
    destruct (bind_ok a) eqn:Hb; cbn [negb] in Hc;
      [|injection Hc as <- <-; contradiction].
    split; [reflexivity|].
    destruct (country_attributes _ _) as [base|e] eqn:Hbase; [|discriminate].
    cbn [mbind py_bind] in Hc.
    exists (strip (sam_account_edit (form w))), base.
    destruct (add_result a); cbn [negb] in Hc; injection Hc as <- <-.
    + destruct (change_password_chk (form w)); eexists;
        (split; [split; [reflexivity|intros Hx; apply is_empty_false in Hs;
                                     contradiction]|]);
        (split; [exact Hbase|]); (split; [reflexivity|]);
        (split; [|now left]); intros dn attrs H; no_add_in H.
    + eexists.
      split; [split; [reflexivity|intros Hx; apply is_empty_false in Hs;
                                   contradiction]|].
      split; [exact Hbase|]. split; [reflexivity|]. split; [|now right].
      intros dn attrs H. no_add_in H.
Qed.

(** The loop over the attributes tab adds every entry whose name is not yet
    set, as a list, and changes nothing else. *)
Lemma create_custom_loop_lookup (l : list (string * value))
    (attributes : gmap string value) (k : string) :
  NoDup l.*1 ->
  foldl custom_step attributes l !! k
  = match attributes !! k with
    | Some x => Some x
    | None => (fun v => Multi (as_list v))
                <$> (list_to_map l : gmap string value) !! k
    end.
Proof.
  revert attributes. induction l as [|[a v] l IH]; intros attributes Hnd.
  - cbn [foldl list_to_map foldr]. rewrite lookup_empty.
    now destruct (attributes !! k).
  - cbn [fmap list_fmap fst] in Hnd. apply NoDup_cons in Hnd as [Ha Hnd].
    cbn [foldl list_to_map foldr]. rewrite (IH _ Hnd). unfold custom_step.
    destruct (decide (a = k)) as [->|Hne].
    + rewrite lookup_insert_eq.
      rewrite (not_elem_of_list_to_map_1 (M := gmap string) l k Ha).
      destruct (attributes !! k) as [x|] eqn:Hk.
      * rewrite bool_decide_eq_true_2 by eauto. now rewrite Hk.
      * rewrite bool_decide_eq_false_2 by (intros [? ?]; discriminate).
        now rewrite lookup_insert_eq.
    + rewrite (lookup_insert_ne _ a k) by exact Hne.
      destruct (bool_decide _); [reflexivity|].
      now rewrite lookup_insert_ne by exact Hne.
Qed.

Lemma initial_attributes_fixed (w : create_window)
    (first last display_name sam_account upn password : string) :
  let attributes :=
    initial_attributes w first last display_name sam_account upn password in
  attributes !! "cn" = Some (Scalar (SStr display_name))
  /\ attributes !! "displayName" = Some (Scalar (SStr display_name))
  /\ attributes !! "sAMAccountName" = Some (Scalar (SStr sam_account))
  /\ attributes !! "userPrincipalName" = Some (Scalar (SStr upn))
  /\ attributes !! "mail" = Some (Scalar (SStr upn))
  /\ attributes !! "unicodePwd"
     = Some (Scalar (SBytes (encode_password password))).
Proof.
  unfold initial_attributes. cbv zeta.
  repeat split;
    rewrite !lookup_set_nonempty_ne by discriminate;
    rewrite ?lookup_insert_ne by discriminate;
    apply lookup_insert_eq.
Qed.

Lemma initial_attributes_other (w : create_window)
    (first last display_name sam_account upn password attr : string) :
  attr ∉ form_attribute_names ->
  initial_attributes w first last display_name sam_account upn password
    !! attr = None.
Proof.
  unfold form_attribute_names. rewrite !not_elem_of_cons. intros H.
  unfold initial_attributes. cbv zeta.
  rewrite !lookup_set_nonempty_ne by (intros <-; tauto).
  rewrite !lookup_insert_ne by (intros <-; tauto).
  apply lookup_empty.
Qed.

(** X15: [create_user] makes no request on the write connection, no add,
    no modify and no unbind, unless first name, last name and both password
    fields are filled in, the passwords agree and the bind of that
    connection succeeds; the searches of the name generator, which run on
    the read connection before the bind, are not among these requests.
    What it requests then starts with the one and only add, whose DN is
    [CN=<display name>,<OU>] and whose [cn] and [displayName] are that same
    display name: the one typed, or first and last name when none is
    typed. *)
Theorem create_user_sends_after_validation
    (w : create_window) (a : answers)
    (status : create_status) (requests : list request) :
  create_user w a = Ret (status, requests) ->
  requests <> [] ->
  strip (first_name_edit (form w)) <> ""
  /\ strip (last_name_edit (form w)) <> ""
  /\ password_edit (form w) <> ""
  /\ password_edit (form w) = confirm_password_edit (form w)
  /\ bind_ok a = true
  /\ exists attributes rest,
       requests
       = Add ("CN=" +:+ effective_display_name w +:+ ","
              +:+ ou_combo (form w)) attributes :: rest
       /\ (forall dn attributes', Add dn attributes' ∉ rest)
       /\ attributes !! "cn"
          = Some (Scalar (SStr (effective_display_name w)))
       /\ attributes !! "displayName"
          = Some (Scalar (SStr (effective_display_name w))).
Proof.
  intros Hc Hne.
  destruct (create_user_shape w a status requests Hc Hne)
    as (Hf & Hl & Hp & Heq & Hb & sam & base & rest & _ & Hbase & Hreq
        & Hrest & _).
  do 5 (split; [assumption|]). eexists _, rest. split; [exact Hreq|].
  split; [exact Hrest|].
  destruct (initial_attributes_fixed w (strip (first_name_edit (form w)))
              (strip (last_name_edit (form w))) (effective_display_name w)
              sam (effective_upn w) (password_edit (form w)))
    as (Hcn & Hdn & _).
  split; apply custom_loop_keeps;
    rewrite (country_attributes_keeps _ _ _ _ Hbase) by discriminate;
    assumption.
Qed.

Lemma create_user_sends_after_validation_witness :
  exists status attributes rest,
    create_user jane_manual all_fine
    = Ret (status,
           Add "CN=Jane Doe,OU=Staff,DC=corp,DC=example,DC=com" attributes
           :: rest)
    /\ attributes !! "cn" = Some (Scalar (SStr "Jane Doe")).
Proof.
  destruct (create_user jane_manual all_fine) as [[status requests]|e] eqn:Hc;
    [|vm_compute in Hc; discriminate Hc].
  destruct (create_user_sends_after_validation jane_manual all_fine
              status requests Hc)
    as (_ & _ & _ & _ & _ & attributes & rest & Hreq & _ & Hcn & _).
  - vm_compute in Hc. injection Hc as _ <-. discriminate.
  - exists status, attributes, rest. split; [|exact Hcn].
    now rewrite Hreq.
Defined.

(** X16: an account name typed into the form is used as it stands, after
    stripping: the directory is not consulted and the contractor box adds no
    suffix, so the requests are the same whatever the connection answers
    and whether or not the box is ticked, and the add carries the typed
    name as [sAMAccountName]. *)
Theorem typed_account_name_used_as_is
    (w : create_window) (conn : Connection) (contractor : bool) (a : answers)
    (status : create_status) (dn : string) (attributes : gmap string value)
    (rest : list request) :
  strip (sam_account_edit (form w)) <> "" ->
  ldap_conn w <> None ->
  create_user w a = Ret (status, Add dn attributes :: rest) ->
  create_user (retarget conn contractor w) a = create_user w a
  /\ attributes !! "sAMAccountName"
     = Some (Scalar (SStr (strip (sam_account_edit (form w))))).
Proof.
  intros Hsam Hconn Hc. split.
  - unfold create_user.
    assert (is_empty (strip (sam_account_edit (form w))) = false) as Hs
      by (destruct (strip (sam_account_edit (form w))); [easy|reflexivity]).
    change (sam_account_edit (form (retarget conn contractor w)))
      with (sam_account_edit (form w)).
    rewrite Hs. destruct (ldap_conn w) eqn:Hl; [reflexivity|easy].
  - destruct (create_user_shape w a status _ Hc ltac:(discriminate))
      as (_ & _ & _ & _ & _ & sam & base & rest' & Hs & Hbase & Hreq & _).
    injection Hreq as _ -> _. rewrite (proj1 Hs Hsam) in Hbase.
    apply custom_loop_keeps.
    rewrite (country_attributes_keeps _ _ _ _ Hbase) by discriminate.
    apply initial_attributes_fixed.
Qed.

Lemma typed_account_name_used_as_is_witness :
  exists status dn attributes rest,
    create_user (retarget unreachable_directory true jane_manual) all_fine
    = Ret (status, Add dn attributes :: rest)
    /\ attributes !! "sAMAccountName" = Some (Scalar (SStr "jdoe")).
Proof.
  destruct (create_user jane_manual all_fine)
    as [[status [|[dn attributes| |] rest]]|e] eqn:Hc;
    try (vm_compute in Hc; discriminate Hc).
  destruct (typed_account_name_used_as_is jane_manual unreachable_directory
              true all_fine status dn attributes rest) as [Hr Hs].
  - vm_compute. discriminate.
  - discriminate.
  - exact Hc.
  - exists status, dn, attributes, rest. split; [|exact Hs].
    now rewrite Hr.
Defined.

(** X17: in the add sent by [create_user], the entries of the attributes tab
    never override what the form sets: [userPrincipalName] and [mail] are
    the UPN field followed by the chosen suffix as they stood when Create
    was pressed, and [unicodePwd] is the encoded password, whatever the tab
    holds under these names.  An entry under a name the form never sets is
    sent, and always as a list. *)
Theorem create_custom_attributes_fill_gaps
    (w : create_window) (a : answers) (status : create_status)
    (dn : string) (attributes : gmap string value) (rest : list request) :
  create_user w a = Ret (status, Add dn attributes :: rest) ->
  attributes !! "userPrincipalName"
  = Some (Scalar (SStr (effective_upn w)))
  /\ attributes !! "mail" = Some (Scalar (SStr (effective_upn w)))
  /\ attributes !! "unicodePwd"
     = Some (Scalar (SBytes (encode_password (password_edit (form w)))))
  /\ forall attr v,
       custom_attributes w !! attr = Some v ->
       attr ∉ form_attribute_names ->
       attributes !! attr = Some (Multi (as_list v)).
Proof.
  intros Hc.
  destruct (create_user_shape w a status _ Hc ltac:(discriminate))
    as (_ & _ & _ & _ & _ & sam & base & rest' & _ & Hbase & Hreq & _).
  injection Hreq as _ -> _.
  pose proof (initial_attributes_fixed w (strip (first_name_edit (form w)))
                (strip (last_name_edit (form w))) (effective_display_name w)
                sam (effective_upn w) (password_edit (form w)))
    as (_ & _ & _ & Hupn & Hmail & Hpwd).
  repeat split;
    try (apply custom_loop_keeps;
         rewrite (country_attributes_keeps _ _ _ _ Hbase) by discriminate;
         assumption).
  intros attr v Hv Hnot.
  rewrite create_custom_loop_lookup by apply NoDup_fst_map_to_list.
  rewrite list_to_map_to_list, Hv.
  rewrite (country_attributes_keeps _ _ _ _ Hbase)
    by (intros ->; apply Hnot; unfold form_attribute_names;
        rewrite !elem_of_cons; tauto).
  now rewrite initial_attributes_other by exact Hnot.
Qed.

Lemma create_custom_attributes_fill_gaps_witness :
  exists status dn attributes rest,
    create_user jane_manual all_fine
    = Ret (status, Add dn attributes :: rest)
    /\ custom_attributes jane_manual !! "mail" <> None
    /\ attributes !! "mail" = Some (Scalar (SStr "jdoe@corp.example.com"))
    /\ attributes !! "employeeID" = Some (Multi [SStr "4711"]).
Proof.
  destruct (create_user jane_manual all_fine)
    as [[status [|[dn attributes| |] rest]]|e] eqn:Hc;
    try (vm_compute in Hc; discriminate Hc).
  destruct (create_custom_attributes_fill_gaps jane_manual all_fine
              status dn attributes rest Hc) as (_ & Hmail & _ & Hcustom).
  exists status, dn, attributes, rest. split; [reflexivity|].
  split; [vm_compute; discriminate|]. 
  split; [exact Hmail|].
  apply (Hcustom "employeeID" (Scalar (SStr "4711"))).
  - vm_compute. reflexivity.
  - refine (bool_decide_unpack _ _). vm_compute. exact I.
Defined.

End CreateFacts.
(** ** The UPN suffixes offered *)

Section SuffixFacts.
Import PyStr PyText DomainSuffixes.

Lemma str_in_false (s : string) (l : list string) :
  str_in s l = false <-> s ∉ l.
Proof.
  rewrite <- str_in_elem_of. destruct (str_in s l); split; congruence.
Qed.

Lemma elem_of_distinct (x : string) (l : list string) :
  x ∈ distinct l <-> x ∈ l.
Proof.
  induction l as [|y l IH]; simpl; [tauto|].
  destruct (str_in y l) eqn:Hy; rewrite ?elem_of_cons, IH; [|tauto].
  apply str_in_elem_of in Hy. split; [tauto|]. intros [-> |H]; tauto.
Qed.

Lemma NoDup_distinct (l : list string) : NoDup (distinct l).
Proof.
  induction l as [|y l IH]; simpl; [constructor|].
  destruct (str_in y l) eqn:Hy; [exact IH|].
  constructor; [|exact IH]. rewrite elem_of_distinct.
  now apply str_in_false.
Qed.

Lemma ascending_cons (x y : string) (l : list string) :
  ascending (x :: y :: l)
  = String.leb x y && negb (String.eqb x y) && ascending (y :: l).
Proof. reflexivity. Qed.

Lemma ascending_insert_sorted (x : string) (l : list string) :
  ascending l = true -> x ∉ l -> ascending (insert_sorted x l) = true.
Proof.
  induction l as [|y l IH]; intros Hl Hx; [reflexivity|].
  apply not_elem_of_cons in Hx as [Hxy Hx].
  cbn [insert_sorted]. destruct (String.leb x y) eqn:Hle.
  - rewrite ascending_cons, Hle, Hl.
    now rewrite (proj2 (String.eqb_neq x y) Hxy).
  - assert (String.leb y x = true) as Hyx
      by (destruct (String.leb_total x y); congruence).
    assert (String.eqb y x = false) as Hne
      by (apply String.eqb_neq; congruence).
    destruct l as [|z l].
    + cbn [insert_sorted]. rewrite ascending_cons. now rewrite Hyx, Hne.
    + rewrite ascending_cons in Hl.
      apply andb_prop in Hl as [Hyz Hl].
      specialize (IH Hl Hx). cbn [insert_sorted] in IH |- *.
      destruct (String.leb x z); rewrite ascending_cons.
      * now rewrite Hyx, Hne, IH.
      * now rewrite Hyz, IH.
Qed.

Lemma ascending_sorted (l : list string) :
  NoDup l -> ascending (sorted l) = true.
Proof.
  unfold sorted. induction 1 as [|x l Hx Hl IH]; [reflexivity|].
  cbn [foldr]. apply ascending_insert_sorted; [exact IH|].
  now rewrite (elem_of_sorted x l).
Qed.

Lemma elem_of_configured_suffixes (domains : list (string * string))
    (s : string) :
  s ∈ configured_suffixes domains
  <-> exists netbios fqdn,
        (netbios, fqdn) ∈ domains /\ fqdn <> "" /\ s = "@" +:+ fqdn.
Proof.
  unfold configured_suffixes. rewrite list_elem_of_omap. split.
  - intros ([netbios fqdn] & Hin & Hs). exists netbios, fqdn.
    destruct fqdn; [discriminate|]. injection Hs as <-. now repeat split.
  - intros (netbios & fqdn & Hin & Hne & ->). exists (netbios, fqdn).
    split; [exact Hin|]. now destruct fqdn.
Qed.

Lemma configured_suffixes_nil (domains : list (string * string)) :
  configured_suffixes domains = []
  <-> forall netbios fqdn, (netbios, fqdn) ∈ domains -> fqdn = "".
Proof.
  split.
  - intros H netbios fqdn Hin. destruct fqdn as [|c fqdn]; [reflexivity|].
    assert ("@" +:+ String c fqdn ∈ configured_suffixes domains) as Hs
      by (apply elem_of_configured_suffixes; now exists netbios, (String c fqdn)).
    rewrite H in Hs. now apply elem_of_nil in Hs.
  - intros H. destruct (configured_suffixes domains) as [|s l] eqn:Hc;
      [reflexivity|].
    assert (s ∈ configured_suffixes domains) as Hs
      by (rewrite Hc; apply list_elem_of_here).
    apply elem_of_configured_suffixes in Hs as (n & f & Hin & Hne & _).
    now specialize (H n f Hin).
Qed.

Lemma discover_domain_suffixes_collected (domains : list (string * string))
    (current_domain : option string) :
  discover_domain_suffixes domains current_domain
  = sorted (distinct (match collected domains current_domain with
                      | [] => ["@adenshomelab.com"]
                      | s :: l => s :: l
                      end)).
Proof.
  unfold discover_domain_suffixes, collected. cbv zeta.
  now destruct (match current_domain with Some _ => _ | None => _ end).
Qed.

Lemma elem_of_collected (domains : list (string * string))
    (current_domain : option string) (s : string) :
  s ∈ collected domains current_domain
  <-> s ∈ configured_suffixes domains
      \/ (exists d, current_domain = Some d /\ d <> "" /\ s = "@" +:+ d)
      \/ (exists d, current_domain = Some d /\ d <> ""
                    /\ (("@" +:+ d) ∉ configured_suffixes domains)
                    /\ s = "@" +:+ main_domain d).
Proof.
  unfold collected. cbv zeta. destruct current_domain as [d|].
  2:{ split; [tauto|]. intros [H|[(d & H & _)|(d & H & _)]];
        [exact H|discriminate|discriminate]. }
  destruct (is_empty d) eqn:He; cbn [negb andb].
  { destruct d; [|discriminate]. split; [tauto|].
    intros [H|[(d & [= <-] & H & _)|(d & [= <-] & H & _)]]; tauto. }
  apply is_empty_false in He.
  destruct (str_in ("@" +:+ d) (configured_suffixes domains)) eqn:Hd;
    cbn [negb].
  { apply str_in_elem_of in Hd. split; [tauto|].
    intros [H|[(d' & [= <-] & _ & ->)|(d' & [= <-] & _ & H & _)]];
      [exact H|exact Hd|tauto]. }
  apply str_in_false in Hd.
  destruct (str_in _ _) eqn:Hm; cbn [negb].
  - apply str_in_elem_of in Hm. rewrite elem_of_app, list_elem_of_singleton in *.
    split.
    + intros [H| ->]; [tauto|]. right; left. now exists d.
    + intros [H|[(d' & [= <-] & _ & ->)|(d' & [= <-] & _ & _ & ->)]]; tauto.
  - rewrite !elem_of_app, !list_elem_of_singleton. split.
    + intros [[H| ->]| ->]; [tauto| |].
      * right; left. now exists d.
      * right; right. now exists d.
    + intros [H|[(d' & [= <-] & _ & ->)|(d' & [= <-] & _ & _ & ->)]]; tauto.
Qed.

Lemma collected_nil (domains : list (string * string))
    (current_domain : option string) :
  collected domains current_domain = []
  <-> configured_suffixes domains = []
      /\ (current_domain = None \/ current_domain = Some "").
Proof.
  unfold collected. cbv zeta. destruct current_domain as [[|c d]|];
    cbn [is_empty negb andb].
  - split; [intros ->; tauto|tauto].
  - destruct (str_in _ _) eqn:Hd; cbn [negb].
    + apply str_in_elem_of in Hd. split.
      * intros H. rewrite H in Hd. now apply elem_of_nil in Hd.
      * intros [_ [H|H]]; discriminate.
    + split.
      * destruct (negb _); intros H; apply app_eq_nil in H as [_ H];
          try discriminate.
      * intros [_ [H|H]]; discriminate.
  - split; [intros ->; tauto|tauto].
Qed.

(** X18: the suffix list the user window offers is never empty, is in
    strictly ascending order, so sorted and without repetition, and holds
    only entries that start with an at sign. *)
Theorem discover_domain_suffixes_well_formed
    (domains : list (string * string)) (current_domain : option string) :
  discover_domain_suffixes domains current_domain <> []
  /\ ascending (discover_domain_suffixes domains current_domain) = true
  /\ forall s, s ∈ discover_domain_suffixes domains current_domain ->
               startswith "@" s = true.
Proof.
  rewrite discover_domain_suffixes_collected.
  set (l := match collected domains current_domain with
            | [] => _ | s :: l => _ end).
  assert (exists s, s ∈ l) as [s0 Hs0].
  { subst l. destruct (collected _ _) as [|s l]; eexists; apply list_elem_of_here. }
  split; [|split].
  - intros H.
    assert (s0 ∈ sorted (distinct l)) as Hs
      by now apply elem_of_sorted, elem_of_distinct.
    rewrite H in Hs. now apply elem_of_nil in Hs.
  - apply ascending_sorted, NoDup_distinct.
  - intros s Hs. rewrite elem_of_sorted, elem_of_distinct in Hs.
    assert (s = "@adenshomelab.com" \/ s ∈ collected domains current_domain)
      as [-> |Hc].
    { subst l. destruct (collected _ _) as [|s' l'];
        [left; now apply list_elem_of_singleton in Hs|now right]. }
    + reflexivity.
    + apply elem_of_collected in Hc
        as [Hc|[(d & _ & _ & ->)|(d & _ & _ & _ & ->)]];
        [|reflexivity|reflexivity].
      apply elem_of_configured_suffixes in Hc as (_ & f & _ & _ & ->).
      reflexivity.
Qed.

Lemma elem_of_discover_domain_suffixes
    (domains : list (string * string)) (current_domain : option string)
    (s : string) :
  s ∈ discover_domain_suffixes domains current_domain
  <-> (exists netbios fqdn,
         (netbios, fqdn) ∈ domains /\ fqdn <> "" /\ s = "@" +:+ fqdn)
      \/ (exists d, current_domain = Some d /\ d <> "" /\ s = "@" +:+ d)
      \/ (exists d, current_domain = Some d /\ d <> ""
                    /\ (forall netbios, (netbios, d) ∉ domains)
                    /\ s = "@" +:+ main_domain d)
      \/ ((forall netbios fqdn, (netbios, fqdn) ∈ domains -> fqdn = "")
          /\ (current_domain = None \/ current_domain = Some "")
          /\ s = "@adenshomelab.com").
Proof.
  rewrite discover_domain_suffixes_collected, elem_of_sorted,
    elem_of_distinct.
  assert (forall d, d <> "" ->
            (("@" +:+ d) ∉ configured_suffixes domains
             <-> forall netbios, (netbios, d) ∉ domains)) as Hconf.
  { intros d Hd. split.
    - intros H netbios Hin. apply H, elem_of_configured_suffixes.
      now exists netbios, d.
    - intros H (netbios & fqdn & Hin & _ & Heq)%elem_of_configured_suffixes.
      injection Heq as Heq. change (d = fqdn) in Heq. subst fqdn.
      now apply (H netbios). }
  destruct (collected domains current_domain) as [|s' l'] eqn:Hc.
  - apply collected_nil in Hc as [Hn Hcur].
    rewrite list_elem_of_singleton. split.
    + intros ->. right; right; right.
      split; [now apply configured_suffixes_nil|]. now split.
    + intros [(n & f & Hin & Hne & _)|[(d & Hd & Hne & _)
               |[(d & Hd & Hne & _)|(_ & _ & ->)]]];
        [|destruct Hcur; congruence|destruct Hcur; congruence|reflexivity].
      exfalso. apply Hne. revert Hin. now apply configured_suffixes_nil.
  - rewrite <- Hc, elem_of_collected, elem_of_configured_suffixes.
    split.
    + intros [H|[H|(d & Hd & Hne & Hnot & ->)]]; [tauto|tauto|].
      right; right; left. exists d. repeat split; try assumption.
      now apply Hconf.
    + intros [H|[H|[(d & Hd & Hne & Hnot & ->)|(Hall & Hcur & _)]]];
        [tauto|tauto| |].
      * right; right. exists d. repeat split; try assumption.
        now apply Hconf.
      * exfalso.
        assert (collected domains current_domain = []) as Hnil
          by (apply collected_nil; split;
              [now apply configured_suffixes_nil|exact Hcur]).
        congruence.
Qed.

(** X19: what the suffix list holds.  A suffix is offered exactly when it
    is the at sign followed by a non-empty FQDN of the domains dictionary,
    or by the non-empty current domain, or by the last two labels of the
    current domain provided the current domain is not itself an FQDN of
    the dictionary, or when it is [@adenshomelab.com] and neither the
    dictionary nor the current domain gave anything. *)
Theorem discover_domain_suffixes_members
    (domains : list (string * string)) (current_domain : option string)
    (s : string) :
  s ∈ discover_domain_suffixes domains current_domain
  <-> (exists netbios fqdn,
         (netbios, fqdn) ∈ domains /\ fqdn <> "" /\ s = "@" +:+ fqdn)
      \/ (exists d, current_domain = Some d /\ d <> "" /\ s = "@" +:+ d)
      \/ (exists d, current_domain = Some d /\ d <> ""
                    /\ (forall netbios, (netbios, d) ∉ domains)
                    /\ s = "@" +:+ main_domain d)
      \/ ((forall netbios fqdn, (netbios, fqdn) ∈ domains -> fqdn = "")
          /\ (current_domain = None \/ current_domain = Some "")
          /\ s = "@adenshomelab.com").
Proof. apply elem_of_discover_domain_suffixes. Qed.

Lemma discover_domain_suffixes_members_witness :
  "@adenshomelab.xyz"
  ∈ discover_domain_suffixes [] (Some "corp.adenshomelab.xyz")
  /\ "@adenshomelab.xyz"
     ∉ discover_domain_suffixes (browser_domains DOMAIN_CONFIG)
         (Some "corp.adenshomelab.xyz").
Proof.
  split.
  - apply (discover_domain_suffixes_members [] (Some "corp.adenshomelab.xyz")).
    right; right; left. exists "corp.adenshomelab.xyz".
    repeat split; [discriminate|].
    intros netbios H. now apply elem_of_nil in H.
  - vm_compute. intros H.
    repeat (apply elem_of_cons in H as [H|H]; [discriminate H|]).
    now apply elem_of_nil in H.
Defined.

Lemma discover_domain_suffixes_well_formed_witness :
  discover_domain_suffixes (browser_domains DOMAIN_CONFIG) None
  = ["@corp.adenshomelab.xyz"; "@sdnm.adenshomelab.xyz"]
  /\ ascending (discover_domain_suffixes (browser_domains DOMAIN_CONFIG) None)
     = true.
Proof.
  split; [reflexivity|].
  apply (discover_domain_suffixes_well_formed
           (browser_domains DOMAIN_CONFIG) None).
Defined.

Lemma elem_of_browser_domains
    (config : list (string * (string * list string)))
    (netbios fqdn : string) :
  (netbios, fqdn) ∈ browser_domains config
  <-> exists dc_list, (netbios, (fqdn, dc_list)) ∈ config.
Proof.
  unfold browser_domains. rewrite list_elem_of_fmap. split.
  - intros ([n [f dcs]] & [= -> ->] & Hin). now exists dcs.
  - intros (dcs & Hin). now exists (netbios, (fqdn, dcs)).
Qed.

(** A domain controller of the configuration answers under the FQDN of its
    domain. *)
Lemma determine_connected_domain_configured
    (config : list (string * (string * list string)))
    (login_domain_dns dc_fqdn : string) :
  (exists netbios fqdn dc_list dc,
     (netbios, (fqdn, dc_list)) ∈ config /\ dc ∈ dc_list
     /\ lower dc = lower dc_fqdn) ->
  exists netbios dc_list,
    (netbios,
     (determine_connected_domain config login_domain_dns dc_fqdn, dc_list))
    ∈ config.
Proof.
  intros (n & f & dcs & dc & Hin & Hdc & Hl).
  induction config as [|[n' [f' dcs']] config IH];
    [now apply elem_of_nil in Hin|].
  cbn [determine_connected_domain].
  destruct (existsb _ dcs') eqn:He.
  - exists n', dcs'. apply list_elem_of_here.
  - apply elem_of_cons in Hin as [[= <- <- <-]|Hin].
    + exfalso. apply Bool.not_true_iff_false in He. apply He.
      apply existsb_exists. exists dc. split; [now apply list_elem_of_In|].
      now apply String.eqb_eq.
    + destruct (IH Hin) as (n'' & dcs'' & H). exists n'', dcs''.
      now apply list_elem_of_further.
Qed.

(** X20: the directory browser hands the user window the domains of its
    configuration and the domain of the controller it is connected to.
    When that controller is one of the configuration, compared without
    regard to case, the window offers exactly the configured FQDNs as
    suffixes: the organisation domain, the last two labels of the current
    domain, is then never added on its own account. *)
Theorem browser_offers_configured_suffixes
    (config : list (string * (string * list string)))
    (login_domain_dns dc_fqdn s : string) :
  (exists netbios fqdn dc_list dc,
     (netbios, (fqdn, dc_list)) ∈ config /\ dc ∈ dc_list
     /\ lower dc = lower dc_fqdn) ->
  s ∈ discover_domain_suffixes (browser_domains config)
        (Some (determine_connected_domain config login_domain_dns dc_fqdn))
  <-> (exists netbios fqdn dc_list,
         (netbios, (fqdn, dc_list)) ∈ config /\ fqdn <> ""
         /\ s = "@" +:+ fqdn)
      \/ ((forall netbios fqdn dc_list,
             (netbios, (fqdn, dc_list)) ∈ config -> fqdn = "")
          /\ s = "@adenshomelab.com").
Proof.
  intros Hdc.
  destruct (determine_connected_domain_configured config login_domain_dns
              dc_fqdn Hdc) as (n0 & dcs0 & Hcur).
  set (current := determine_connected_domain _ _ _) in *.
  rewrite elem_of_discover_domain_suffixes. split.
  - intros [(n & f & Hin & Hne & ->)|[(d & [= <-] & Hne & ->)
            |[(d & [= <-] & _ & Hnot & _)|(Hall & _ & ->)]]].
    + apply elem_of_browser_domains in Hin as [dcs Hin].
      left. now exists n, f, dcs.
    + left. now exists n0, current, dcs0.
    + exfalso. apply (Hnot n0), elem_of_browser_domains. now exists dcs0.
    + right. split; [|reflexivity]. intros n f dcs Hin.
      apply (Hall n), elem_of_browser_domains. now exists dcs.
  - intros [(n & f & dcs & Hin & Hne & ->)|[Hall ->]].
    + left. exists n, f. split; [|now split].
      apply elem_of_browser_domains. now exists dcs.
    + right; right; right. split; [|split; [|reflexivity]].
      * intros n f [dcs Hin]%elem_of_browser_domains. now apply (Hall n f dcs).
      * right. f_equal. now apply (Hall n0 current dcs0).
Qed.

Lemma browser_offers_configured_suffixes_witness :
  "@adenshomelab.xyz"
  ∉ discover_domain_suffixes (browser_domains DOMAIN_CONFIG)
      (Some (determine_connected_domain DOMAIN_CONFIG "example.org"
               "sdnmsrvdcp001.SDNM.adenshomelab.xyz")).
Proof.
  intros H.
  apply (browser_offers_configured_suffixes DOMAIN_CONFIG "example.org"
           "sdnmsrvdcp001.SDNM.adenshomelab.xyz" "@adenshomelab.xyz") in H.
  - destruct H as [(n & f & dcs & Hin & _ & Heq)|[_ Heq]];
      [|discriminate Heq].
    unfold DOMAIN_CONFIG in Hin.
    repeat (apply elem_of_cons in Hin as [[= -> -> ->]|Hin];
            [discriminate Heq|]).
    now apply elem_of_nil in Hin.
  - exists "SDNM", "sdnm.adenshomelab.xyz",
      ["SDNMSRVDCP001.sdnm.adenshomelab.xyz"],
      "SDNMSRVDCP001.sdnm.adenshomelab.xyz".
    split; [|split; [apply list_elem_of_here|reflexivity]].
    unfold DOMAIN_CONFIG. apply list_elem_of_further, list_elem_of_here.
Defined.

End SuffixFacts.
(** ** Typing, then creating *)

Section TypingFacts.
Import PyStr Ldap UserEditorHelpers CreateMode CreateModeSpec CreateEvents.
Import CreateScenarios TypingScenarios Scenarios.

Lemma auto_update_fields_synced (has_focus : bool) (w w' : create_window) :
  auto_update_fields has_focus w = Ret w' ->
  upn_edit (form w') = strip (sam_account_edit (form w'))
  /\ upn_suffix_combo (form w') = upn_suffix_combo (form w).
Proof.
  unfold auto_update_fields. cbv zeta.
  destruct (_ : py string) as [sam|e]; cbn [mbind py_bind]; [|discriminate].
  intros [= <-]. split; reflexivity.
Qed.

(** X21: once [auto_update_fields] has run, the UPN prefix field is the
    account name field, trimmed; so when the account name field is not
    blank, the account [create_user] then adds has the trimmed account name
    as [sAMAccountName] and the same name followed by the chosen suffix as
    [userPrincipalName] and [mail]. *)
Theorem suggested_name_reaches_upn
    (has_focus : bool) (w w' : create_window) (a : answers)
    (status : create_status) (dn : string) (attributes : gmap string value)
    (rest : list request) :
  auto_update_fields has_focus w = Ret w' ->
  strip (sam_account_edit (form w')) <> "" ->
  create_user w' a = Ret (status, Add dn attributes :: rest) ->
  let sam_account := strip (sam_account_edit (form w')) in
  let upn := sam_account +:+ strip (upn_suffix_combo (form w)) in
  attributes !! "sAMAccountName" = Some (Scalar (SStr sam_account))
  /\ attributes !! "userPrincipalName" = Some (Scalar (SStr upn))
  /\ attributes !! "mail" = Some (Scalar (SStr upn)).
Proof.
  intros Hu Hsam Hc sam_account upn. subst sam_account upn.
  destruct (auto_update_fields_synced _ _ _ Hu) as [Hupn Hsuffix].
  destruct (create_user_shape w' a status _ Hc ltac:(discriminate))
    as (_ & _ & _ & _ & _ & sam & base & rest' & Hs & Hbase & Hreq & _).
  injection Hreq as _ -> _. rewrite (proj1 Hs Hsam) in Hbase.
  pose proof (initial_attributes_fixed w' (strip (first_name_edit (form w')))
                (strip (last_name_edit (form w'))) (effective_display_name w')
                (strip (sam_account_edit (form w'))) (effective_upn w')
                (password_edit (form w')))
    as (_ & _ & Hsam' & Hupn' & Hmail & _).
  assert (effective_upn w'
          = strip (sam_account_edit (form w'))
            +:+ strip (upn_suffix_combo (form w))) as <-
    by (unfold effective_upn; now rewrite Hupn, Hsuffix).
  repeat split; apply custom_loop_keeps;
    rewrite (country_attributes_keeps _ _ _ _ Hbase) by discriminate;
    assumption.
Qed.

Lemma suggested_name_reaches_upn_witness :
  exists w' status dn attributes rest,
    auto_update_fields false jane_typed = Ret w'
    /\ create_user w' all_fine = Ret (status, Add dn attributes :: rest)
    /\ attributes !! "sAMAccountName" = Some (Scalar (SStr "j.doe1"))
    /\ attributes !! "userPrincipalName"
       = Some (Scalar (SStr "j.doe1@corp.example.com")).
Proof.
  destruct (auto_update_fields false jane_typed) as [w'|e] eqn:Hu;
    [|vm_compute in Hu; discriminate Hu].
  destruct (create_user w' all_fine)
    as [[status [|[dn attributes| |] rest]]|e] eqn:Hc;
    try (vm_compute in Hu; injection Hu as <-; vm_compute in Hc;
         discriminate Hc).
  destruct (suggested_name_reaches_upn false jane_typed w' all_fine status dn
              attributes rest Hu) as (Hsam & Hupn & _).
  - vm_compute in Hu. injection Hu as <-. vm_compute. discriminate.
  - exact Hc.
  - exists w', status, dn, attributes, rest.
    split; [reflexivity|]. split; [exact Hc|].
    rewrite Hsam, Hupn. vm_compute in Hu. injection Hu as <-.
    split; vm_compute; reflexivity.
Defined.

(** X22: when the account name field and the UPN prefix field are blank as
    Create is pressed, the account is added under the name the generator
    returns, with the contractor suffix if the box is ticked, but the
    generated name does not reach the UPN: [userPrincipalName] and [mail]
    are the bare suffix. *)
Theorem generated_name_misses_upn
    (w : create_window) (a : answers) (status : create_status)
    (dn : string) (attributes : gmap string value) (rest : list request) :
  strip (sam_account_edit (form w)) = "" ->
  upn_edit (form w) = "" ->
  create_user w a = Ret (status, Add dn attributes :: rest) ->
  exists sam_account,
    generated_sam_account (strip (first_name_edit (form w)))
      (strip (last_name_edit (form w))) (ldap_conn w)
      (contractor_chk (form w))
    = Ret (Some sam_account)
    /\ attributes !! "sAMAccountName" = Some (Scalar (SStr sam_account))
    /\ attributes !! "userPrincipalName"
       = Some (Scalar (SStr (strip (upn_suffix_combo (form w)))))
    /\ attributes !! "mail"
       = Some (Scalar (SStr (strip (upn_suffix_combo (form w))))).
Proof.
  intros Hsam Hupn Hc.
  destruct (create_user_shape w a status _ Hc ltac:(discriminate))
    as (_ & _ & _ & _ & _ & sam & base & rest' & Hs & Hbase & Hreq & _).
  injection Hreq as _ -> _. exists sam. split; [exact (proj2 Hs Hsam)|].
  pose proof (initial_attributes_fixed w (strip (first_name_edit (form w)))
                (strip (last_name_edit (form w))) (effective_display_name w)
                sam (effective_upn w) (password_edit (form w)))
    as (_ & _ & Hsam' & Hupn' & Hmail & _).
  assert (effective_upn w = strip (upn_suffix_combo (form w))) as <-
    by (unfold effective_upn; now rewrite Hupn).
  repeat split; apply custom_loop_keeps;
    rewrite (country_attributes_keeps _ _ _ _ Hbase) by discriminate;
    assumption.
Qed.

Lemma generated_name_misses_upn_witness :
  exists status dn attributes rest,
    create_user jane_typed all_fine
    = Ret (status, Add dn attributes :: rest)
    /\ attributes !! "sAMAccountName" = Some (Scalar (SStr "j.doe1"))
    /\ attributes !! "userPrincipalName"
       = Some (Scalar (SStr "@corp.example.com")).
Proof.
  destruct (create_user jane_typed all_fine)
    as [[status [|[dn attributes| |] rest]]|e] eqn:Hc;
    try (vm_compute in Hc; discriminate Hc).
  destruct (generated_name_misses_upn jane_typed all_fine status dn
              attributes rest eq_refl eq_refl Hc)
    as (sam & Hgen & Hsam & Hupn & _).
  exists status, dn, attributes, rest. split; [reflexivity|].
  vm_compute in Hgen. injection Hgen as <-. split; [exact Hsam|exact Hupn].
Defined.

End TypingFacts.
(** ** Templates *)

Section TemplateFacts.
Import Templates TemplateScenarios.

Lemma import_items_ok (items : list (string * pyval))
    (m m' : gmap string UserTemplate) (k n : nat) :
  import_items items m k = (m', inr n) ->
  n = (k + List.length items)%nat
  /\ (forall key, key ∉ items.*1 -> m' !! key = m !! key)
  /\ (NoDup items.*1 ->
      forall key data, (key, data) ∈ items ->
        exists template, from_dict data = inr template
                         /\ m' !! key = Some template).
Proof.
  revert m k. induction items as [|[key0 data0] items IH]; intros m k H.
  - cbn in H. injection H as <- <-. split; [cbn; lia|].
    split; [reflexivity|]. intros _ key data Hin.
    now apply elem_of_nil in Hin.
  - cbn [import_items] in H.
    destruct (from_dict data0) as [e|t0] eqn:Hd; [discriminate|].
    destruct (IH _ _ H) as (Hn & Hother & Hin).
    split; [cbn [List.length]; lia|]. split.
    + intros key Hkey. cbn [fmap list_fmap fst] in Hkey.
      apply not_elem_of_cons in Hkey as [Hne Hkey].
      rewrite (Hother key Hkey). now apply lookup_insert_ne.
    + intros Hnd key data Hmem. cbn [fmap list_fmap fst] in Hnd.
      apply NoDup_cons in Hnd as [Hfresh Hnd].
      apply elem_of_cons in Hmem as [[= -> ->]|Hmem].
      * exists t0. split; [exact Hd|].
        rewrite (Hother key0 Hfresh). apply lookup_insert_eq.
      * now apply (Hin Hnd).
Qed.

Lemma import_items_raises (items : list (string * pyval))
    (m m' : gmap string UserTemplate) (k : nat) (e : raised) :
  import_items items m k = (m', inl e) ->
  exists done bad rest,
    items = (done ++ bad :: rest)%list
    /\ from_dict bad.2 = inl e
    /\ import_items done m k = (m', inr (k + List.length done)%nat).
Proof.
  revert m k. induction items as [|[key0 data0] items IH]; intros m k H.
  - discriminate.
  - cbn [import_items] in H.
    destruct (from_dict data0) as [e0|t0] eqn:Hd.
    + injection H as <- <-. exists [], (key0, data0), items.
      split; [reflexivity|]. split; [exact Hd|]. cbn. do 2 f_equal. lia.
    + destruct (IH _ _ H) as (done & bad & rest & -> & Hbad & Hdone).
      exists ((key0, data0) :: done), bad, rest.
      split; [reflexivity|]. split; [exact Hbad|].
      cbn [import_items]. rewrite Hd, Hdone. cbn [List.length].
      do 2 f_equal. lia.
Qed.


(** X23: when [import_templates] returns a count, the file parsed to a
    dictionary, the count is the number of its entries, every entry is in
    the manager under its dictionary key, holding the name and settings
    the entry gives, which need not be that key, the templates under other
    keys are as before, and the manager's file has been rewritten with all
    of them. *)
Theorem import_templates_returns
    (loaded : load_outcome) (m m' : manager) (n : nat) :
  import_templates loaded m = (m', inr n) ->
  exists items,
    loaded = Loaded (PDict items)
    /\ n = List.length items
    /\ file m' = Some (templates m')
    /\ (forall key, key ∉ items.*1 ->
                    templates m' !! key = templates m !! key)
    /\ (NoDup items.*1 ->
        forall key data, (key, data) ∈ items ->
          exists template,
            from_dict data = inr template
            /\ get_template key m' = Some template).
Proof.
  unfold import_templates.
  destruct loaded as [| |[| | | | | |items]]; try discriminate.
  destruct (import_items items (templates m) 0) as [t' [e|k]] eqn:Hi;
    [destruct e; discriminate|].
  intros [= <- <-]. exists items. split; [reflexivity|].
  destruct (import_items_ok _ _ _ _ _ Hi) as (Hn & Hother & Hin).
  split; [exact Hn|]. split; [reflexivity|]. split; [exact Hother|exact Hin].
Qed.

Lemma import_templates_returns_witness :
  exists m',
    import_templates (Loaded (PDict [("Team A", sales)])) fresh_manager
    = (m', inr 1%nat)
    /\ get_template "Team A" m'
       = Some {| name := PStr "Sales";
                 settings := PDict [("department", PStr "Sales")] |}.
Proof.
  eexists. split; [reflexivity|].
  destruct (import_templates_returns (Loaded (PDict [("Team A", sales)]))
              fresh_manager _ 1 eq_refl)
    as (items & [= <-] & _ & _ & _ & Hin).
  destruct (Hin ltac:(repeat constructor; apply not_elem_of_nil)
              "Team A" sales ltac:(apply list_elem_of_here))
    as (template & [= <-] & Hget).
  exact Hget.
Defined.

(** X24: when [import_templates] raises, the manager's file is left as it
    was, but the manager is not: it holds what importing the entries
    before the faulty one gives.  A file that is missing, is no JSON or is
    no dictionary changes nothing, and a [KeyError] never leaves the
    function. *)
Theorem import_templates_raises
    (loaded : load_outcome) (m m' : manager) (e : raised) :
  import_templates loaded m = (m', inl e) ->
  file m' = file m
  /\ e <> RaisedKeyError
  /\ ((forall items, loaded <> Loaded (PDict items)) -> m' = m)
  /\ (forall items, loaded = Loaded (PDict items) ->
        exists done bad rest,
          items = (done ++ bad :: rest)%list
          /\ (exists e', from_dict bad.2 = inl e')
          /\ import_items done (templates m) 0
             = (templates m', inr (List.length done))).
Proof.
  unfold import_templates.
  destruct loaded as [| |[| | | | | |items]];
    try (intros [= <- <-];
         split; [reflexivity|];
         split; [discriminate|];
         split; [intros _; reflexivity|intros items H; discriminate H]).
  destruct (import_items items (templates m) 0) as [t' [e0|k]] eqn:Hi;
    [|discriminate].
  intros H.
  assert (m' = {| templates := t'; file := file m |}
          /\ e <> RaisedKeyError) as [-> Hne]
    by (destruct e0; injection H as <- <-;
        (split; [reflexivity|discriminate])).
  split; [reflexivity|]. split; [exact Hne|]. split.
  - intros Hno. now destruct (Hno items).
  - intros items' [= <-].
    destruct (import_items_raises _ _ _ _ _ Hi)
      as (done & bad & rest & -> & Hbad & Hdone).
    exists done, bad, rest. split; [reflexivity|]. split; [now exists e0|].
    exact Hdone.
Qed.

Lemma import_templates_raises_witness :
  exists m',
    import_templates half_good_file fresh_manager = (m', inl RaisedException)
    /\ file m' = None
    /\ get_template "Sales" m' <> None.
Proof.
  eexists. split; [reflexivity|].
  destruct (import_templates_raises half_good_file fresh_manager _ _ eq_refl)
    as (Hfile & _).
  split; [exact Hfile|]. vm_compute. discriminate.
Defined.


End TemplateFacts.
(** ** The country box *)

Section CountryFacts.
Import PyStr EditMode EditModeSpec EditInit EditScenarios CountryScenarios.

Lemma country_written (w : edit_window)
    (country_name country_code country_num : string) :
  window_ok w ->
  password_mismatch w = false ->
  "country" ∈ modified_attributes w ->
  (0 <= country_combo (form w))%Z ->
  country_item (country_combo (form w))
  = Some (country_name, (country_code, country_num)) ->
  exists modifications,
    save_changes w = Ret (Modify modifications)
    /\ modifications !! "c" = Some [(MODIFY_REPLACE, [SStr country_code])]
    /\ modifications !! "co" = Some [(MODIFY_REPLACE, [SStr country_name])]
    /\ modifications !! "countryCode"
       = Some [(MODIFY_REPLACE, [SStr country_num])].
Proof.
  intros Hok Hmm Hd Hsel Hitem.
  destruct (save_changes_lookup w Hok Hmm) as (m & Hsave & Hm).
  assert (Hvalues : country_values w
                    = [("c", SStr country_code); ("co", SStr country_name);
                       ("countryCode", SStr country_num)]).
  { unfold country_values. rewrite Hitem.
    destruct (Z.leb_spec 0 (country_combo (form w))); [reflexivity | lia]. }
  assert (Hthree : forall attr x,
             (attr, x) ∈ country_values w ->
             m !! attr = Some (replace_with x)).
  { intros attr x Hin. rewrite Hm. apply expected_some; [exact Hok|].
    left. exists x. split; [|reflexivity].
    apply guarded_requests_elem. right; right.
    split; [exact Hin | now apply dirty_true]. }
  rewrite Hvalues in Hthree.
  assert (Hc : m !! "c" = Some (replace_with (SStr country_code)))
    by (apply Hthree; repeat first [apply list_elem_of_here
                                   | apply list_elem_of_further]).
  exists m. split.
  { rewrite Hsave. f_equal. apply (outcome_of_nonempty m "c"). eauto. }
  split; [exact Hc|].
  split; apply Hthree;
    repeat first [apply list_elem_of_here | apply list_elem_of_further].
Qed.

(** Where the set-up leaves the country box. *)
Lemma initial_country_index_listed (country_name code country_num : string) :
  (country_name, (code, country_num)) ∈ countries ->
  (0 <= initial_country_index (Some (Scalar (SStr code))))%Z
  /\ country_item (initial_country_index (Some (Scalar (SStr code))))
     = Some (country_name, (code, country_num)).
Proof.
  unfold countries. intros H.
  repeat (apply elem_of_cons in H as [[= -> -> ->]|H];
          [split; [vm_compute; discriminate|reflexivity]|]).
  now apply elem_of_nil in H.
Qed.

Lemma initial_country_index_unlisted (stored : option value) :
  (forall country_name code country_num,
     stored = Some (Scalar (SStr code)) ->
     (country_name, (code, country_num)) ∉ countries) ->
  initial_country_index stored = 0%Z.
Proof.
  intros H. destruct stored as [[[code| |]|]|]; try reflexivity.
  unfold initial_country_index. destruct (is_empty code); [reflexivity|].
  cbn [negb]. unfold countries. cbn [matching_country].
  destruct (String.eqb_spec "US" code) as [<-|_].
  { exfalso. apply (H "United States" "US" "840" eq_refl).
    apply list_elem_of_here. }
  destruct (String.eqb_spec "CA" code) as [<-|_].
  { exfalso. apply (H "Canada" "CA" "124" eq_refl).
    apply list_elem_of_further, list_elem_of_here. }
  destruct (String.eqb_spec "GB" code) as [<-|_]; [|reflexivity].
  exfalso. apply (H "United Kingdom" "GB" "826" eq_refl).
  do 2 apply list_elem_of_further. apply list_elem_of_here.
Qed.

(** X26: for an account whose stored country code is one of the list, a
    country box that stands where [setup_edit_mode_ui] left it and is
    flagged dirty makes [save_changes] write back that very code, with the
    name and the number the list gives for it. *)
Theorem country_round_trip (w : edit_window)
    (country_name code country_num : string) :
  window_ok w ->
  password_mismatch w = false ->
  "country" ∈ modified_attributes w ->
  user_data w !! "c" = Some (Scalar (SStr code)) ->
  (country_name, (code, country_num)) ∈ countries ->
  country_combo (form w) = initial_country_index (user_data w !! "c") ->
  exists modifications,
    save_changes w = Ret (Modify modifications)
    /\ modifications !! "c" = Some [(MODIFY_REPLACE, [SStr code])]
    /\ modifications !! "co" = Some [(MODIFY_REPLACE, [SStr country_name])]
    /\ modifications !! "countryCode"
       = Some [(MODIFY_REPLACE, [SStr country_num])].
Proof.
  intros Hok Hmm Hd Hc Hin Hidx. rewrite Hc in Hidx.
  destruct (initial_country_index_listed _ _ _ Hin) as [Hpos Hitem].
  rewrite <- Hidx in Hpos, Hitem.
  now apply country_written.
Qed.

Lemma country_round_trip_witness :
  exists modifications,
    save_changes country_toggled_back = Ret (Modify modifications)
    /\ modifications !! "c" = Some [(MODIFY_REPLACE, [SStr "US"])]
    /\ modifications !! "co"
       = Some [(MODIFY_REPLACE, [SStr "United States"])]
    /\ modifications !! "countryCode"
       = Some [(MODIFY_REPLACE, [SStr "840"])].
Proof.
  apply (country_round_trip country_toggled_back "United States" "US" "840");
    try reflexivity.
  - split; [right; eexists; reflexivity | simpl; lia].
  - apply list_elem_of_here.
Defined.

(** X27: for an account whose stored country is missing, empty, a list or
    a code that is not in the list, [setup_edit_mode_ui] leaves the country
    box on its first item; flagged dirty and left there, it makes
    [save_changes] replace the country by the United States. *)
Theorem unlisted_country_replaced_by_first (w : edit_window) :
  window_ok w ->
  password_mismatch w = false ->
  "country" ∈ modified_attributes w ->
  (forall country_name code country_num,
     user_data w !! "c" = Some (Scalar (SStr code)) ->
     (country_name, (code, country_num)) ∉ countries) ->
  country_combo (form w) = initial_country_index (user_data w !! "c") ->
  country_combo (form w) = 0%Z
  /\ exists modifications,
       save_changes w = Ret (Modify modifications)
       /\ modifications !! "c" = Some [(MODIFY_REPLACE, [SStr "US"])]
       /\ modifications !! "co"
          = Some [(MODIFY_REPLACE, [SStr "United States"])]
       /\ modifications !! "countryCode"
          = Some [(MODIFY_REPLACE, [SStr "840"])].
Proof.
  intros Hok Hmm Hd Hun Hidx.
  rewrite (initial_country_index_unlisted _ Hun) in Hidx.
  split; [exact Hidx|].
  apply country_written; try assumption; rewrite Hidx; [lia|reflexivity].
Qed.

Lemma unlisted_country_replaced_by_first_witness :
  user_data unlisted_country !! "c" = Some (Scalar (SStr "DE"))
  /\ exists modifications,
       save_changes unlisted_country = Ret (Modify modifications)
       /\ modifications !! "c" = Some [(MODIFY_REPLACE, [SStr "US"])].
Proof.
  split; [reflexivity|].
  destruct (unlisted_country_replaced_by_first unlisted_country)
    as (_ & m & Hsave & Hc & _).
  - split; [right; eexists; reflexivity | simpl; lia].
  - reflexivity.
  - refine (bool_decide_unpack _ _). vm_compute. exact I.
  - intros country_name code country_num [= <-] H. unfold countries in H.
    repeat (apply elem_of_cons in H as [[=]|H]).
    now apply elem_of_nil in H.
  - reflexivity.
  - now exists m.
Defined.

End CountryFacts.
